(** * DNS-01 challenge providers: Cloudflare and Infoblox

    Shallow embedding of [providers/dns/cloudflare/cloudflare.go] and of the
    Infoblox provider (package [infoblox]), with the facts the
    specification states about [NewDNSProviderConfig], [Timeout], [Present]
    and [CleanUp].

    Conventions.
    - Go [int] and [time.Duration] are [Z]; [uint32(x)] is [x mod 2^32].
    - Go [string] is [string] (a sequence of bytes).
    - [map[string]string] is [gmap string string].
    - A method of [*DNSProvider] is a computation in the monad [M]: it reads
      and updates the provider, talks to the collaborators (vendor client,
      resolver) through oracles over an abstract world [W], and appends one
      event per collaborator call or log line to a trace.
    - The mutexes guard single map operations; the model is sequential, so
      [Lock]/[Unlock] leave no mark. *)

From Stdlib Require Import ZArith.
From stdpp Require Import base strings gmap list.

(** ** Errors of the collaborators

    Vendor clients and the resolver return Go [error] values that the
    providers only wrap ([%w]) or log.  The constructors follow the
    taxonomy of the specification. *)
Inductive ext_error : Type :=
  | ZoneNotFound
  | AuthenticationError
  | TransportError
  | RecordCreateError (detail : string)
  | RecordNotFound
  | OtherError (detail : string).

(** ** State and error monad of a provider method *)
Module runtime.

(** What a method can touch: the provider behind the receiver pointer,
    the outside world, and the log of what was done to it. *)
Record State (P W Ev : Type) : Type := mkState {
  provider : P;
  world : W;
  trace : list Ev;
}.
Arguments mkState {P W Ev} _ _ _.
Arguments provider {P W Ev} _.
Arguments world {P W Ev} _.
Arguments trace {P W Ev} _.

Section monad.
Context {S E : Type}.

(** A Go function returning [(A, error)]: the state survives a failure. *)
Definition M (A : Type) : Type := S → (E + A) * S.

Definition ret {A} (a : A) : M A := λ s, (inr a, s).

Definition fail {A} (e : E) : M A := λ s, (inl e, s).

Definition bind {A B} (m : M A) (k : A → M B) : M B :=
  λ s, match m s with
       | (inl e, s') => (inl e, s')
       | (inr a, s') => k a s'
       end.

Definition gets {A} (f : S → A) : M A := λ s, (inr (f s), s).

Definition modify (f : S → S) : M unit := λ s, (inr tt, f s).

(** [defer]: [cleanup] runs on every exit path of [body]. *)
Definition defer {A} (cleanup : S → S) (body : M A) : M A :=
  λ s, let '(r, s') := body s in (r, cleanup s').
End monad.
Arguments M : clear implicits.

Section state.
Context {P W Ev E : Type}.

(** [x, err := op(...)]: one collaborator call, recorded as [ev]. *)
Definition call {A} (ev : Ev) (op : W → (ext_error + A) * W)
  : M (State P W Ev) E (ext_error + A) :=
  λ s, let '(r, w') := op (world s) in
       (inr r, mkState (provider s) w' (trace s ++ [ev])).

(** A call whose only result is its error. *)
Definition call_ (ev : Ev) (op : W → option ext_error * W)
  : M (State P W Ev) E (option ext_error) :=
  λ s, let '(r, w') := op (world s) in
       (inr r, mkState (provider s) w' (trace s ++ [ev])).

(** [if err != nil { return wrap(err) }] *)
Definition check {A} (r : ext_error + A) (wrap : ext_error → E)
  : M (State P W Ev) E A :=
  match r with
  | inl err => fail (wrap err)
  | inr a => ret a
  end.

Definition emit (ev : Ev) : M (State P W Ev) E unit :=
  modify (λ s, mkState (provider s) (world s) (trace s ++ [ev])).

Definition update (f : P → P) : M (State P W Ev) E unit :=
  modify (λ s, mkState (f (provider s)) (world s) (trace s)).

(** The events a call appended to the trace. *)
Definition new_events (s s' : State P W Ev) : list Ev :=
  drop (length (trace s)) (trace s').

Definition with_world (w : W) (s : State P W Ev) : State P W Ev :=
  mkState (provider s) w (trace s).
End state.

(** The two mutating methods of the interface [challenge.Provider], as a
    caller invokes them. *)
Inductive Call : Type :=
  | CallPresent (domain token keyAuth : string)
  | CallCleanUp (domain token keyAuth : string).

Definition call_args (c : Call) : string * string * string :=
  match c with
  | CallPresent domain token keyAuth => (domain, token, keyAuth)
  | CallCleanUp domain token keyAuth => (domain, token, keyAuth)
  end.

Section history.
Context {P W Ev E : Type}.
Variable run : Call → M (State P W Ev) E unit.

(** A caller's use of one provider: calls one after the other, each with
    its result; between two calls the outside world may change on its own
    (records deleted out of band, zones added, sessions expiring). *)
Inductive history :
  State P W Ev → list (Call * (E + unit)) → State P W Ev → Prop :=
  | history_nil s : history s [] s
  | history_snoc s h s1 w c r s2 :
      history s h s1 →
      run c (with_world w s1) = (r, s2) →
      history s (h ++ [(c, r)]) s2.

(** [token] was stored by a successful [Present] somewhere in [h]. *)
Definition presented (token : string) (h : list (Call * (E + unit))) : Prop :=
  ∃ domain keyAuth, (CallPresent domain token keyAuth, inr tt) ∈ h.
End history.

(** The tokens a history leaves outstanding: a successful [Present] adds
    its token, a successful [CleanUp] takes its token away, a failed call
    changes nothing. *)
Definition outstanding_step {E : Type} (acc : gset string)
    (entry : Call * (E + unit)) : gset string :=
  match entry with
  | (CallPresent _ token _, inr _) => {[ token ]} ∪ acc
  | (CallCleanUp _ token _, inr _) => acc ∖ {[ token ]}
  | (_, inl _) => acc
  end.

Definition outstanding {E : Type} (start : gset string)
    (h : list (Call * (E + unit))) : gset string :=
  foldl outstanding_step start h.

End runtime.

Declare Scope go_scope.
Delimit Scope go_scope with go.
Notation "'let*' x ':=' m 'in' k" := (runtime.bind m (λ x, k))
  (at level 10, x name, m at level 100, k at level 200) : go_scope.
Notation "m ';;' k" := (runtime.bind m (λ _, k))
  (at level 100, k at level 200, right associativity) : go_scope.
Open Scope go_scope.

(** ** Package [dns01] *)
Module dns01.

Record ChallengeInfo : Type := mkChallengeInfo {
  EffectiveFQDN : string;
  Value : string;
}.

(** The byte [.] that ends an absolute name. *)
Definition dot : Ascii.ascii := Ascii.ascii_of_nat 46.

(** Modelled from the spec: [dns01.UnFqdn] is not part of the sources at
    hand.  It yields the relative form of a name, the trailing dot
    stripped; a name without a trailing dot is returned as it is. *)
Fixpoint UnFqdn (name : string) : string :=
  match name with
  | EmptyString => EmptyString
  | String c EmptyString =>
      if Ascii.eqb c dot then EmptyString else name
  | String c rest => String c (UnFqdn rest)
  end.

(** Modelled from the spec: normalisation of a name to the absolute
    (trailing-dot) form. *)
Fixpoint ToFqdn (name : string) : string :=
  match name with
  | EmptyString => String dot EmptyString
  | String c EmptyString =>
      if Ascii.eqb c dot then name else String c (String dot EmptyString)
  | String c rest => String c (ToFqdn rest)
  end.

(** Whether the last byte of a name is a dot. *)
Fixpoint ends_with_dot (name : string) : bool :=
  match name with
  | EmptyString => false
  | String c EmptyString => Ascii.eqb c dot
  | String _ rest => ends_with_dot rest
  end.

(** The fixed validation label. *)
Definition challengeLabel : string := "_acme-challenge.".

Section derive.
(** The one-way digest shared with the validating authority. *)
Variable digest : string → string.

(** Modelled from the spec: [dns01.GetChallengeInfo] is not part of the
    sources at hand.  The effective name is the validation label
    followed by the domain, in absolute form; the expected value is
    the digest of the key material.  The providers call it with the
    domain and the key authorization (which contains the token). *)
Definition GetChallengeInfo (domain keyAuth : string) : ChallengeInfo :=
  {| EffectiveFQDN := ToFqdn (challengeLabel +:+ domain);
     Value := digest keyAuth |}.
End derive.

End dns01.

(** ** Package [time] *)
Module time.
(** A [Duration] counts nanoseconds. *)
Definition Second : Z := 1000000000.
Definition Minute : Z := 60 * Second.
End time.

(** ** Package [strings] of the Go library *)
Module gostrings.

(** [strings.ReplaceAll(s, old, new)] for a non-empty [old]: the
    occurrences of [old] are replaced from the left, without overlap.
    [skip] counts the bytes of a replaced occurrence still to pass. *)
Fixpoint replace_from (old new : string) (skip : nat) (s : string) : string :=
  match s with
  | EmptyString => EmptyString
  | String c rest =>
      match skip with
      | S k => replace_from old new k rest
      | O =>
          if String.prefix old s
          then new +:+ replace_from old new (String.length old - 1) rest
          else String c (replace_from old new 0 rest)
      end
  end.

Definition ReplaceAll (s old new : string) : string :=
  replace_from old new 0 s.

(** Whether a byte occurs in a string. *)
Fixpoint contains_byte (c : Ascii.ascii) (s : string) : bool :=
  match s with
  | EmptyString => false
  | String c' rest => Ascii.eqb c c' || contains_byte c rest
  end.
End gostrings.

(** ** Package [platform/config/env]

    The package is not part of the sources at hand; what the providers
    call is taken as given: a reader of the process environment. *)
Module env.
Record Reader : Type := mkReader {
  (* GetOneWithFallback(main, defaultValue, strconv.Atoi, names...) *)
  GetOneWithFallback_int : string → Z → list string → Z;
  (* GetOneWithFallback(main, defaultValue, env.ParseSecond, names...) *)
  GetOneWithFallback_second : string → Z → list string → Z;
  GetWithFallback : list (list string) → ext_error + gmap string string;
  Get : list string → ext_error + gmap string string;
  GetOrFile : string → string;
  GetOrDefaultString : string → string → string;
  GetOrDefaultBool : string → bool → bool;
  GetOrDefaultInt : string → Z → Z;
  GetOrDefaultSecond : string → Z → Z;
}.

(** [values[key]] on a Go map: the empty string for a missing key. *)
Definition index (values : gmap string string) (key : string) : string :=
  default EmptyString (values !! key).
End env.

(** ** Package [cloudflare] *)
Module cloudflare.

Module http.
Record Client : Type := mkClient { Timeout : Z }.
End http.

(** The record type of package [cloudflare/internal], by the fields the
    provider writes ([Type], [Name], [Content], [TTL]) and reads ([ID]). *)
Module internal.
Record Record_ : Type := mkRecord {
  Type_ : string;
  Name : string;
  Content : string;
  TTL : Z;
  ID : string;
}.
End internal.

Definition minTTL : Z := 120.

Record Config : Type := mkConfig {
  AuthEmail : string;
  AuthKey : string;
  AuthToken : string;
  ZoneToken : string;
  BaseURL : string;
  TTL : Z;
  PropagationTimeout : Z;
  PollingInterval : Z;
  HTTPClient : option http.Client;
}.

(** [*metaClient]: the three calls the provider makes on it, each an
    oracle over the world (an HTTP round trip to the vendor API). *)
Record metaClient (W : Type) : Type := mkMetaClient {
  ZoneIDByName : string → W → (ext_error + string) * W;
  CreateDNSRecord :
    string → internal.Record_ → W → (ext_error + internal.Record_) * W;
  DeleteDNSRecord : string → string → W → option ext_error * W;
}.
Arguments ZoneIDByName {W} _ _ _.
Arguments CreateDNSRecord {W} _ _ _ _.
Arguments DeleteDNSRecord {W} _ _ _ _.

Record DNSProvider (W : Type) : Type := mkDNSProvider {
  client : metaClient W;
  config : Config;
  recordIDs : gmap string string;
}.
Arguments mkDNSProvider {W} _ _ _.
Arguments client {W} _.
Arguments config {W} _.
Arguments recordIDs {W} _.

(** One constructor per [return] of an error in the package. *)
Inductive error : Type :=
  | ErrNilConfig
    (* "cloudflare: the configuration of the DNS provider is nil" *)
  | ErrInvalidTTL (ttl min : Z)
    (* "cloudflare: invalid TTL, TTL (%d) must be greater than %d" *)
  | ErrNewClient (err : ext_error)
    (* "cloudflare: %w" *)
  | ErrFindZone (domain : string) (err : ext_error)
    (* "cloudflare: could not find zone for domain %q: %w" *)
  | ErrZoneID (authZone : string) (err : ext_error)
    (* "cloudflare: failed to find zone %s: %w" *)
  | ErrCreate (err : ext_error)
    (* "cloudflare: failed to create TXT record: %w" *)
  | ErrUnknownRecordID (effectiveFQDN : string)
    (* "cloudflare: unknown record ID for '%s'" *).

(** What the provider does to the outside. *)
Inductive Event : Type :=
  | EvFindZoneByFqdn (fqdn : string)
  | EvZoneIDByName (authZone : string)
  | EvCreateDNSRecord (zoneID : string) (dnsRecord : internal.Record_)
  | EvDeleteDNSRecord (zoneID recordID : string)
  | EvLogInfof (domain recordID : string)
    (* "cloudflare: new record for %s, ID %s" *)
  | EvLogPrintf (err : ext_error)
    (* "cloudflare: failed to delete TXT record: %v" *).

Definition quote : string := String (Ascii.ascii_of_nat 34) EmptyString.

Definition set_recordIDs {W} (f : gmap string string → gmap string string)
    (d : DNSProvider W) : DNSProvider W :=
  mkDNSProvider (client d) (config d) (f (recordIDs d)).

Section provider.
Context {W : Type}.
(** [newClient] lives in another file of the package. *)
Variable newClient : Config → ext_error + metaClient W.
(** [dns01.FindZoneByFqdn] queries the resolver. *)
Variable FindZoneByFqdn : string → W → (ext_error + string) * W.
Variable digest : string → string.

Abbreviation State := (runtime.State (DNSProvider W) W Event).
Abbreviation M := (runtime.M State error).

Definition NewDNSProviderConfig (config : option Config)
  : error + DNSProvider W :=
  match config with
  | None => inl ErrNilConfig
  | Some config =>
      if (TTL config <? minTTL)%Z then
        inl (ErrInvalidTTL (TTL config) minTTL)
      else
        match newClient config with
        | inl err => inl (ErrNewClient err)
        | inr client => inr (mkDNSProvider client config ∅)
        end
  end.

Definition Timeout : M (Z * Z) :=
  let* d := runtime.gets runtime.provider in
  runtime.ret (PropagationTimeout (config d), PollingInterval (config d)).

Definition Present (domain token keyAuth : string) : M unit :=
  let info := dns01.GetChallengeInfo digest domain keyAuth in
  let* r := runtime.call (EvFindZoneByFqdn (dns01.EffectiveFQDN info))
              (FindZoneByFqdn (dns01.EffectiveFQDN info)) in
  let* authZone := runtime.check r (ErrFindZone domain) in
  let* d := runtime.gets runtime.provider in
  let* r := runtime.call (EvZoneIDByName authZone)
              (ZoneIDByName (client d) authZone) in
  let* zoneID := runtime.check r (ErrZoneID authZone) in
  let dnsRecord :=
    {| internal.Type_ := "TXT";
       internal.Name := dns01.UnFqdn (dns01.EffectiveFQDN info);
       internal.Content := quote +:+ dns01.Value info +:+ quote;
       internal.TTL := TTL (config d);
       internal.ID := EmptyString |} in
  let* r := runtime.call (EvCreateDNSRecord zoneID dnsRecord)
              (CreateDNSRecord (client d) zoneID dnsRecord) in
  let* response := runtime.check r ErrCreate in
  runtime.update (set_recordIDs <[token := internal.ID response]>) ;;
  runtime.emit (EvLogInfof domain (internal.ID response)) ;;
  runtime.ret tt.

Definition CleanUp (domain token keyAuth : string) : M unit :=
  let info := dns01.GetChallengeInfo digest domain keyAuth in
  let* r := runtime.call (EvFindZoneByFqdn (dns01.EffectiveFQDN info))
              (FindZoneByFqdn (dns01.EffectiveFQDN info)) in
  let* authZone := runtime.check r (ErrFindZone domain) in
  let* d := runtime.gets runtime.provider in
  let* r := runtime.call (EvZoneIDByName authZone)
              (ZoneIDByName (client d) authZone) in
  let* zoneID := runtime.check r (ErrZoneID authZone) in
  (* get the record's unique ID from when we created it *)
  let* d := runtime.gets runtime.provider in
  match recordIDs d !! token with
  | None =>
      runtime.fail (ErrUnknownRecordID (dns01.EffectiveFQDN info))
  | Some recordID =>
      let* err := runtime.call_ (EvDeleteDNSRecord zoneID recordID)
                    (DeleteDNSRecord (client d) zoneID recordID) in
      match err with
      | Some err => runtime.emit (EvLogPrintf err)
      | None => runtime.ret tt
      end ;;
      (* Delete record ID from map *)
      runtime.update (set_recordIDs (delete token)) ;;
      runtime.ret tt
  end.

Definition run_call (c : runtime.Call) : M unit :=
  match c with
  | runtime.CallPresent domain token keyAuth => Present domain token keyAuth
  | runtime.CallCleanUp domain token keyAuth => CleanUp domain token keyAuth
  end.

(** The value of [dnsRecord] in [Present], named for the statements. *)
Definition dnsRecord_of (d : DNSProvider W) (domain keyAuth : string)
  : internal.Record_ :=
  let info := dns01.GetChallengeInfo digest domain keyAuth in
  {| internal.Type_ := "TXT";
     internal.Name := dns01.UnFqdn (dns01.EffectiveFQDN info);
     internal.Content := quote +:+ dns01.Value info +:+ quote;
     internal.TTL := TTL (config d);
     internal.ID := EmptyString |}.
End provider.

(** Which events are calls of the vendor's delete and create. *)
Definition is_delete (ev : Event) : bool :=
  match ev with EvDeleteDNSRecord _ _ => true | _ => false end.

Definition created (ev : Event) : option internal.Record_ :=
  match ev with EvCreateDNSRecord _ r => Some r | _ => None end.

Definition looked_up (ev : Event) : option string :=
  match ev with EvFindZoneByFqdn fqdn => Some fqdn | _ => None end.

(** The effective name an error message quotes. *)
Definition quoted (err : error) : option string :=
  match err with ErrUnknownRecordID fqdn => Some fqdn | _ => None end.

Section events.
Context {W : Type}.
Variable digest : string → string.
Implicit Types (s : runtime.State (DNSProvider W) W Event).

(** The events [Present] may append: never a delete; a create carries the
    record built from the challenge; a zone lookup asks for the effective
    name. *)
Definition cf_Present_event s (domain keyAuth : string) (ev : Event)
  : Prop :=
  is_delete ev = false
  ∧ (∀ r, created ev = Some r →
          r = dnsRecord_of digest (runtime.provider s) domain keyAuth)
  ∧ (∀ fqdn,
       looked_up ev = Some fqdn →
       fqdn
       = dns01.EffectiveFQDN (dns01.GetChallengeInfo digest domain keyAuth)).

(** The events [CleanUp] may append: never a create; a delete only for the
    identifier stored under the token. *)
Definition cf_CleanUp_event s (domain token keyAuth : string) (ev : Event)
  : Prop :=
  created ev = None
  ∧ (∀ fqdn,
       looked_up ev = Some fqdn →
       fqdn
       = dns01.EffectiveFQDN (dns01.GetChallengeInfo digest domain keyAuth))
  ∧ (is_delete ev = true →
     ∃ zoneID recordID,
       ev = EvDeleteDNSRecord zoneID recordID
       ∧ recordIDs (runtime.provider s) !! token = Some recordID).
End events.

(** Environment variables names. *)
Definition envNamespace : string := "CLOUDFLARE_".

Definition EnvEmail : string := envNamespace +:+ "EMAIL".
Definition EnvAPIKey : string := envNamespace +:+ "API_KEY".

Definition EnvDNSAPIToken : string := envNamespace +:+ "DNS_API_TOKEN".
Definition EnvZoneAPIToken : string := envNamespace +:+ "ZONE_API_TOKEN".

Definition EnvBaseURL : string := envNamespace +:+ "BASE_URL".

Definition EnvTTL : string := envNamespace +:+ "TTL".
Definition EnvPropagationTimeout : string :=
  envNamespace +:+ "PROPAGATION_TIMEOUT".
Definition EnvPollingInterval : string := envNamespace +:+ "POLLING_INTERVAL".
Definition EnvHTTPTimeout : string := envNamespace +:+ "HTTP_TIMEOUT".

Definition altEnvNamespace : string := "CF_".

Definition altEnvEmail : string := altEnvNamespace +:+ "API_EMAIL".

Definition altEnvName (v : string) : string :=
  gostrings.ReplaceAll v envNamespace altEnvNamespace.

(** The errors of [NewDNSProvider]: its own, and those it passes on from
    [NewDNSProviderConfig]. *)
Inductive provider_error : Type :=
  | ErrCredentials (err errT : ext_error)
    (* "cloudflare: %v or %v" *)
  | ErrFromConfig (err : error).

Section environment.
Context {W : Type}.
Variable getenv : env.Reader.
(** [dns01.DefaultPollingInterval] *)
Variable DefaultPollingInterval : Z.
Variable newClient : Config → ext_error + metaClient W.

Definition NewDefaultConfig : Config :=
  {| AuthEmail := EmptyString;
     AuthKey := EmptyString;
     AuthToken := EmptyString;
     ZoneToken := EmptyString;
     BaseURL := EmptyString;
     TTL :=
       env.GetOneWithFallback_int getenv EnvTTL minTTL [altEnvName EnvTTL];
     PropagationTimeout :=
       env.GetOneWithFallback_second getenv EnvPropagationTimeout
         (2 * time.Minute) [altEnvName EnvPropagationTimeout];
     PollingInterval :=
       env.GetOneWithFallback_second getenv EnvPollingInterval
         DefaultPollingInterval [altEnvName EnvPollingInterval];
     HTTPClient :=
       Some {| http.Timeout :=
                 env.GetOneWithFallback_second getenv EnvHTTPTimeout
                   (30 * time.Second) [altEnvName EnvHTTPTimeout] |} |}.

(** The two credential lookups of [NewDNSProvider]: e-mail and API key
    first, then the API tokens. *)
Definition keyGroups : list (list string) :=
  [[EnvEmail; altEnvEmail]; [EnvAPIKey; altEnvName EnvAPIKey]].

Definition tokenGroups : list (list string) :=
  [[EnvDNSAPIToken; altEnvName EnvDNSAPIToken];
   [EnvZoneAPIToken; altEnvName EnvZoneAPIToken;
    EnvDNSAPIToken; altEnvName EnvDNSAPIToken]].

Definition NewDNSProvider : provider_error + DNSProvider W :=
  let lookup :=
    match env.GetWithFallback getenv keyGroups with
    | inr values => inr values
    | inl err =>
        match env.GetWithFallback getenv tokenGroups with
        | inr values => inr values
        | inl errT => inl (ErrCredentials err errT)
        end
    end in
  match lookup with
  | inl err => inl err
  | inr values =>
      let config := NewDefaultConfig in
      let config :=
        {| AuthEmail := env.index values EnvEmail;
           AuthKey := env.index values EnvAPIKey;
           AuthToken := env.index values EnvDNSAPIToken;
           ZoneToken := env.index values EnvZoneAPIToken;
           BaseURL := env.GetOrFile getenv EnvBaseURL;
           TTL := TTL config;
           PropagationTimeout := PropagationTimeout config;
           PollingInterval := PollingInterval config;
           HTTPClient := HTTPClient config |} in
      match NewDNSProviderConfig newClient (Some config) with
      | inl err => inl (ErrFromConfig err)
      | inr d => inr d
      end
  end.
End environment.

End cloudflare.

(** ** Package [infoblox] *)
Module infoblox.

(** The vendor library [infoblox-go-client], by what the provider hands to
    it and reads from it. *)
Module ibclient.
Record HostConfig : Type := mkHostConfig {
  HostConfig_Host : string;
  HostConfig_Version : string;
  HostConfig_Port : string;
}.

Record AuthConfig : Type := mkAuthConfig {
  AuthConfig_Username : string;
  AuthConfig_Password : string;
}.

(** The [TransportConfig] of the library, by its exported fields.  The
    library builds it in [NewTransportConfig(sslVerify, httpRequestTimeout,
    httpPoolConnections)], which interprets [sslVerify] (a flag, or the
    path of a certificate file that it reads); what that function returns
    is not fixed here: the provider takes the function as given. *)
Record TransportConfig : Type := mkTransportConfig {
  SslVerify : bool;
  HttpRequestTimeout : Z;
  HttpPoolConnections : Z;
}.

Record Connector : Type := mkConnector {
  connHost : HostConfig;
  connAuth : AuthConfig;
  connTransport : TransportConfig;
}.

Record RecordTXT : Type := mkRecordTXT { Ref : string }.

(** The calls into the library, each an oracle over the world. *)
Record Library (W : Type) : Type := mkLibrary {
  NewConnector :
    HostConfig → AuthConfig → TransportConfig → W →
    (ext_error + Connector) * W;
  Logout : Connector → W → option ext_error * W;
  (* dnsview, recordname, text, ttl, useTtl, comment *)
  CreateTXTRecord :
    Connector → string → string → string → Z → bool → string → W →
    (ext_error + RecordTXT) * W;
  DeleteTXTRecord : Connector → string → W → (ext_error + string) * W;
}.
Arguments NewConnector {W} _ _ _ _ _.
Arguments Logout {W} _ _ _.
Arguments CreateTXTRecord {W} _ _ _ _ _ _ _ _ _.
Arguments DeleteTXTRecord {W} _ _ _ _.
End ibclient.

Definition defaultPoolConnections : Z := 10.

Record Config : Type := mkConfig {
  Host : string;
  Port : string;
  Username : string;
  Password : string;
  DNSView : string;
  WapiVersion : string;
  SSLVerify : bool;
  CACertificate : string;
  PropagationTimeout : Z;
  PollingInterval : Z;
  TTL : Z;
  HTTPTimeout : Z;
}.

Record DNSProvider : Type := mkDNSProvider {
  config : Config;
  transportConfig : ibclient.TransportConfig;
  ibConfig : ibclient.HostConfig;
  ibAuth : ibclient.AuthConfig;
  recordRefs : gmap string string;
}.

(** One constructor per [return] of an error in the package. *)
Inductive error : Type :=
  | ErrNilConfig
    (* "infoblox: the configuration of the DNS provider is nil" *)
  | ErrMissingHost
    (* "infoblox: missing host" *)
  | ErrMissingCredentials
    (* "infoblox: missing credentials" *)
  | ErrConnector (err : ext_error)
    (* "infoblox: %w" *)
  | ErrCreate (domain : string) (err : ext_error)
    (* "infoblox: could not create TXT record for %s: %w" *)
  | ErrUnknownRecordID (effectiveFQDN token : string)
    (* "infoblox: unknown record ID for '%s' '%s'" *)
  | ErrDelete (domain : string) (err : ext_error)
    (* "infoblox: could not delete TXT record for %s: %w" *).

Inductive Event : Type :=
  | EvNewConnector (host : ibclient.HostConfig) (auth : ibclient.AuthConfig)
      (transport : ibclient.TransportConfig)
  | EvLogout
  | EvCreateTXTRecord (dnsview recordname text : string) (ttl : Z)
      (useTtl : bool) (comment : string)
  | EvDeleteTXTRecord (ref : string).

(** [strconv.FormatBool] *)
Definition FormatBool (b : bool) : string :=
  if b then "true" else "false".

(** The conversion [uint32(x)] of an [int]. *)
Definition uint32 (x : Z) : Z := (x mod 2 ^ 32)%Z.

Definition set_recordRefs (f : gmap string string → gmap string string)
    (d : DNSProvider) : DNSProvider :=
  mkDNSProvider (config d) (transportConfig d) (ibConfig d) (ibAuth d)
    (f (recordRefs d)).

Section construction.
(** [infoblox.NewTransportConfig] of the library *)
Variable NewTransportConfig : string → Z → Z → ibclient.TransportConfig.

Definition NewDNSProviderConfig (config : option Config)
  : error + DNSProvider :=
  match config with
  | None => inl ErrNilConfig
  | Some config =>
      if String.eqb (Host config) EmptyString then inl ErrMissingHost
      else if String.eqb (Username config) EmptyString
              || String.eqb (Password config) EmptyString
      then inl ErrMissingCredentials
      else
        let sslVerify :=
          if negb (String.eqb (CACertificate config) EmptyString)
          then CACertificate config
          else FormatBool (SSLVerify config) in
        inr {| config := config;
               transportConfig :=
                 NewTransportConfig sslVerify (HTTPTimeout config)
                   defaultPoolConnections;
               ibConfig :=
                 ibclient.mkHostConfig (Host config) (WapiVersion config)
                   (Port config);
               ibAuth :=
                 ibclient.mkAuthConfig (Username config) (Password config);
               recordRefs := ∅ |}
  end.
End construction.

Section provider.
Context {W : Type}.
Variable lib : ibclient.Library W.
Variable digest : string → string.

Abbreviation State := (runtime.State DNSProvider W Event).
Abbreviation M := (runtime.M State error).

Definition Timeout : M (Z * Z) :=
  let* d := runtime.gets runtime.provider in
  runtime.ret (PropagationTimeout (config d), PollingInterval (config d)).

(** [defer func() { _ = connector.Logout() }()] *)
Definition logout (connector : ibclient.Connector) (s : State) : State :=
  let '(_, w') := ibclient.Logout lib connector (runtime.world s) in
  runtime.mkState (runtime.provider s) w' (runtime.trace s ++ [EvLogout]).

Definition Present (domain token keyAuth : string) : M unit :=
  let info := dns01.GetChallengeInfo digest domain keyAuth in
  let* d := runtime.gets runtime.provider in
  let* r := runtime.call
              (EvNewConnector (ibConfig d) (ibAuth d) (transportConfig d))
              (ibclient.NewConnector lib (ibConfig d) (ibAuth d)
                 (transportConfig d)) in
  let* connector := runtime.check r ErrConnector in
  runtime.defer (logout connector) (
    let name := dns01.UnFqdn (dns01.EffectiveFQDN info) in
    let ttl := uint32 (TTL (config d)) in
    let* r := runtime.call
                (EvCreateTXTRecord (DNSView (config d)) name
                   (dns01.Value info) ttl true "lego")
                (ibclient.CreateTXTRecord lib connector (DNSView (config d))
                   name (dns01.Value info) ttl true "lego") in
    let* record := runtime.check r (ErrCreate domain) in
    runtime.update (set_recordRefs <[token := ibclient.Ref record]>) ;;
    runtime.ret tt).

Definition CleanUp (domain token keyAuth : string) : M unit :=
  let info := dns01.GetChallengeInfo digest domain keyAuth in
  let* d := runtime.gets runtime.provider in
  let* r := runtime.call
              (EvNewConnector (ibConfig d) (ibAuth d) (transportConfig d))
              (ibclient.NewConnector lib (ibConfig d) (ibAuth d)
                 (transportConfig d)) in
  let* connector := runtime.check r ErrConnector in
  runtime.defer (logout connector) (
    (* gets the record's unique ref from when we created it *)
    let* d := runtime.gets runtime.provider in
    match recordRefs d !! token with
    | None =>
        runtime.fail
          (ErrUnknownRecordID (dns01.EffectiveFQDN info) token)
    | Some recordRef =>
        let* r := runtime.call (EvDeleteTXTRecord recordRef)
                    (ibclient.DeleteTXTRecord lib connector recordRef) in
        let* _ref := runtime.check r (ErrDelete domain) in
        (* Delete record ref from map *)
        runtime.update (set_recordRefs (delete token)) ;;
        runtime.ret tt
    end).

Definition run_call (c : runtime.Call) : M unit :=
  match c with
  | runtime.CallPresent domain token keyAuth => Present domain token keyAuth
  | runtime.CallCleanUp domain token keyAuth => CleanUp domain token keyAuth
  end.
End provider.

(** Which events are calls of the vendor's delete and create; a create
    carries the record name and the text. *)
Definition is_delete (ev : Event) : bool :=
  match ev with EvDeleteTXTRecord _ => true | _ => false end.

Definition created (ev : Event) : option (string * string) :=
  match ev with
  | EvCreateTXTRecord _ recordname text _ _ _ => Some (recordname, text)
  | _ => None
  end.

(** The effective name an error message quotes. *)
Definition quoted (err : error) : option string :=
  match err with ErrUnknownRecordID fqdn _ => Some fqdn | _ => None end.

Section events.
Context {W : Type}.
Variable digest : string → string.
Implicit Types (s : runtime.State DNSProvider W Event).

(** The events [Present] may append: never a delete; a create carries the
    relative name and the value derived from the challenge. *)
Definition ib_Present_event (domain keyAuth : string) (ev : Event) : Prop :=
  is_delete ev = false
  ∧ (∀ nv,
       created ev = Some nv →
       let info := dns01.GetChallengeInfo digest domain keyAuth in
       nv = (dns01.UnFqdn (dns01.EffectiveFQDN info), dns01.Value info)).

(** The events [CleanUp] may append: never a create; a delete only for the
    reference stored under the token. *)
Definition ib_CleanUp_event s (token : string) (ev : Event) : Prop :=
  created ev = None
  ∧ (is_delete ev = true →
     ∃ recordRef,
       ev = EvDeleteTXTRecord recordRef
       ∧ recordRefs (runtime.provider s) !! token = Some recordRef).
End events.

(** Environment variables names. *)
Definition envNamespace : string := "INFOBLOX_".

Definition EnvHost : string := envNamespace +:+ "HOST".
Definition EnvPort : string := envNamespace +:+ "PORT".
Definition EnvUsername : string := envNamespace +:+ "USERNAME".
Definition EnvPassword : string := envNamespace +:+ "PASSWORD".
Definition EnvDNSView : string := envNamespace +:+ "DNS_VIEW".
Definition EnvWApiVersion : string := envNamespace +:+ "WAPI_VERSION".
Definition EnvSSLVerify : string := envNamespace +:+ "SSL_VERIFY".
Definition EnvCACertificate : string := envNamespace +:+ "CA_CERTIFICATE".

Definition EnvTTL : string := envNamespace +:+ "TTL".
Definition EnvPropagationTimeout : string :=
  envNamespace +:+ "PROPAGATION_TIMEOUT".
Definition EnvPollingInterval : string := envNamespace +:+ "POLLING_INTERVAL".
Definition EnvHTTPTimeout : string := envNamespace +:+ "HTTP_TIMEOUT".

(** The errors of [NewDNSProvider]: its own, and those it passes on from
    [NewDNSProviderConfig]. *)
Inductive provider_error : Type :=
  | ErrEnv (err : ext_error)
    (* "infoblox: %w" *)
  | ErrFromConfig (err : error).

Section environment.
Variable getenv : env.Reader.
(** [infoblox.NewTransportConfig] of the library *)
Variable NewTransportConfig : string → Z → Z → ibclient.TransportConfig.
(** [dns01.DefaultTTL], [dns01.DefaultPropagationTimeout] and
    [dns01.DefaultPollingInterval] *)
Variables DefaultTTL DefaultPropagationTimeout DefaultPollingInterval : Z.

Definition NewDefaultConfig : Config :=
  {| Host := EmptyString;
     Port := env.GetOrDefaultString getenv EnvPort "443";
     Username := EmptyString;
     Password := EmptyString;
     DNSView := env.GetOrDefaultString getenv EnvDNSView "External";
     WapiVersion := env.GetOrDefaultString getenv EnvWApiVersion "2.11";
     SSLVerify := env.GetOrDefaultBool getenv EnvSSLVerify true;
     CACertificate :=
       env.GetOrDefaultString getenv EnvCACertificate EmptyString;
     PropagationTimeout :=
       env.GetOrDefaultSecond getenv EnvPropagationTimeout
         DefaultPropagationTimeout;
     PollingInterval :=
       env.GetOrDefaultSecond getenv EnvPollingInterval
         DefaultPollingInterval;
     TTL := env.GetOrDefaultInt getenv EnvTTL DefaultTTL;
     HTTPTimeout := env.GetOrDefaultInt getenv EnvHTTPTimeout 30 |}.

Definition NewDNSProvider : provider_error + DNSProvider :=
  match env.Get getenv [EnvHost; EnvUsername; EnvPassword] with
  | inl err => inl (ErrEnv err)
  | inr values =>
      let config := NewDefaultConfig in
      let config :=
        {| Host := env.index values EnvHost;
           Port := Port config;
           Username := env.index values EnvUsername;
           Password := env.index values EnvPassword;
           DNSView := DNSView config;
           WapiVersion := WapiVersion config;
           SSLVerify := SSLVerify config;
           CACertificate := CACertificate config;
           PropagationTimeout := PropagationTimeout config;
           PollingInterval := PollingInterval config;
           TTL := TTL config;
           HTTPTimeout := HTTPTimeout config |} in
      match NewDNSProviderConfig NewTransportConfig (Some config) with
      | inl err => inl (ErrFromConfig err)
      | inr d => inr d
      end
  end.
End environment.

End infoblox.

(** ** Concrete collaborators, for running the providers

    A small vendor: the world is the list of record references that are
    live at the vendor. *)
Module fixture.

Definition World : Type := list string.

Definition remove (ref : string) (w : World) : World :=
  filter (λ x, x ≠ ref) w.

Definition live (ref : string) (w : World) : bool :=
  existsb (String.eqb ref) w.

Definition digest (keyAuth : string) : string := "digest-of-" +:+ keyAuth.

Definition FindZoneByFqdn (fqdn : string) (w : World)
  : (ext_error + string) * World :=
  (inr "example.com.", w).

(** A client whose credentials can read zones and edit records. *)
Definition client_ok : cloudflare.metaClient World :=
  {| cloudflare.ZoneIDByName := λ _ w, (inr "zone-1", w);
     cloudflare.CreateDNSRecord := λ _ r w,
       (inr (cloudflare.internal.mkRecord
               (cloudflare.internal.Type_ r) (cloudflare.internal.Name r)
               (cloudflare.internal.Content r) (cloudflare.internal.TTL r)
               "rec-1"),
        "rec-1" :: w);
     cloudflare.DeleteDNSRecord := λ _ recordID w,
       if live recordID w then (None, remove recordID w)
       else (Some RecordNotFound, w) |}.

(** A client whose token cannot read zones. *)
Definition client_denied : cloudflare.metaClient World :=
  {| cloudflare.ZoneIDByName := λ _ w, (inl AuthenticationError, w);
     cloudflare.CreateDNSRecord := cloudflare.CreateDNSRecord client_ok;
     cloudflare.DeleteDNSRecord := cloudflare.DeleteDNSRecord client_ok |}.

(** A client whose token cannot create records. *)
Definition client_readonly : cloudflare.metaClient World :=
  {| cloudflare.ZoneIDByName := cloudflare.ZoneIDByName client_ok;
     cloudflare.CreateDNSRecord := λ _ _ w,
       (inl (RecordCreateError "forbidden"), w);
     cloudflare.DeleteDNSRecord := cloudflare.DeleteDNSRecord client_ok |}.

(** A client that loses the connection when it deletes. *)
Definition client_flaky : cloudflare.metaClient World :=
  {| cloudflare.ZoneIDByName := cloudflare.ZoneIDByName client_ok;
     cloudflare.CreateDNSRecord := cloudflare.CreateDNSRecord client_ok;
     cloudflare.DeleteDNSRecord := λ _ _ w, (Some TransportError, w) |}.

Definition newClient (config : cloudflare.Config)
  : ext_error + cloudflare.metaClient World :=
  inr client_ok.

Definition cf_config (ttl : Z) : cloudflare.Config :=
  {| cloudflare.AuthEmail := EmptyString;
     cloudflare.AuthKey := EmptyString;
     cloudflare.AuthToken := "dns-token";
     cloudflare.ZoneToken := "zone-token";
     cloudflare.BaseURL := EmptyString;
     cloudflare.TTL := ttl;
     cloudflare.PropagationTimeout := 120000000000;
     cloudflare.PollingInterval := 2000000000;
     cloudflare.HTTPClient := Some (cloudflare.http.mkClient 30000000000) |}.

Definition cf_provider (client : cloudflare.metaClient World)
    (ids : gmap string string) : cloudflare.DNSProvider World :=
  cloudflare.mkDNSProvider client (cf_config 120) ids.

Definition cf_state (client : cloudflare.metaClient World)
    (ids : gmap string string) (w : World)
  : runtime.State (cloudflare.DNSProvider World) World cloudflare.Event :=
  runtime.mkState (cf_provider client ids) w [].

(** A grid manager that accepts the credentials. *)
Definition lib_ok : infoblox.ibclient.Library World :=
  {| infoblox.ibclient.NewConnector := λ h a t w,
       (inr (infoblox.ibclient.mkConnector h a t), w);
     infoblox.ibclient.Logout := λ _ w, (None, w);
     infoblox.ibclient.CreateTXTRecord := λ _ _ _ _ _ _ _ w,
       (inr (infoblox.ibclient.mkRecordTXT "record:txt/1"),
        "record:txt/1" :: w);
     infoblox.ibclient.DeleteTXTRecord := λ _ ref w,
       if live ref w then (inr ref, remove ref w)
       else (inl RecordNotFound, w) |}.

(** A grid manager that cannot be reached. *)
Definition lib_down : infoblox.ibclient.Library World :=
  {| infoblox.ibclient.NewConnector := λ _ _ _ w, (inl TransportError, w);
     infoblox.ibclient.Logout := infoblox.ibclient.Logout lib_ok;
     infoblox.ibclient.CreateTXTRecord :=
       infoblox.ibclient.CreateTXTRecord lib_ok;
     infoblox.ibclient.DeleteTXTRecord :=
       infoblox.ibclient.DeleteTXTRecord lib_ok |}.

(** A grid manager on which the user may not create records. *)
Definition lib_readonly : infoblox.ibclient.Library World :=
  {| infoblox.ibclient.NewConnector := infoblox.ibclient.NewConnector lib_ok;
     infoblox.ibclient.Logout := infoblox.ibclient.Logout lib_ok;
     infoblox.ibclient.CreateTXTRecord := λ _ _ _ _ _ _ _ w,
       (inl (RecordCreateError "forbidden"), w);
     infoblox.ibclient.DeleteTXTRecord :=
       infoblox.ibclient.DeleteTXTRecord lib_ok |}.

(** A grid manager that loses the connection when it deletes. *)
Definition lib_flaky : infoblox.ibclient.Library World :=
  {| infoblox.ibclient.NewConnector := infoblox.ibclient.NewConnector lib_ok;
     infoblox.ibclient.Logout := infoblox.ibclient.Logout lib_ok;
     infoblox.ibclient.CreateTXTRecord :=
       infoblox.ibclient.CreateTXTRecord lib_ok;
     infoblox.ibclient.DeleteTXTRecord := λ _ _ w, (inl TransportError, w) |}.

Definition ib_config : infoblox.Config :=
  {| infoblox.Host := "grid.example.com";
     infoblox.Port := "443";
     infoblox.Username := "lego";
     infoblox.Password := "secret";
     infoblox.DNSView := "External";
     infoblox.WapiVersion := "2.11";
     infoblox.SSLVerify := true;
     infoblox.CACertificate := EmptyString;
     infoblox.PropagationTimeout := 60000000000;
     infoblox.PollingInterval := 2000000000;
     infoblox.TTL := 120;
     infoblox.HTTPTimeout := 30 |}.

(** A library that verifies certificates unless told "false". *)
Definition NewTransportConfig (sslVerify : string)
    (httpRequestTimeout httpPoolConnections : Z)
  : infoblox.ibclient.TransportConfig :=
  infoblox.ibclient.mkTransportConfig
    (negb (String.eqb sslVerify "false"))
    httpRequestTimeout httpPoolConnections.

Definition ib_provider (refs : gmap string string) : infoblox.DNSProvider :=
  infoblox.mkDNSProvider ib_config
    (infoblox.ibclient.mkTransportConfig true 30 10)
    (infoblox.ibclient.mkHostConfig "grid.example.com" "2.11" "443")
    (infoblox.ibclient.mkAuthConfig "lego" "secret") refs.

Definition ib_state (refs : gmap string string) (w : World)
  : runtime.State infoblox.DNSProvider World infoblox.Event :=
  runtime.mkState (ib_provider refs) w [].

(** A first call on a fresh provider, for another token. *)
Definition present_other : runtime.Call :=
  runtime.CallPresent "example.com" "other" "other.thumb".

Definition cf_after_other
  : runtime.State (cloudflare.DNSProvider World) World cloudflare.Event :=
  (cloudflare.run_call FindZoneByFqdn digest present_other
     (cf_state client_ok ∅ [])).2.

Definition ib_after_other
  : runtime.State infoblox.DNSProvider World infoblox.Event :=
  (infoblox.run_call lib_ok digest present_other (ib_state ∅ [])).2.

(** A process environment with the API tokens of Cloudflare and the
    credentials of the grid manager set, and nothing else. *)
Definition getenv : env.Reader :=
  {| env.GetOneWithFallback_int := λ _ defaultValue _, defaultValue;
     env.GetOneWithFallback_second := λ _ defaultValue _, defaultValue;
     env.GetWithFallback := λ groups,
       match groups with
       | (main :: _) :: _ =>
           if String.eqb main cloudflare.EnvDNSAPIToken
           then inr {[ cloudflare.EnvDNSAPIToken := "dns-token";
                       cloudflare.EnvZoneAPIToken := "dns-token" ]}
           else inl (OtherError "some credentials information are missing")
       | _ => inl (OtherError "undefined environment variable names")
       end;
     env.Get := λ _,
       inr {[ infoblox.EnvHost := "grid.example.com";
              infoblox.EnvUsername := "lego";
              infoblox.EnvPassword := "secret" ]};
     env.GetOrFile := λ _, EmptyString;
     env.GetOrDefaultString := λ _ defaultValue, defaultValue;
     env.GetOrDefaultBool := λ _ defaultValue, defaultValue;
     env.GetOrDefaultInt := λ _ defaultValue, defaultValue;
     env.GetOrDefaultSecond := λ _ defaultValue, defaultValue |}.



(** A grid manager on which logging out fails and leaves a mark. *)
Definition lib_sticky : infoblox.ibclient.Library World :=
  {| infoblox.ibclient.NewConnector := infoblox.ibclient.NewConnector lib_ok;
     infoblox.ibclient.Logout := λ _ w,
       (Some TransportError, "session" :: w);
     infoblox.ibclient.CreateTXTRecord :=
       infoblox.ibclient.CreateTXTRecord lib_ok;
     infoblox.ibclient.DeleteTXTRecord :=
       infoblox.ibclient.DeleteTXTRecord lib_ok |}.

End fixture.

(** * Facts *)

(** ** Names: [dns01] *)
Section dns01_facts.
Import dns01.

Lemma UnFqdn_snoc_dot (name : string) :
  UnFqdn (name +:+ String dot EmptyString) = name.
Proof.
  induction name as [|c rest IH]; [reflexivity|].
  destruct rest as [|c' rest']; [reflexivity|].
  simpl in *. by rewrite IH.
Qed.

Lemma ToFqdn_snoc_dot (name : string) :
  ∃ rel, ToFqdn name = rel +:+ String dot EmptyString.
Proof.
  induction name as [|c rest IH].
  - by exists EmptyString.
  - destruct rest as [|c' rest'].
    + cbn. destruct (Ascii.eqb c dot) eqn:Hc.
      * apply Ascii.eqb_eq in Hc as ->. by exists EmptyString.
      * by exists (String c EmptyString).
    + destruct IH as [rel Hrel].
      exists (String c rel).
      change (ToFqdn (String c (String c' rest')))
        with (String c (ToFqdn (String c' rest'))).
      by rewrite Hrel.
Qed.

(** Stripping the dot of an absolute name gives the name it came from. *)
Lemma UnFqdn_ToFqdn_dot (name : string) :
  UnFqdn (ToFqdn name) +:+ String dot EmptyString = ToFqdn name.
Proof.
  destruct (ToFqdn_snoc_dot name) as [rel ->]. by rewrite UnFqdn_snoc_dot.
Qed.

Lemma append_dot_ne (name : string) :
  name ≠ name +:+ String dot EmptyString.
Proof.
  induction name as [|c rest IH]; cbn; [discriminate|].
  intros [= H]. by apply IH.
Qed.

Lemma UnFqdn_ToFqdn_ne (name : string) : UnFqdn (ToFqdn name) ≠ ToFqdn name.
Proof.
  rewrite <- (UnFqdn_ToFqdn_dot name) at 2. apply append_dot_ne.
Qed.

Lemma ends_with_dot_app (prefix name : string) :
  name ≠ EmptyString →
  ends_with_dot (prefix +:+ name) = ends_with_dot name.
Proof.
  intros Hne. induction prefix as [|c rest IH]; [done|].
  simpl. rewrite <- IH. destruct (rest +:+ name) eqn:Happ; [|done].
  destruct rest; [by subst|discriminate].
Qed.

Lemma ToFqdn_relative (name : string) :
  name ≠ EmptyString → ends_with_dot name = false →
  ToFqdn name = name +:+ String dot EmptyString.
Proof.
  induction name as [|c rest IH]; [done|]. intros _ Hend.
  destruct rest as [|c' rest'].
  - simpl in *. by rewrite Hend.
  - simpl in *. by rewrite IH.
Qed.

(** For a domain that is not itself written with a trailing dot, the
    relative form of the effective name ends in no dot. *)
Lemma UnFqdn_effective_relative (digest : string → string)
    (domain keyAuth : string) :
  ends_with_dot domain = false →
  ends_with_dot
    (UnFqdn (EffectiveFQDN (GetChallengeInfo digest domain keyAuth)))
  = false.
Proof.
  intros Hend. cbn [GetChallengeInfo EffectiveFQDN].
  destruct domain as [|c rest]; [reflexivity|].
  assert (Hne : String c rest ≠ EmptyString) by done.
  assert (Hlab : challengeLabel +:+ String c rest ≠ EmptyString) by done.
  rewrite ToFqdn_relative; [|done|by rewrite ends_with_dot_app].
  rewrite UnFqdn_snoc_dot. by rewrite ends_with_dot_app.
Qed.

Example UnFqdn_example :
  UnFqdn "_acme-challenge.example.com." = "_acme-challenge.example.com".
Proof. reflexivity. Qed.

Example GetChallengeInfo_example :
  GetChallengeInfo fixture.digest "example.com" "tok.thumb"
  = {| EffectiveFQDN := "_acme-challenge.example.com.";
       Value := "digest-of-tok.thumb" |}.
Proof. reflexivity. Qed.
End dns01_facts.

(** ** The trace only grows *)
Section runtime_facts.
Context {P W Ev : Type}.

Lemma new_events_app (s s' : runtime.State P W Ev) (evs : list Ev) :
  runtime.trace s' = runtime.trace s ++ evs →
  runtime.new_events s s' = evs.
Proof.
  intros H. unfold runtime.new_events. rewrite H.
  by rewrite drop_app_length.
Qed.

Lemma history_nil_inv {E} (run : runtime.Call → runtime.M _ E unit)
    (s s' : runtime.State P W Ev) :
  runtime.history run s [] s' → s' = s.
Proof.
  inversion 1 as [|? h ? ? ? ? ? ? ? Hh]; [done|].
  by destruct h.
Qed.
End runtime_facts.

Ltac run_unfold :=
  unfold runtime.bind, runtime.call, runtime.call_, runtime.check,
    runtime.gets, runtime.ret, runtime.fail, runtime.update, runtime.emit,
    runtime.modify, runtime.defer;
  cbv beta iota zeta;
  cbn [runtime.provider runtime.world runtime.trace].

(** Use the outcome [H] of the next collaborator call. *)
Ltac run_step H :=
  rewrite H; cbv beta iota zeta;
  cbn [runtime.provider runtime.world runtime.trace].

(** ** Cloudflare: one equation per path through a method *)
Section cloudflare_facts.
Import cloudflare.
Context {W : Type}.
Variable FindZoneByFqdn : string → W → (ext_error + string) * W.
Variable digest : string → string.

Abbreviation cfState := (runtime.State (DNSProvider W) W Event).
Abbreviation fqdn_of domain keyAuth :=
  (dns01.EffectiveFQDN (dns01.GetChallengeInfo digest domain keyAuth)).

Implicit Types (s : cfState) (domain token keyAuth : string).

Lemma cf_Present_zone_error s domain token keyAuth err w1 :
  FindZoneByFqdn (fqdn_of domain keyAuth) (runtime.world s) = (inl err, w1) →
  Present FindZoneByFqdn digest domain token keyAuth s
  = (inl (ErrFindZone domain err),
     runtime.mkState (runtime.provider s) w1
       (runtime.trace s ++ [EvFindZoneByFqdn (fqdn_of domain keyAuth)])).
Proof. intros HF. unfold Present. run_unfold. by run_step HF. Qed.

Lemma cf_Present_zoneID_error s domain token keyAuth authZone w1 err w2 :
  FindZoneByFqdn (fqdn_of domain keyAuth) (runtime.world s)
  = (inr authZone, w1) →
  ZoneIDByName (client (runtime.provider s)) authZone w1 = (inl err, w2) →
  Present FindZoneByFqdn digest domain token keyAuth s
  = (inl (ErrZoneID authZone err),
     runtime.mkState (runtime.provider s) w2
       (runtime.trace s ++
        [EvFindZoneByFqdn (fqdn_of domain keyAuth);
         EvZoneIDByName authZone])).
Proof.
  intros HF HZ. unfold Present. run_unfold. run_step HF. run_step HZ.
  by rewrite <- app_assoc.
Qed.

Lemma cf_Present_create_error s domain token keyAuth authZone w1 zoneID w2
    err w3 :
  FindZoneByFqdn (fqdn_of domain keyAuth) (runtime.world s)
  = (inr authZone, w1) →
  ZoneIDByName (client (runtime.provider s)) authZone w1 = (inr zoneID, w2) →
  CreateDNSRecord (client (runtime.provider s)) zoneID
    (dnsRecord_of digest (runtime.provider s) domain keyAuth) w2
  = (inl err, w3) →
  Present FindZoneByFqdn digest domain token keyAuth s
  = (inl (ErrCreate err),
     runtime.mkState (runtime.provider s) w3
       (runtime.trace s ++
        [EvFindZoneByFqdn (fqdn_of domain keyAuth);
         EvZoneIDByName authZone;
         EvCreateDNSRecord zoneID
           (dnsRecord_of digest (runtime.provider s) domain keyAuth)])).
Proof.
  intros HF HZ HC. unfold Present, dnsRecord_of in *. run_unfold.
  run_step HF. run_step HZ. run_step HC.
  by rewrite <- !app_assoc.
Qed.

Lemma cf_Present_ok s domain token keyAuth authZone w1 zoneID w2
    response w3 :
  FindZoneByFqdn (fqdn_of domain keyAuth) (runtime.world s)
  = (inr authZone, w1) →
  ZoneIDByName (client (runtime.provider s)) authZone w1 = (inr zoneID, w2) →
  CreateDNSRecord (client (runtime.provider s)) zoneID
    (dnsRecord_of digest (runtime.provider s) domain keyAuth) w2
  = (inr response, w3) →
  Present FindZoneByFqdn digest domain token keyAuth s
  = (inr tt,
     runtime.mkState
       (set_recordIDs <[token := internal.ID response]> (runtime.provider s))
       w3
       (runtime.trace s ++
        [EvFindZoneByFqdn (fqdn_of domain keyAuth);
         EvZoneIDByName authZone;
         EvCreateDNSRecord zoneID
           (dnsRecord_of digest (runtime.provider s) domain keyAuth);
         EvLogInfof domain (internal.ID response)])).
Proof.
  intros HF HZ HC. unfold Present, dnsRecord_of in *. run_unfold.
  run_step HF. run_step HZ. run_step HC.
  by rewrite <- !app_assoc.
Qed.

Lemma cf_CleanUp_zone_error s domain token keyAuth err w1 :
  FindZoneByFqdn (fqdn_of domain keyAuth) (runtime.world s) = (inl err, w1) →
  CleanUp FindZoneByFqdn digest domain token keyAuth s
  = (inl (ErrFindZone domain err),
     runtime.mkState (runtime.provider s) w1
       (runtime.trace s ++ [EvFindZoneByFqdn (fqdn_of domain keyAuth)])).
Proof. intros HF. unfold CleanUp. run_unfold. by run_step HF. Qed.

Lemma cf_CleanUp_zoneID_error s domain token keyAuth authZone w1 err w2 :
  FindZoneByFqdn (fqdn_of domain keyAuth) (runtime.world s)
  = (inr authZone, w1) →
  ZoneIDByName (client (runtime.provider s)) authZone w1 = (inl err, w2) →
  CleanUp FindZoneByFqdn digest domain token keyAuth s
  = (inl (ErrZoneID authZone err),
     runtime.mkState (runtime.provider s) w2
       (runtime.trace s ++
        [EvFindZoneByFqdn (fqdn_of domain keyAuth);
         EvZoneIDByName authZone])).
Proof.
  intros HF HZ. unfold CleanUp. run_unfold. run_step HF. run_step HZ.
  by rewrite <- app_assoc.
Qed.

Lemma cf_CleanUp_unknown s domain token keyAuth authZone w1 zoneID w2 :
  FindZoneByFqdn (fqdn_of domain keyAuth) (runtime.world s)
  = (inr authZone, w1) →
  ZoneIDByName (client (runtime.provider s)) authZone w1 = (inr zoneID, w2) →
  recordIDs (runtime.provider s) !! token = None →
  CleanUp FindZoneByFqdn digest domain token keyAuth s
  = (inl (ErrUnknownRecordID (fqdn_of domain keyAuth)),
     runtime.mkState (runtime.provider s) w2
       (runtime.trace s ++
        [EvFindZoneByFqdn (fqdn_of domain keyAuth);
         EvZoneIDByName authZone])).
Proof.
  intros HF HZ HN. unfold CleanUp. run_unfold. run_step HF. run_step HZ.
  run_step HN. by rewrite <- app_assoc.
Qed.

Lemma cf_CleanUp_delete_ok s domain token keyAuth authZone w1 zoneID w2
    recordID w3 :
  FindZoneByFqdn (fqdn_of domain keyAuth) (runtime.world s)
  = (inr authZone, w1) →
  ZoneIDByName (client (runtime.provider s)) authZone w1 = (inr zoneID, w2) →
  recordIDs (runtime.provider s) !! token = Some recordID →
  DeleteDNSRecord (client (runtime.provider s)) zoneID recordID w2
  = (None, w3) →
  CleanUp FindZoneByFqdn digest domain token keyAuth s
  = (inr tt,
     runtime.mkState (set_recordIDs (delete token) (runtime.provider s)) w3
       (runtime.trace s ++
        [EvFindZoneByFqdn (fqdn_of domain keyAuth);
         EvZoneIDByName authZone;
         EvDeleteDNSRecord zoneID recordID])).
Proof.
  intros HF HZ HS HD. unfold CleanUp. run_unfold. run_step HF.
  run_step HZ. run_step HS. run_step HD. by rewrite <- !app_assoc.
Qed.

Lemma cf_CleanUp_delete_error s domain token keyAuth authZone w1 zoneID w2
    recordID err w3 :
  FindZoneByFqdn (fqdn_of domain keyAuth) (runtime.world s)
  = (inr authZone, w1) →
  ZoneIDByName (client (runtime.provider s)) authZone w1 = (inr zoneID, w2) →
  recordIDs (runtime.provider s) !! token = Some recordID →
  DeleteDNSRecord (client (runtime.provider s)) zoneID recordID w2
  = (Some err, w3) →
  CleanUp FindZoneByFqdn digest domain token keyAuth s
  = (inr tt,
     runtime.mkState (set_recordIDs (delete token) (runtime.provider s)) w3
       (runtime.trace s ++
        [EvFindZoneByFqdn (fqdn_of domain keyAuth);
         EvZoneIDByName authZone;
         EvDeleteDNSRecord zoneID recordID;
         EvLogPrintf err])).
Proof.
  intros HF HZ HS HD. unfold CleanUp. run_unfold. run_step HF.
  run_step HZ. run_step HS. run_step HD. by rewrite <- !app_assoc.
Qed.
End cloudflare_facts.

(** ** Infoblox: one equation per path through a method *)
Section infoblox_facts.
Import infoblox.
Context {W : Type}.
Variable lib : ibclient.Library W.
Variable digest : string → string.

Abbreviation ibState := (runtime.State DNSProvider W Event).
Abbreviation ib_fqdn_of domain keyAuth :=
  (dns01.EffectiveFQDN (dns01.GetChallengeInfo digest domain keyAuth)).
Abbreviation ib_connect s :=
  (ibclient.NewConnector lib (ibConfig (runtime.provider s))
     (ibAuth (runtime.provider s)) (transportConfig (runtime.provider s))
     (runtime.world s)).
Abbreviation ib_connect_ev s :=
  (EvNewConnector (ibConfig (runtime.provider s))
     (ibAuth (runtime.provider s)) (transportConfig (runtime.provider s))).
Abbreviation ib_create_ev s domain keyAuth :=
  (EvCreateTXTRecord (DNSView (config (runtime.provider s)))
     (dns01.UnFqdn (ib_fqdn_of domain keyAuth))
     (dns01.Value (dns01.GetChallengeInfo digest domain keyAuth))
     (uint32 (TTL (config (runtime.provider s)))) true "lego").

Implicit Types (s : ibState) (domain token keyAuth : string).

Lemma ib_Present_connect_error s domain token keyAuth err w1 :
  ib_connect s = (inl err, w1) →
  Present lib digest domain token keyAuth s
  = (inl (ErrConnector err),
     runtime.mkState (runtime.provider s) w1
       (runtime.trace s ++ [ib_connect_ev s])).
Proof. intros HN. unfold Present. run_unfold. by run_step HN. Qed.

Lemma ib_Present_create_error s domain token keyAuth connector w1 err w2 :
  ib_connect s = (inr connector, w1) →
  ibclient.CreateTXTRecord lib connector
    (DNSView (config (runtime.provider s)))
    (dns01.UnFqdn (ib_fqdn_of domain keyAuth))
    (dns01.Value (dns01.GetChallengeInfo digest domain keyAuth))
    (uint32 (TTL (config (runtime.provider s)))) true "lego" w1
  = (inl err, w2) →
  Present lib digest domain token keyAuth s
  = (inl (ErrCreate domain err),
     runtime.mkState (runtime.provider s)
       (ibclient.Logout lib connector w2).2
       (runtime.trace s ++
        [ib_connect_ev s; ib_create_ev s domain keyAuth; EvLogout])).
Proof.
  intros HN HC. unfold Present, logout. run_unfold. run_step HN.
  run_step HC. destruct (ibclient.Logout lib connector w2).
  by rewrite <- !app_assoc.
Qed.

Lemma ib_Present_ok s domain token keyAuth connector w1 record w2 :
  ib_connect s = (inr connector, w1) →
  ibclient.CreateTXTRecord lib connector
    (DNSView (config (runtime.provider s)))
    (dns01.UnFqdn (ib_fqdn_of domain keyAuth))
    (dns01.Value (dns01.GetChallengeInfo digest domain keyAuth))
    (uint32 (TTL (config (runtime.provider s)))) true "lego" w1
  = (inr record, w2) →
  Present lib digest domain token keyAuth s
  = (inr tt,
     runtime.mkState
       (set_recordRefs <[token := ibclient.Ref record]> (runtime.provider s))
       (ibclient.Logout lib connector w2).2
       (runtime.trace s ++
        [ib_connect_ev s; ib_create_ev s domain keyAuth; EvLogout])).
Proof.
  intros HN HC. unfold Present, logout. run_unfold. run_step HN.
  run_step HC. destruct (ibclient.Logout lib connector w2).
  by rewrite <- !app_assoc.
Qed.

Lemma ib_CleanUp_connect_error s domain token keyAuth err w1 :
  ib_connect s = (inl err, w1) →
  CleanUp lib digest domain token keyAuth s
  = (inl (ErrConnector err),
     runtime.mkState (runtime.provider s) w1
       (runtime.trace s ++ [ib_connect_ev s])).
Proof. intros HN. unfold CleanUp. run_unfold. by run_step HN. Qed.

Lemma ib_CleanUp_unknown s domain token keyAuth connector w1 :
  ib_connect s = (inr connector, w1) →
  recordRefs (runtime.provider s) !! token = None →
  CleanUp lib digest domain token keyAuth s
  = (inl (ErrUnknownRecordID (ib_fqdn_of domain keyAuth) token),
     runtime.mkState (runtime.provider s)
       (ibclient.Logout lib connector w1).2
       (runtime.trace s ++ [ib_connect_ev s; EvLogout])).
Proof.
  intros HN HS. unfold CleanUp, logout. run_unfold. run_step HN.
  run_step HS. destruct (ibclient.Logout lib connector w1).
  by rewrite <- !app_assoc.
Qed.

Lemma ib_CleanUp_delete_error s domain token keyAuth connector w1
    recordRef err w2 :
  ib_connect s = (inr connector, w1) →
  recordRefs (runtime.provider s) !! token = Some recordRef →
  ibclient.DeleteTXTRecord lib connector recordRef w1 = (inl err, w2) →
  CleanUp lib digest domain token keyAuth s
  = (inl (ErrDelete domain err),
     runtime.mkState (runtime.provider s)
       (ibclient.Logout lib connector w2).2
       (runtime.trace s ++
        [ib_connect_ev s; EvDeleteTXTRecord recordRef; EvLogout])).
Proof.
  intros HN HS HD. unfold CleanUp, logout. run_unfold. run_step HN.
  run_step HS. run_step HD. destruct (ibclient.Logout lib connector w2).
  by rewrite <- !app_assoc.
Qed.

Lemma ib_CleanUp_delete_ok s domain token keyAuth connector w1
    recordRef ref w2 :
  ib_connect s = (inr connector, w1) →
  recordRefs (runtime.provider s) !! token = Some recordRef →
  ibclient.DeleteTXTRecord lib connector recordRef w1 = (inr ref, w2) →
  CleanUp lib digest domain token keyAuth s
  = (inr tt,
     runtime.mkState (set_recordRefs (delete token) (runtime.provider s))
       (ibclient.Logout lib connector w2).2
       (runtime.trace s ++
        [ib_connect_ev s; EvDeleteTXTRecord recordRef; EvLogout])).
Proof.
  intros HN HS HD. unfold CleanUp, logout. run_unfold. run_step HN.
  run_step HS. run_step HD. destruct (ibclient.Logout lib connector w2).
  by rewrite <- !app_assoc.
Qed.
End infoblox_facts.

(** ** Cloudflare: what every run of a method has in common *)
Section cloudflare_runs.
Import cloudflare.
Context {W : Type}.
Variable FindZoneByFqdn : string → W → (ext_error + string) * W.
Variable digest : string → string.

Abbreviation cfState' := (runtime.State (DNSProvider W) W Event).
Abbreviation fqdn_of' domain keyAuth :=
  (dns01.EffectiveFQDN (dns01.GetChallengeInfo digest domain keyAuth)).

Implicit Types (s : cfState') (domain token keyAuth : string).

Lemma cf_Present_run s domain token keyAuth :
  let out := Present FindZoneByFqdn digest domain token keyAuth s in
  ∃ evs,
    runtime.trace out.2 = runtime.trace s ++ evs
    ∧ Forall (cf_Present_event digest s domain keyAuth) evs
    ∧ match out.1 with
      | inl _ => runtime.provider out.2 = runtime.provider s
      | inr _ =>
          ∃ recordID,
            runtime.provider out.2
            = set_recordIDs <[token := recordID]> (runtime.provider s)
      end.
Proof.
  cbv zeta.
  destruct (FindZoneByFqdn (fqdn_of' domain keyAuth) (runtime.world s))
    as [[err|authZone] w1] eqn:HF.
  { rewrite (cf_Present_zone_error _ _ _ _ token _ _ _ HF). cbn.
    eexists; split_and!; [done| |done].
    repeat constructor; cbn; congruence. }
  destruct (ZoneIDByName (client (runtime.provider s)) authZone w1)
    as [[err|zoneID] w2] eqn:HZ.
  { rewrite (cf_Present_zoneID_error _ _ _ _ token _ _ _ _ _ HF HZ). cbn.
    eexists; split_and!; [done| |done].
    repeat constructor; cbn; congruence. }
  destruct (CreateDNSRecord (client (runtime.provider s)) zoneID
              (dnsRecord_of digest (runtime.provider s) domain keyAuth) w2)
    as [[err|response] w3] eqn:HC.
  { rewrite (cf_Present_create_error _ _ _ _ token _ _ _ _ _ _ _ HF HZ HC).
    cbn. eexists; split_and!; [done| |done].
    repeat constructor; cbn; congruence. }
  rewrite (cf_Present_ok _ _ _ _ token _ _ _ _ _ _ _ HF HZ HC). cbn.
  eexists; split_and!; [done| |by eexists].
  repeat constructor; cbn; congruence.
Qed.

Lemma cf_CleanUp_run s domain token keyAuth :
  let out := CleanUp FindZoneByFqdn digest domain token keyAuth s in
  ∃ evs,
    runtime.trace out.2 = runtime.trace s ++ evs
    ∧ Forall (cf_CleanUp_event digest s domain token keyAuth) evs
    ∧ match out.1 with
      | inl _ => runtime.provider out.2 = runtime.provider s
      | inr _ =>
          is_Some (recordIDs (runtime.provider s) !! token)
          ∧ runtime.provider out.2
            = set_recordIDs (delete token) (runtime.provider s)
      end.
Proof.
  cbv zeta.
  destruct (FindZoneByFqdn (fqdn_of' domain keyAuth) (runtime.world s))
    as [[err|authZone] w1] eqn:HF.
  { rewrite (cf_CleanUp_zone_error _ _ _ _ token _ _ _ HF). cbn.
    eexists; split_and!; [done| |done].
    repeat constructor; cbn; congruence. }
  destruct (ZoneIDByName (client (runtime.provider s)) authZone w1)
    as [[err|zoneID] w2] eqn:HZ.
  { rewrite (cf_CleanUp_zoneID_error _ _ _ _ token _ _ _ _ _ HF HZ). cbn.
    eexists; split_and!; [done| |done].
    repeat constructor; cbn; congruence. }
  destruct (recordIDs (runtime.provider s) !! token) as [recordID|] eqn:HS.
  2:{ rewrite (cf_CleanUp_unknown _ _ _ _ _ _ _ _ _ _ HF HZ HS). cbn.
      eexists; split_and!; [done| |done].
      repeat constructor; cbn; congruence. }
  destruct (DeleteDNSRecord (client (runtime.provider s)) zoneID recordID w2)
    as [[err|] w3] eqn:HD.
  - rewrite (cf_CleanUp_delete_error _ _ _ _ _ _ _ _ _ _ _ _ _ HF HZ HS HD).
    cbn. eexists; split_and!; [done| |by eexists|done].
    repeat constructor; cbn; try congruence. intros _. by eexists _, _.
  - rewrite (cf_CleanUp_delete_ok _ _ _ _ _ _ _ _ _ _ _ _ HF HZ HS HD).
    cbn. eexists; split_and!; [done| |by eexists|done].
    repeat constructor; cbn; try congruence. intros _. by eexists _, _.
Qed.

(** An entry of the store comes from a successful [Present] of its token. *)
Lemma cf_run_call_store c s token recordID :
  let out := run_call FindZoneByFqdn digest c s in
  recordIDs (runtime.provider out.2) !! token = Some recordID →
  recordIDs (runtime.provider s) !! token = Some recordID
  ∨ (∃ domain keyAuth,
       c = runtime.CallPresent domain token keyAuth ∧ out.1 = inr tt).
Proof.
  destruct c as [domain token' keyAuth|domain token' keyAuth]; cbn.
  - destruct (cf_Present_run s domain token' keyAuth) as (evs & _ & _ & Hp).
    destruct (Present _ _ _ _ _ s) as [[e|[]] s']; cbn in *.
    + rewrite Hp. by left.
    + destruct Hp as [rid ->]. cbn.
      destruct (decide (token' = token)) as [->|Hne].
      * intros _. right. by eexists _, _.
      * rewrite lookup_insert_ne by done. by left.
  - destruct (cf_CleanUp_run s domain token' keyAuth) as (evs & _ & _ & Hp).
    destruct (CleanUp _ _ _ _ _ s) as [[e|[]] s']; cbn in *.
    + rewrite Hp. by left.
    + destruct Hp as [_ ->]. cbn. intros Hl. left.
      by apply lookup_delete_Some in Hl as [_ ?].
Qed.

(** Client and configuration are fixed at construction. *)
Lemma cf_run_call_config c s :
  let out := run_call FindZoneByFqdn digest c s in
  config (runtime.provider out.2) = config (runtime.provider s)
  ∧ client (runtime.provider out.2) = client (runtime.provider s).
Proof.
  destruct c as [domain token keyAuth|domain token keyAuth]; cbn.
  - destruct (cf_Present_run s domain token keyAuth) as (evs & _ & _ & Hp).
    destruct (Present _ _ _ _ _ s) as [[e|[]] s']; cbn in *.
    + by rewrite Hp.
    + by destruct Hp as [rid ->].
  - destruct (cf_CleanUp_run s domain token keyAuth) as (evs & _ & _ & Hp).
    destruct (CleanUp _ _ _ _ _ s) as [[e|[]] s']; cbn in *.
    + by rewrite Hp.
    + by destruct Hp as [_ ->].
Qed.

Lemma cf_history_config s0 h s :
  runtime.history (run_call FindZoneByFqdn digest) s0 h s →
  config (runtime.provider s) = config (runtime.provider s0)
  ∧ client (runtime.provider s) = client (runtime.provider s0).
Proof.
  induction 1 as [|s0 h s1 w c r s2 _ IH Hrun]; [done|].
  pose proof (cf_run_call_config c (runtime.with_world w s1)) as Hc.
  rewrite Hrun in Hc. cbn in Hc. destruct Hc as [-> ->]. exact IH.
Qed.

(** A token no successful [Present] has stored has no entry. *)
Lemma cf_history_store s0 h s token :
  runtime.history (run_call FindZoneByFqdn digest) s0 h s →
  recordIDs (runtime.provider s0) = ∅ →
  ¬ runtime.presented token h →
  recordIDs (runtime.provider s) !! token = None.
Proof.
  induction 1 as [|s0 h s1 w c r s2 _ IH Hrun]; intros Hempty Hnot.
  { by rewrite Hempty. }
  destruct (recordIDs (runtime.provider s2) !! token) as [rid|] eqn:Hl;
    [exfalso|done].
  pose proof (cf_run_call_store c (runtime.with_world w s1) token rid) as Hc.
  rewrite Hrun in Hc. cbn in Hc. destruct (Hc Hl) as [Hold|(d & k & -> & ->)].
  - rewrite IH in Hold; [done|done|].
    intros (d & k & Hin). apply Hnot. exists d, k.
    apply elem_of_app. by left.
  - apply Hnot. exists d, k. apply elem_of_app. right. by apply list_elem_of_singleton.
Qed.
End cloudflare_runs.

(** ** Infoblox: what every run of a method has in common *)
Section infoblox_runs.
Import infoblox.
Context {W : Type}.
Variable lib : ibclient.Library W.
Variable digest : string → string.

Abbreviation ibState' := (runtime.State DNSProvider W Event).
Abbreviation info_of' domain keyAuth :=
  (dns01.GetChallengeInfo digest domain keyAuth).
Abbreviation ib_connect' s :=
  (ibclient.NewConnector lib (ibConfig (runtime.provider s))
     (ibAuth (runtime.provider s)) (transportConfig (runtime.provider s))
     (runtime.world s)).

Implicit Types (s : ibState') (domain token keyAuth : string).

Lemma ib_Present_run s domain token keyAuth :
  let out := Present lib digest domain token keyAuth s in
  ∃ evs,
    runtime.trace out.2 = runtime.trace s ++ evs
    ∧ Forall (ib_Present_event digest domain keyAuth) evs
    ∧ match out.1 with
      | inl _ => runtime.provider out.2 = runtime.provider s
      | inr _ =>
          ∃ recordRef,
            runtime.provider out.2
            = set_recordRefs <[token := recordRef]> (runtime.provider s)
      end.
Proof.
  cbv zeta.
  destruct (ib_connect' s) as [[err|connector] w1] eqn:HN.
  { rewrite (ib_Present_connect_error _ _ _ _ token _ _ _ HN). cbn.
    eexists; split_and!; [done| |done].
    repeat constructor; cbn; congruence. }
  destruct (ibclient.CreateTXTRecord lib connector
              (DNSView (config (runtime.provider s)))
              (dns01.UnFqdn (dns01.EffectiveFQDN (info_of' domain keyAuth)))
              (dns01.Value (info_of' domain keyAuth))
              (uint32 (TTL (config (runtime.provider s)))) true "lego" w1)
    as [[err|record] w2] eqn:HC.
  - rewrite (ib_Present_create_error _ _ _ _ token _ _ _ _ _ HN HC). cbn.
    eexists; split_and!; [done| |done].
    repeat constructor; cbn; congruence.
  - rewrite (ib_Present_ok _ _ _ _ token _ _ _ _ _ HN HC). cbn.
    eexists; split_and!; [done| |by eexists].
    repeat constructor; cbn; congruence.
Qed.

Lemma ib_CleanUp_run s domain token keyAuth :
  let out := CleanUp lib digest domain token keyAuth s in
  ∃ evs,
    runtime.trace out.2 = runtime.trace s ++ evs
    ∧ Forall (ib_CleanUp_event s token) evs
    ∧ match out.1 with
      | inl _ => runtime.provider out.2 = runtime.provider s
      | inr _ =>
          is_Some (recordRefs (runtime.provider s) !! token)
          ∧ runtime.provider out.2
            = set_recordRefs (delete token) (runtime.provider s)
      end.
Proof.
  cbv zeta.
  destruct (ib_connect' s) as [[err|connector] w1] eqn:HN.
  { rewrite (ib_CleanUp_connect_error _ _ _ _ token _ _ _ HN). cbn.
    eexists; split_and!; [done| |done].
    repeat constructor; cbn; congruence. }
  destruct (recordRefs (runtime.provider s) !! token) as [recordRef|] eqn:HS.
  2:{ rewrite (ib_CleanUp_unknown _ _ _ _ _ _ _ _ HN HS). cbn.
      eexists; split_and!; [done| |done].
      repeat constructor; cbn; congruence. }
  destruct (ibclient.DeleteTXTRecord lib connector recordRef w1)
    as [[err|ref] w2] eqn:HD.
  - rewrite (ib_CleanUp_delete_error _ _ _ _ _ _ _ _ _ _ _ HN HS HD). cbn.
    eexists; split_and!; [done| |done].
    repeat constructor; cbn; try congruence. intros _. by eexists.
  - rewrite (ib_CleanUp_delete_ok _ _ _ _ _ _ _ _ _ _ _ HN HS HD). cbn.
    eexists; split_and!; [done| |by eexists|done].
    repeat constructor; cbn; try congruence. intros _. by eexists.
Qed.

Lemma ib_run_call_store c s token recordRef :
  let out := run_call lib digest c s in
  recordRefs (runtime.provider out.2) !! token = Some recordRef →
  recordRefs (runtime.provider s) !! token = Some recordRef
  ∨ (∃ domain keyAuth,
       c = runtime.CallPresent domain token keyAuth ∧ out.1 = inr tt).
Proof.
  destruct c as [domain token' keyAuth|domain token' keyAuth];
    cbv beta iota zeta delta [run_call].
  - destruct (ib_Present_run s domain token' keyAuth) as (evs & _ & _ & Hp).
    destruct (Present _ _ _ _ _ s) as [[e|[]] s']; cbn in *.
    + rewrite Hp. by left.
    + destruct Hp as [rid ->]. cbn.
      destruct (decide (token' = token)) as [->|Hne].
      * intros _. right. by eexists _, _.
      * rewrite lookup_insert_ne by done. by left.
  - destruct (ib_CleanUp_run s domain token' keyAuth) as (evs & _ & _ & Hp).
    destruct (CleanUp _ _ _ _ _ s) as [[e|[]] s']; cbn in *.
    + rewrite Hp. by left.
    + destruct Hp as [_ ->]. cbn. intros Hl. left.
      by apply lookup_delete_Some in Hl as [_ ?].
Qed.

Lemma ib_run_call_config c s :
  let out := run_call lib digest c s in
  config (runtime.provider out.2) = config (runtime.provider s).
Proof.
  destruct c as [domain token keyAuth|domain token keyAuth];
    cbv beta iota zeta delta [run_call].
  - destruct (ib_Present_run s domain token keyAuth) as (evs & _ & _ & Hp).
    destruct (Present _ _ _ _ _ s) as [[e|[]] s']; cbn in *.
    + by rewrite Hp.
    + by destruct Hp as [rid ->].
  - destruct (ib_CleanUp_run s domain token keyAuth) as (evs & _ & _ & Hp).
    destruct (CleanUp _ _ _ _ _ s) as [[e|[]] s']; cbn in *.
    + by rewrite Hp.
    + by destruct Hp as [_ ->].
Qed.

Lemma ib_history_config s0 h s :
  runtime.history (run_call lib digest) s0 h s →
  config (runtime.provider s) = config (runtime.provider s0).
Proof.
  induction 1 as [|s0 h s1 w c r s2 _ IH Hrun]; [done|].
  pose proof (ib_run_call_config c (runtime.with_world w s1)) as Hc.
  rewrite Hrun in Hc. cbn in Hc. by rewrite Hc.
Qed.

Lemma ib_history_store s0 h s token :
  runtime.history (run_call lib digest) s0 h s →
  recordRefs (runtime.provider s0) = ∅ →
  ¬ runtime.presented token h →
  recordRefs (runtime.provider s) !! token = None.
Proof.
  induction 1 as [|s0 h s1 w c r s2 _ IH Hrun]; intros Hempty Hnot.
  { by rewrite Hempty. }
  destruct (recordRefs (runtime.provider s2) !! token) as [rid|] eqn:Hl;
    [exfalso|done].
  pose proof (ib_run_call_store c (runtime.with_world w s1) token rid) as Hc.
  rewrite Hrun in Hc. cbn in Hc. destruct (Hc Hl) as [Hold|(d & k & -> & ->)].
  - rewrite IH in Hold; [done|done|].
    intros (d & k & Hin). apply Hnot. exists d, k.
    apply elem_of_app. by left.
  - apply Hnot. exists d, k. apply elem_of_app. right.
    by apply list_elem_of_singleton.
Qed.
End infoblox_runs.

(** ** The providers at work on the small vendor *)

Example cf_Present_example :
  cloudflare.Present fixture.FindZoneByFqdn fixture.digest
    "example.com" "tok" "tok.thumb" (fixture.cf_state fixture.client_ok ∅ [])
  = (inr tt,
     runtime.mkState
       (fixture.cf_provider fixture.client_ok {[ "tok" := "rec-1" ]})
       ["rec-1"]
       [cloudflare.EvFindZoneByFqdn "_acme-challenge.example.com.";
        cloudflare.EvZoneIDByName "example.com.";
        cloudflare.EvCreateDNSRecord "zone-1"
          (cloudflare.internal.mkRecord "TXT" "_acme-challenge.example.com"
             (cloudflare.quote +:+ "digest-of-tok.thumb" +:+ cloudflare.quote)
             120 EmptyString);
        cloudflare.EvLogInfof "example.com" "rec-1"]).
Proof. reflexivity. Qed.

Example cf_CleanUp_example :
  cloudflare.CleanUp fixture.FindZoneByFqdn fixture.digest
    "example.com" "tok" "tok.thumb"
    (fixture.cf_state fixture.client_ok {[ "tok" := "rec-1" ]} ["rec-1"])
  = (inr tt,
     runtime.mkState (fixture.cf_provider fixture.client_ok ∅) []
       [cloudflare.EvFindZoneByFqdn "_acme-challenge.example.com.";
        cloudflare.EvZoneIDByName "example.com.";
        cloudflare.EvDeleteDNSRecord "zone-1" "rec-1"]).
Proof. reflexivity. Qed.

Example ib_Present_example :
  infoblox.Present fixture.lib_ok fixture.digest
    "example.com" "tok" "tok.thumb" (fixture.ib_state ∅ [])
  = (inr tt,
     runtime.mkState (fixture.ib_provider {[ "tok" := "record:txt/1" ]})
       ["record:txt/1"]
       [infoblox.EvNewConnector
          (infoblox.ibclient.mkHostConfig "grid.example.com" "2.11" "443")
          (infoblox.ibclient.mkAuthConfig "lego" "secret")
          (infoblox.ibclient.mkTransportConfig true 30 10);
        infoblox.EvCreateTXTRecord "External" "_acme-challenge.example.com"
          "digest-of-tok.thumb" 120 true "lego";
        infoblox.EvLogout]).
Proof. reflexivity. Qed.

Example ib_CleanUp_example :
  infoblox.CleanUp fixture.lib_ok fixture.digest
    "example.com" "tok" "tok.thumb"
    (fixture.ib_state {[ "tok" := "record:txt/1" ]} ["record:txt/1"])
  = (inr tt,
     runtime.mkState (fixture.ib_provider ∅) []
       [infoblox.EvNewConnector
          (infoblox.ibclient.mkHostConfig "grid.example.com" "2.11" "443")
          (infoblox.ibclient.mkAuthConfig "lego" "secret")
          (infoblox.ibclient.mkTransportConfig true 30 10);
        infoblox.EvDeleteTXTRecord "record:txt/1";
        infoblox.EvLogout]).
Proof. reflexivity. Qed.

Example ib_NewDNSProviderConfig_example :
  infoblox.NewDNSProviderConfig fixture.NewTransportConfig None
  = inl infoblox.ErrNilConfig
  ∧ infoblox.NewDNSProviderConfig fixture.NewTransportConfig
      (Some fixture.ib_config)
    = inr (fixture.ib_provider ∅).
Proof. split; reflexivity. Qed.

Example uint32_example :
  infoblox.uint32 120 = 120%Z ∧ infoblox.uint32 (-1) = 4294967295%Z.
Proof. split; reflexivity. Qed.

(** * The properties of the specification *)

(** ** Construction *)

Lemma cf_NewDNSProviderConfig_ok {W : Type}
    (newClient : cloudflare.Config → ext_error + cloudflare.metaClient W)
    (cfg : cloudflare.Config) (d : cloudflare.DNSProvider W) :
  cloudflare.NewDNSProviderConfig newClient (Some cfg) = inr d →
  cloudflare.config d = cfg
  ∧ cloudflare.recordIDs d = ∅
  ∧ newClient cfg = inr (cloudflare.client d)
  ∧ (cloudflare.minTTL ≤ cloudflare.TTL cfg)%Z.
Proof.
  unfold cloudflare.NewDNSProviderConfig.
  destruct (Z.ltb_spec (cloudflare.TTL cfg) cloudflare.minTTL) as [|Hge];
    [discriminate|].
  destruct (newClient cfg) as [err|client]; [discriminate|].
  by intros [= <-].
Qed.

Lemma ib_NewDNSProviderConfig_ok
    (NewTransportConfig : string → Z → Z → infoblox.ibclient.TransportConfig)
    (cfg : infoblox.Config) (d : infoblox.DNSProvider) :
  infoblox.NewDNSProviderConfig NewTransportConfig (Some cfg) = inr d →
  infoblox.config d = cfg ∧ infoblox.recordRefs d = ∅.
Proof.
  unfold infoblox.NewDNSProviderConfig.
  destruct (String.eqb (infoblox.Host cfg) EmptyString); [discriminate|].
  destruct (_ || _); [discriminate|].
  by intros [= <-].
Qed.

(** C5. Constructing the Cloudflare provider from a configuration whose TTL
    is below [minTTL] (120) fails with the invalid-TTL configuration error,
    which reports the configured TTL; no provider is built with the TTL
    raised to the minimum: the TTL of a provider that was built is the
    configured one. *)
Theorem ttl_floor_is_rejected_not_clamped {W : Type}
    (newClient : cloudflare.Config → ext_error + cloudflare.metaClient W)
    (cfg : cloudflare.Config) :
  cloudflare.minTTL = 120%Z
  ∧ ((cloudflare.TTL cfg < cloudflare.minTTL)%Z →
     cloudflare.NewDNSProviderConfig newClient (Some cfg)
     = inl (cloudflare.ErrInvalidTTL (cloudflare.TTL cfg) cloudflare.minTTL))
  ∧ (∀ d, cloudflare.NewDNSProviderConfig newClient (Some cfg) = inr d →
          cloudflare.TTL (cloudflare.config d) = cloudflare.TTL cfg
          ∧ cloudflare.config d = cfg).
Proof.
  split_and!; [done| |].
  - intros Hlow. unfold cloudflare.NewDNSProviderConfig.
    by apply Z.ltb_lt in Hlow as ->.
  - intros d Hd.
    apply cf_NewDNSProviderConfig_ok in Hd as (-> & _). done.
Qed.

Lemma ttl_floor_is_rejected_not_clamped_witness :
  cloudflare.NewDNSProviderConfig fixture.newClient
    (Some (fixture.cf_config 119))
  = inl (cloudflare.ErrInvalidTTL 119 120)
  ∧ cloudflare.TTL
      (cloudflare.config (fixture.cf_provider fixture.client_ok ∅))
    = 120%Z.
Proof.
  split.
  - apply (ttl_floor_is_rejected_not_clamped fixture.newClient
             (fixture.cf_config 119)).
    reflexivity.
  - apply (ttl_floor_is_rejected_not_clamped fixture.newClient
             (fixture.cf_config 120)).
    reflexivity.
Defined.

(** C10. The TTL check of the Cloudflare constructor rejects exactly the
    TTLs strictly below 120: for a non-nil configuration the invalid-TTL
    error is returned if and only if TTL < 120; with TTL = 120 the check is
    passed and the outcome is that of [newClient]; below 120 no provider
    is built. *)
Theorem ttl_check_is_strict_below_120 {W : Type}
    (newClient : cloudflare.Config → ext_error + cloudflare.metaClient W)
    (cfg : cloudflare.Config) :
  (cloudflare.NewDNSProviderConfig newClient (Some cfg)
   = inl (cloudflare.ErrInvalidTTL (cloudflare.TTL cfg) 120)
   ↔ (cloudflare.TTL cfg < 120)%Z)
  ∧ (cloudflare.TTL cfg = 120%Z →
     cloudflare.NewDNSProviderConfig newClient (Some cfg)
     = match newClient cfg with
       | inl err => inl (cloudflare.ErrNewClient err)
       | inr client => inr (cloudflare.mkDNSProvider client cfg ∅)
       end)
  ∧ ((cloudflare.TTL cfg < 120)%Z →
     ∀ d, cloudflare.NewDNSProviderConfig newClient (Some cfg) ≠ inr d).
Proof.
  unfold cloudflare.NewDNSProviderConfig, cloudflare.minTTL.
  destruct (Z.ltb_spec (cloudflare.TTL cfg) 120) as [Hlt|Hge].
  - split_and!; [done| lia |done].
  - split_and!; [|done|lia].
    split; [|lia]. by destruct (newClient cfg).
Qed.

Lemma ttl_check_is_strict_below_120_witness :
  cloudflare.NewDNSProviderConfig fixture.newClient
    (Some (fixture.cf_config 120))
  = inr (fixture.cf_provider fixture.client_ok ∅)
  ∧ cloudflare.NewDNSProviderConfig fixture.newClient
      (Some (fixture.cf_config 119))
    = inl (cloudflare.ErrInvalidTTL 119 120).
Proof.
  split.
  - apply (proj1 (proj2 (ttl_check_is_strict_below_120 fixture.newClient
                           (fixture.cf_config 120)))).
    reflexivity.
  - apply (proj1 (ttl_check_is_strict_below_120 fixture.newClient
                    (fixture.cf_config 119))).
    reflexivity.
Defined.

(** ** The accessor *)

(** C7. On a provider built by [NewDNSProviderConfig] from a configuration,
    and after any sequence of [Present] and [CleanUp] calls on it,
    [Timeout] returns the pair (PropagationTimeout, PollingInterval) of
    that configuration and leaves the state as it was: the same provider
    (store included), the same world and no new event in the trace.  For
    both providers. *)
Theorem timeout_is_a_pure_accessor {Wc Wi : Type}
    (newClient : cloudflare.Config → ext_error + cloudflare.metaClient Wc)
    (FindZoneByFqdn : string → Wc → (ext_error + string) * Wc)
    (NewTransportConfig : string → Z → Z → infoblox.ibclient.TransportConfig)
    (lib : infoblox.ibclient.Library Wi)
    (digest : string → string)
    (ccfg : cloudflare.Config)
    (c0 c : runtime.State (cloudflare.DNSProvider Wc) Wc cloudflare.Event)
    (ch : list (runtime.Call * (cloudflare.error + unit)))
    (icfg : infoblox.Config)
    (i0 i : runtime.State infoblox.DNSProvider Wi infoblox.Event)
    (ih : list (runtime.Call * (infoblox.error + unit))) :
  cloudflare.NewDNSProviderConfig newClient (Some ccfg)
  = inr (runtime.provider c0) →
  runtime.history (cloudflare.run_call FindZoneByFqdn digest) c0 ch c →
  infoblox.NewDNSProviderConfig NewTransportConfig (Some icfg)
  = inr (runtime.provider i0) →
  runtime.history (infoblox.run_call lib digest) i0 ih i →
  cloudflare.Timeout c
  = (inr (cloudflare.PropagationTimeout ccfg,
          cloudflare.PollingInterval ccfg), c)
  ∧ infoblox.Timeout i
    = (inr (infoblox.PropagationTimeout icfg,
            infoblox.PollingInterval icfg), i).
Proof.
  intros Hc0 Hch Hi0 Hih.
  apply cf_NewDNSProviderConfig_ok in Hc0 as (Hc0 & _).
  apply ib_NewDNSProviderConfig_ok in Hi0 as (Hi0 & _).
  apply cf_history_config in Hch as [Hch _].
  apply ib_history_config in Hih.
  unfold cloudflare.Timeout, infoblox.Timeout. run_unfold.
  rewrite Hch, Hc0, Hih, Hi0. done.
Qed.

Lemma timeout_is_a_pure_accessor_witness :
  cloudflare.Timeout (fixture.cf_state fixture.client_ok ∅ [])
  = (inr (120000000000, 2000000000)%Z,
     fixture.cf_state fixture.client_ok ∅ [])
  ∧ infoblox.Timeout (fixture.ib_state ∅ [])
    = (inr (60000000000, 2000000000)%Z, fixture.ib_state ∅ []).
Proof.
  apply (timeout_is_a_pure_accessor fixture.newClient fixture.FindZoneByFqdn
           fixture.NewTransportConfig fixture.lib_ok fixture.digest
           (fixture.cf_config 120)
           (fixture.cf_state fixture.client_ok ∅ [])
           (fixture.cf_state fixture.client_ok ∅ []) []
           fixture.ib_config
           (fixture.ib_state ∅ []) (fixture.ib_state ∅ []) []).
  - reflexivity.
  - apply runtime.history_nil.
  - reflexivity.
  - apply runtime.history_nil.
Defined.

(** ** Cleaning up a token without an entry *)

Section no_entry.
Context {Wc Wi : Type}.
Variable FindZoneByFqdn : string → Wc → (ext_error + string) * Wc.
Variable lib : infoblox.ibclient.Library Wi.
Variable digest : string → string.

(** Cloudflare resolves the zone before it looks the token up: the call
    fails, deletes nothing and keeps the provider; the error is the one of
    the lookup once both zone steps went through. *)
Lemma cf_CleanUp_no_entry
    (s : runtime.State (cloudflare.DNSProvider Wc) Wc cloudflare.Event)
    (domain token keyAuth : string) :
  cloudflare.recordIDs (runtime.provider s) !! token = None →
  let fqdn :=
    dns01.EffectiveFQDN (dns01.GetChallengeInfo digest domain keyAuth) in
  let out := cloudflare.CleanUp FindZoneByFqdn digest domain token keyAuth s in
  (∃ err, out.1 = inl err)
  ∧ runtime.provider out.2 = runtime.provider s
  ∧ Forall (λ ev, cloudflare.is_delete ev = false) (runtime.new_events s out.2)
  ∧ (∀ authZone w1 zoneID w2,
       FindZoneByFqdn fqdn (runtime.world s) = (inr authZone, w1) →
       cloudflare.ZoneIDByName (cloudflare.client (runtime.provider s))
         authZone w1 = (inr zoneID, w2) →
       out.1 = inl (cloudflare.ErrUnknownRecordID fqdn)
       ∧ runtime.new_events s out.2
         = [cloudflare.EvFindZoneByFqdn fqdn;
            cloudflare.EvZoneIDByName authZone]).
Proof.
  intros HS fqdn out.
  destruct (cf_CleanUp_run FindZoneByFqdn digest s domain token keyAuth)
    as (evs & Htr & Hevs & Hprov).
  fold out in Htr, Hprov. rewrite (new_events_app _ _ _ Htr).
  destruct (out.1) as [err|[]] eqn:Hout.
  2:{ destruct Hprov as [[? Hsome] _]. congruence. }
  split_and!; [by eexists|done| |].
  - eapply Forall_impl; [exact Hevs|]. intros ev (_ & _ & Hdel).
    destruct (cloudflare.is_delete ev); [|done].
    destruct Hdel as (? & ? & _ & ?); [done|congruence].
  - intros authZone w1 zoneID w2 HF HZ.
    pose proof (cf_CleanUp_unknown FindZoneByFqdn digest s domain token
                  keyAuth authZone w1 zoneID w2 HF HZ HS) as Heq.
    fold out in Heq. rewrite Heq in Hout, Htr. cbn in Hout, Htr.
    apply app_inv_head in Htr as <-. by injection Hout as <-.
Qed.

(** Infoblox opens a connector before it looks the token up, and logs out
    on the way back. *)
Lemma ib_CleanUp_no_entry
    (s : runtime.State infoblox.DNSProvider Wi infoblox.Event)
    (domain token keyAuth : string) :
  infoblox.recordRefs (runtime.provider s) !! token = None →
  let fqdn :=
    dns01.EffectiveFQDN (dns01.GetChallengeInfo digest domain keyAuth) in
  let out := infoblox.CleanUp lib digest domain token keyAuth s in
  (∃ err, out.1 = inl err)
  ∧ runtime.provider out.2 = runtime.provider s
  ∧ Forall (λ ev, infoblox.is_delete ev = false) (runtime.new_events s out.2)
  ∧ (∀ connector w1,
       infoblox.ibclient.NewConnector lib
         (infoblox.ibConfig (runtime.provider s))
         (infoblox.ibAuth (runtime.provider s))
         (infoblox.transportConfig (runtime.provider s)) (runtime.world s)
       = (inr connector, w1) →
       out.1 = inl (infoblox.ErrUnknownRecordID fqdn token)
       ∧ runtime.new_events s out.2
         = [infoblox.EvNewConnector
              (infoblox.ibConfig (runtime.provider s))
              (infoblox.ibAuth (runtime.provider s))
              (infoblox.transportConfig (runtime.provider s));
            infoblox.EvLogout]).
Proof.
  intros HS fqdn out.
  destruct (ib_CleanUp_run lib digest s domain token keyAuth)
    as (evs & Htr & Hevs & Hprov).
  fold out in Htr, Hprov. rewrite (new_events_app _ _ _ Htr).
  destruct (out.1) as [err|[]] eqn:Hout.
  2:{ destruct Hprov as [[? Hsome] _]. congruence. }
  split_and!; [by eexists|done| |].
  - eapply Forall_impl; [exact Hevs|]. intros ev (_ & Hdel).
    destruct (infoblox.is_delete ev); [|done].
    destruct Hdel as (? & _ & ?); [done|congruence].
  - intros connector w1 HN.
    pose proof (ib_CleanUp_unknown lib digest s domain token keyAuth
                  connector w1 HN HS) as Heq.
    fold out in Heq. rewrite Heq in Hout, Htr. cbn in Hout, Htr.
    apply app_inv_head in Htr as <-. by injection Hout as <-.
Qed.
End no_entry.

Example cf_after_other_store :
  cloudflare.recordIDs (runtime.provider fixture.cf_after_other)
  = {[ "other" := "rec-1" ]}
  ∧ runtime.world fixture.cf_after_other = ["rec-1"].
Proof. split; reflexivity. Qed.

Example cf_history_example :
  runtime.history
    (cloudflare.run_call fixture.FindZoneByFqdn fixture.digest)
    (fixture.cf_state fixture.client_ok ∅ [])
    [(fixture.present_other, inr tt)]
    fixture.cf_after_other.
Proof.
  eapply (runtime.history_snoc _ _ [] _ [] fixture.present_other (inr tt)).
  - apply runtime.history_nil.
  - reflexivity.
Qed.

Example ib_history_example :
  runtime.history
    (infoblox.run_call fixture.lib_ok fixture.digest)
    (fixture.ib_state ∅ [])
    [(fixture.present_other, inr tt)]
    fixture.ib_after_other.
Proof.
  eapply (runtime.history_snoc _ _ [] _ [] fixture.present_other (inr tt)).
  - apply runtime.history_nil.
  - reflexivity.
Qed.

Lemma not_presented_other (E : Type) (token : string)
    (c : runtime.Call) (r : E + unit) :
  (∀ domain keyAuth, c ≠ runtime.CallPresent domain token keyAuth) →
  ¬ runtime.presented token [(c, r)].
Proof.
  intros Hne (domain & keyAuth & Hin).
  apply list_elem_of_singleton in Hin. injection Hin as Hc _.
  by eapply Hne.
Qed.

Lemma not_presented_nil (E : Type) (token : string) :
  ¬ runtime.presented (E := E) token [].
Proof. intros (domain & keyAuth & Hin). by apply elem_of_nil in Hin. Qed.

(** C1 (as the code has it). For a token that no successful [Present] has
    stored, [CleanUp] fails, calls no delete and leaves the provider and
    its store as they were.  The lookup of the token is not the first
    step: Cloudflare resolves the zone before it ([FindZoneByFqdn], then
    [ZoneIDByName]) and Infoblox opens a connector before it (and logs out
    on return); once those steps succeed the error is the unknown-record
    error, and these are the only calls made.  When one of those steps
    fails instead, its error is returned wrapped (zone error, zone
    identifier error, connector error) and no later step is made. *)
Theorem cleanup_of_unpresented_token {Wc Wi : Type}
    (FindZoneByFqdn : string → Wc → (ext_error + string) * Wc)
    (lib : infoblox.ibclient.Library Wi)
    (digest : string → string)
    (c0 c : runtime.State (cloudflare.DNSProvider Wc) Wc cloudflare.Event)
    (ch : list (runtime.Call * (cloudflare.error + unit)))
    (i0 i : runtime.State infoblox.DNSProvider Wi infoblox.Event)
    (ih : list (runtime.Call * (infoblox.error + unit)))
    (domain token keyAuth : string) :
  cloudflare.recordIDs (runtime.provider c0) = ∅ →
  runtime.history (cloudflare.run_call FindZoneByFqdn digest) c0 ch c →
  ¬ runtime.presented token ch →
  infoblox.recordRefs (runtime.provider i0) = ∅ →
  runtime.history (infoblox.run_call lib digest) i0 ih i →
  ¬ runtime.presented token ih →
  let fqdn :=
    dns01.EffectiveFQDN (dns01.GetChallengeInfo digest domain keyAuth) in
  let cout :=
    cloudflare.CleanUp FindZoneByFqdn digest domain token keyAuth c in
  let iout := infoblox.CleanUp lib digest domain token keyAuth i in
  ((∃ err, cout.1 = inl err)
   ∧ runtime.provider cout.2 = runtime.provider c
   ∧ Forall (λ ev, cloudflare.is_delete ev = false)
       (runtime.new_events c cout.2)
   ∧ (∀ authZone w1 zoneID w2,
        FindZoneByFqdn fqdn (runtime.world c) = (inr authZone, w1) →
        cloudflare.ZoneIDByName (cloudflare.client (runtime.provider c))
          authZone w1 = (inr zoneID, w2) →
        cout.1 = inl (cloudflare.ErrUnknownRecordID fqdn)
        ∧ runtime.new_events c cout.2
          = [cloudflare.EvFindZoneByFqdn fqdn;
             cloudflare.EvZoneIDByName authZone])
   ∧ (∀ err w1,
        FindZoneByFqdn fqdn (runtime.world c) = (inl err, w1) →
        cout
        = (inl (cloudflare.ErrFindZone domain err),
           runtime.mkState (runtime.provider c) w1
             (runtime.trace c ++ [cloudflare.EvFindZoneByFqdn fqdn])))
   ∧ (∀ authZone w1 err w2,
        FindZoneByFqdn fqdn (runtime.world c) = (inr authZone, w1) →
        cloudflare.ZoneIDByName (cloudflare.client (runtime.provider c))
          authZone w1 = (inl err, w2) →
        cout
        = (inl (cloudflare.ErrZoneID authZone err),
           runtime.mkState (runtime.provider c) w2
             (runtime.trace c ++
              [cloudflare.EvFindZoneByFqdn fqdn;
               cloudflare.EvZoneIDByName authZone]))))
  ∧ ((∃ err, iout.1 = inl err)
     ∧ runtime.provider iout.2 = runtime.provider i
     ∧ Forall (λ ev, infoblox.is_delete ev = false)
         (runtime.new_events i iout.2)
     ∧ (∀ connector w1,
          infoblox.ibclient.NewConnector lib
            (infoblox.ibConfig (runtime.provider i))
            (infoblox.ibAuth (runtime.provider i))
            (infoblox.transportConfig (runtime.provider i)) (runtime.world i)
          = (inr connector, w1) →
          iout.1 = inl (infoblox.ErrUnknownRecordID fqdn token)
          ∧ runtime.new_events i iout.2
            = [infoblox.EvNewConnector
                 (infoblox.ibConfig (runtime.provider i))
                 (infoblox.ibAuth (runtime.provider i))
                 (infoblox.transportConfig (runtime.provider i));
               infoblox.EvLogout])
     ∧ (∀ err w1,
          infoblox.ibclient.NewConnector lib
            (infoblox.ibConfig (runtime.provider i))
            (infoblox.ibAuth (runtime.provider i))
            (infoblox.transportConfig (runtime.provider i)) (runtime.world i)
          = (inl err, w1) →
          iout
          = (inl (infoblox.ErrConnector err),
             runtime.mkState (runtime.provider i) w1
               (runtime.trace i ++
                [infoblox.EvNewConnector
                   (infoblox.ibConfig (runtime.provider i))
                   (infoblox.ibAuth (runtime.provider i))
                   (infoblox.transportConfig (runtime.provider i))])))).
Proof.
  intros Hc0 Hch Hcn Hi0 Hih Hin fqdn cout iout. split.
  - destruct (cf_CleanUp_no_entry FindZoneByFqdn digest c domain token
                keyAuth) as (Herr & Hprov & Hdel & Hunknown).
    { by eapply cf_history_store. }
    split_and!; [exact Herr|exact Hprov|exact Hdel|exact Hunknown| |].
    + intros err w1 HF. by apply cf_CleanUp_zone_error.
    + intros authZone w1 err w2 HF HZ.
      by eapply cf_CleanUp_zoneID_error.
  - destruct (ib_CleanUp_no_entry lib digest i domain token keyAuth)
      as (Herr & Hprov & Hdel & Hunknown).
    { by eapply ib_history_store. }
    split_and!; [exact Herr|exact Hprov|exact Hdel|exact Hunknown|].
    intros err w1 HN. by apply ib_CleanUp_connect_error.
Qed.

Lemma cleanup_of_unpresented_token_witness :
  ((cloudflare.CleanUp fixture.FindZoneByFqdn fixture.digest
      "example.com" "tok" "tok.thumb" fixture.cf_after_other).1
   = inl (cloudflare.ErrUnknownRecordID "_acme-challenge.example.com.")
   ∧ (infoblox.CleanUp fixture.lib_ok fixture.digest
        "example.com" "tok" "tok.thumb" fixture.ib_after_other).1
     = inl (infoblox.ErrUnknownRecordID "_acme-challenge.example.com."
              "tok"))
  ∧ ((cloudflare.CleanUp fixture.FindZoneByFqdn fixture.digest
        "example.com" "tok" "tok.thumb"
        (fixture.cf_state fixture.client_denied ∅ [])).1
     = inl (cloudflare.ErrZoneID "example.com." AuthenticationError)
     ∧ (infoblox.CleanUp fixture.lib_down fixture.digest
          "example.com" "tok" "tok.thumb" (fixture.ib_state ∅ [])).1
       = inl (infoblox.ErrConnector TransportError)).
Proof.
  pose proof (cleanup_of_unpresented_token
                fixture.FindZoneByFqdn fixture.lib_ok fixture.digest
                (fixture.cf_state fixture.client_ok ∅ [])
                fixture.cf_after_other
                [(fixture.present_other, inr tt)]
                (fixture.ib_state ∅ []) fixture.ib_after_other
                [(fixture.present_other, inr tt)]
                "example.com" "tok" "tok.thumb"
                eq_refl cf_history_example
                (not_presented_other _ "tok" fixture.present_other (inr tt)
                   (λ d k, ltac:(unfold fixture.present_other; discriminate)))
                eq_refl ib_history_example
                (not_presented_other _ "tok" fixture.present_other (inr tt)
                   (λ d k, ltac:(unfold fixture.present_other; discriminate))))
    as [(_ & _ & _ & Hc & _) (_ & _ & _ & Hi & _)].
  pose proof (cleanup_of_unpresented_token
                fixture.FindZoneByFqdn fixture.lib_down fixture.digest
                (fixture.cf_state fixture.client_denied ∅ [])
                (fixture.cf_state fixture.client_denied ∅ []) []
                (fixture.ib_state ∅ []) (fixture.ib_state ∅ []) []
                "example.com" "tok" "tok.thumb"
                eq_refl (runtime.history_nil _ _)
                (not_presented_nil _ "tok")
                eq_refl (runtime.history_nil _ _)
                (not_presented_nil _ "tok"))
    as [(_ & _ & _ & _ & _ & Hzone) (_ & _ & _ & _ & Hconn)].
  split; split.
  - apply (Hc "example.com." ["rec-1"] "zone-1" ["rec-1"]); reflexivity.
  - eapply Hi. reflexivity.
  - exact (f_equal fst (Hzone "example.com." [] AuthenticationError []
                          eq_refl eq_refl)).
  - exact (f_equal fst (Hconn TransportError [] eq_refl)).
Defined.

(** C1 as stated fails: with credentials that cannot read zones the
    Cloudflare [CleanUp] of an unknown token returns the zone error, after
    two calls to the outside; and where the unknown-record error is
    returned, calls were made before it (zone resolution for Cloudflare, a
    session opened and closed for Infoblox). *)
Lemma cleanup_of_unpresented_token_counterexample :
  let denied := fixture.cf_state fixture.client_denied ∅ [] in
  let cout :=
    cloudflare.CleanUp fixture.FindZoneByFqdn fixture.digest
      "example.com" "tok" "tok.thumb" denied in
  let fresh := fixture.ib_state ∅ [] in
  let iout :=
    infoblox.CleanUp fixture.lib_ok fixture.digest
      "example.com" "tok" "tok.thumb" fresh in
  cloudflare.recordIDs (runtime.provider denied) !! "tok" = None
  ∧ cout.1 = inl (cloudflare.ErrZoneID "example.com." AuthenticationError)
  ∧ runtime.new_events denied cout.2
    = [cloudflare.EvFindZoneByFqdn "_acme-challenge.example.com.";
       cloudflare.EvZoneIDByName "example.com."]
  ∧ ¬ (∃ fqdn, cout.1 = inl (cloudflare.ErrUnknownRecordID fqdn))
  ∧ infoblox.recordRefs (runtime.provider fresh) !! "tok" = None
  ∧ iout.1
    = inl (infoblox.ErrUnknownRecordID "_acme-challenge.example.com." "tok")
  ∧ runtime.new_events fresh iout.2
    = [infoblox.EvNewConnector
         (infoblox.ibclient.mkHostConfig "grid.example.com" "2.11" "443")
         (infoblox.ibclient.mkAuthConfig "lego" "secret")
         (infoblox.ibclient.mkTransportConfig true 30 10);
       infoblox.EvLogout]
  ∧ runtime.new_events fresh iout.2 ≠ [].
Proof.
  cbv zeta. split_and!; try reflexivity.
  - intros [fqdn Heq]. discriminate Heq.
  - discriminate.
Qed.

(** ** Cleaning up when the delete call fails *)

(** C2 (as the code has it). A record reference is stored under the token
    and the vendor's delete reports that the record is gone
    ([RecordNotFound]).  The Cloudflare [CleanUp] logs the error, removes
    the entry of the token and returns no error.  The Infoblox [CleanUp]
    returns the delete error, wrapped, and keeps the entry. *)
Theorem cleanup_of_vanished_record {Wc Wi : Type}
    (FindZoneByFqdn : string → Wc → (ext_error + string) * Wc)
    (lib : infoblox.ibclient.Library Wi)
    (digest : string → string)
    (c : runtime.State (cloudflare.DNSProvider Wc) Wc cloudflare.Event)
    (i : runtime.State infoblox.DNSProvider Wi infoblox.Event)
    (domain token keyAuth : string)
    (recordID authZone zoneID : string) (w1 w2 w3 : Wc)
    (recordRef : string) (connector : infoblox.ibclient.Connector)
    (v1 v2 : Wi) :
  cloudflare.recordIDs (runtime.provider c) !! token = Some recordID →
  FindZoneByFqdn
    (dns01.EffectiveFQDN (dns01.GetChallengeInfo digest domain keyAuth))
    (runtime.world c) = (inr authZone, w1) →
  cloudflare.ZoneIDByName (cloudflare.client (runtime.provider c))
    authZone w1 = (inr zoneID, w2) →
  cloudflare.DeleteDNSRecord (cloudflare.client (runtime.provider c))
    zoneID recordID w2 = (Some RecordNotFound, w3) →
  infoblox.recordRefs (runtime.provider i) !! token = Some recordRef →
  infoblox.ibclient.NewConnector lib
    (infoblox.ibConfig (runtime.provider i))
    (infoblox.ibAuth (runtime.provider i))
    (infoblox.transportConfig (runtime.provider i)) (runtime.world i)
  = (inr connector, v1) →
  infoblox.ibclient.DeleteTXTRecord lib connector recordRef v1
  = (inl RecordNotFound, v2) →
  let cout :=
    cloudflare.CleanUp FindZoneByFqdn digest domain token keyAuth c in
  let iout := infoblox.CleanUp lib digest domain token keyAuth i in
  (cout.1 = inr tt
   ∧ cloudflare.recordIDs (runtime.provider cout.2) !! token = None
   ∧ cloudflare.recordIDs (runtime.provider cout.2)
     = delete token (cloudflare.recordIDs (runtime.provider c))
   ∧ last (runtime.new_events c cout.2)
     = Some (cloudflare.EvLogPrintf RecordNotFound))
  ∧ (iout.1 = inl (infoblox.ErrDelete domain RecordNotFound)
     ∧ infoblox.recordRefs (runtime.provider iout.2) !! token
       = Some recordRef
     ∧ runtime.provider iout.2 = runtime.provider i).
Proof.
  intros HS HF HZ HD HS' HN HD' cout iout. subst cout iout.
  rewrite (cf_CleanUp_delete_error _ _ _ _ _ _ _ _ _ _ _ _ _ HF HZ HS HD).
  rewrite (ib_CleanUp_delete_error _ _ _ _ _ _ _ _ _ _ _ HN HS' HD').
  cbn [fst snd runtime.provider].
  split_and!; try done.
  - apply lookup_delete_eq.
  - unfold runtime.new_events. cbn [runtime.trace].
    by rewrite drop_app_length.
Qed.

Lemma cleanup_of_vanished_record_witness :
  (cloudflare.CleanUp fixture.FindZoneByFqdn fixture.digest
     "example.com" "tok" "tok.thumb"
     (fixture.cf_state fixture.client_ok {[ "tok" := "rec-1" ]} [])).1
  = inr tt
  ∧ (infoblox.CleanUp fixture.lib_ok fixture.digest
       "example.com" "tok" "tok.thumb"
       (fixture.ib_state {[ "tok" := "record:txt/1" ]} [])).1
    = inl (infoblox.ErrDelete "example.com" RecordNotFound).
Proof.
  pose proof (cleanup_of_vanished_record
                fixture.FindZoneByFqdn fixture.lib_ok fixture.digest
                (fixture.cf_state fixture.client_ok {[ "tok" := "rec-1" ]} [])
                (fixture.ib_state {[ "tok" := "record:txt/1" ]} [])
                "example.com" "tok" "tok.thumb"
                "rec-1" "example.com." "zone-1" [] [] []
                "record:txt/1"
                (infoblox.ibclient.mkConnector
                   (infoblox.ibConfig (fixture.ib_provider ∅))
                   (infoblox.ibAuth (fixture.ib_provider ∅))
                   (infoblox.transportConfig (fixture.ib_provider ∅)))
                [] []
                eq_refl eq_refl eq_refl eq_refl eq_refl eq_refl eq_refl)
    as [(Hc & _) (Hi & _)].
  split; [exact Hc|exact Hi].
Defined.

(** C2 as stated fails for Infoblox: the record stored under the token is
    gone at the vendor, the delete reports [RecordNotFound], and [CleanUp]
    returns that error and keeps the entry. *)
Lemma cleanup_of_vanished_record_counterexample :
  let s := fixture.ib_state {[ "tok" := "record:txt/1" ]} [] in
  let out :=
    infoblox.CleanUp fixture.lib_ok fixture.digest
      "example.com" "tok" "tok.thumb" s in
  infoblox.recordRefs (runtime.provider s) !! "tok" = Some "record:txt/1"
  ∧ (∀ connector,
       infoblox.ibclient.DeleteTXTRecord fixture.lib_ok connector
         "record:txt/1" (runtime.world s)
       = (inl RecordNotFound, []))
  ∧ out.1 = inl (infoblox.ErrDelete "example.com" RecordNotFound)
  ∧ out.1 ≠ inr tt
  ∧ infoblox.recordRefs (runtime.provider out.2) !! "tok"
    = Some "record:txt/1"
  ∧ runtime.new_events s out.2
    = [infoblox.EvNewConnector
         (infoblox.ibclient.mkHostConfig "grid.example.com" "2.11" "443")
         (infoblox.ibclient.mkAuthConfig "lego" "secret")
         (infoblox.ibclient.mkTransportConfig true 30 10);
       infoblox.EvDeleteTXTRecord "record:txt/1";
       infoblox.EvLogout].
Proof. cbv zeta. split_and!; try reflexivity. discriminate. Qed.

(** C9. In the Cloudflare provider every error of the delete call is
    logged and otherwise ignored: the entry of the token is removed and
    [CleanUp] returns no error.  In the Infoblox provider every error of
    the delete call is returned, wrapped, and the provider, with the entry
    of the token, stays as it was. *)
Theorem cleanup_delete_failure_policy {Wc Wi : Type}
    (FindZoneByFqdn : string → Wc → (ext_error + string) * Wc)
    (lib : infoblox.ibclient.Library Wi)
    (digest : string → string)
    (c : runtime.State (cloudflare.DNSProvider Wc) Wc cloudflare.Event)
    (i : runtime.State infoblox.DNSProvider Wi infoblox.Event)
    (domain token keyAuth : string)
    (recordID authZone zoneID : string) (w1 w2 w3 : Wc)
    (recordRef : string) (connector : infoblox.ibclient.Connector)
    (v1 v2 : Wi) (cerr ierr : ext_error) :
  cloudflare.recordIDs (runtime.provider c) !! token = Some recordID →
  FindZoneByFqdn
    (dns01.EffectiveFQDN (dns01.GetChallengeInfo digest domain keyAuth))
    (runtime.world c) = (inr authZone, w1) →
  cloudflare.ZoneIDByName (cloudflare.client (runtime.provider c))
    authZone w1 = (inr zoneID, w2) →
  cloudflare.DeleteDNSRecord (cloudflare.client (runtime.provider c))
    zoneID recordID w2 = (Some cerr, w3) →
  infoblox.recordRefs (runtime.provider i) !! token = Some recordRef →
  infoblox.ibclient.NewConnector lib
    (infoblox.ibConfig (runtime.provider i))
    (infoblox.ibAuth (runtime.provider i))
    (infoblox.transportConfig (runtime.provider i)) (runtime.world i)
  = (inr connector, v1) →
  infoblox.ibclient.DeleteTXTRecord lib connector recordRef v1
  = (inl ierr, v2) →
  cloudflare.CleanUp FindZoneByFqdn digest domain token keyAuth c
  = (inr tt,
     runtime.mkState
       (cloudflare.set_recordIDs (delete token) (runtime.provider c)) w3
       (runtime.trace c ++
        [cloudflare.EvFindZoneByFqdn
           (dns01.EffectiveFQDN
              (dns01.GetChallengeInfo digest domain keyAuth));
         cloudflare.EvZoneIDByName authZone;
         cloudflare.EvDeleteDNSRecord zoneID recordID;
         cloudflare.EvLogPrintf cerr]))
  ∧ cloudflare.recordIDs
      (cloudflare.set_recordIDs (delete token) (runtime.provider c)) !! token
    = None
  ∧ infoblox.CleanUp lib digest domain token keyAuth i
    = (inl (infoblox.ErrDelete domain ierr),
       runtime.mkState (runtime.provider i)
         (infoblox.ibclient.Logout lib connector v2).2
         (runtime.trace i ++
          [infoblox.EvNewConnector
             (infoblox.ibConfig (runtime.provider i))
             (infoblox.ibAuth (runtime.provider i))
             (infoblox.transportConfig (runtime.provider i));
           infoblox.EvDeleteTXTRecord recordRef;
           infoblox.EvLogout])).
Proof.
  intros HS HF HZ HD HS' HN HD'. split_and!.
  - eapply cf_CleanUp_delete_error; eassumption.
  - apply lookup_delete_eq.
  - eapply ib_CleanUp_delete_error; eassumption.
Qed.

Lemma cleanup_delete_failure_policy_witness :
  (cloudflare.CleanUp fixture.FindZoneByFqdn fixture.digest
     "example.com" "tok" "tok.thumb"
     (fixture.cf_state fixture.client_flaky {[ "tok" := "rec-1" ]}
        ["rec-1"])).1
  = inr tt
  ∧ (infoblox.CleanUp fixture.lib_flaky fixture.digest
       "example.com" "tok" "tok.thumb"
       (fixture.ib_state {[ "tok" := "record:txt/1" ]} ["record:txt/1"])).1
    = inl (infoblox.ErrDelete "example.com" TransportError).
Proof.
  pose proof (cleanup_delete_failure_policy
                fixture.FindZoneByFqdn fixture.lib_flaky fixture.digest
                (fixture.cf_state fixture.client_flaky
                   {[ "tok" := "rec-1" ]} ["rec-1"])
                (fixture.ib_state {[ "tok" := "record:txt/1" ]}
                   ["record:txt/1"])
                "example.com" "tok" "tok.thumb"
                "rec-1" "example.com." "zone-1"
                ["rec-1"] ["rec-1"] ["rec-1"]
                "record:txt/1"
                (infoblox.ibclient.mkConnector
                   (infoblox.ibConfig (fixture.ib_provider ∅))
                   (infoblox.ibAuth (fixture.ib_provider ∅))
                   (infoblox.transportConfig (fixture.ib_provider ∅)))
                ["record:txt/1"] ["record:txt/1"]
                TransportError TransportError
                eq_refl eq_refl eq_refl eq_refl eq_refl eq_refl eq_refl)
    as (Hc & _ & Hi).
  split; [by rewrite Hc|by rewrite Hi].
Defined.

(** ** Present, then CleanUp *)

Section success.
Context {Wc Wi : Type}.
Variable FindZoneByFqdn : string → Wc → (ext_error + string) * Wc.
Variable lib : infoblox.ibclient.Library Wi.
Variable digest : string → string.

(** A successful [Present] went through the create call and stored the
    identifier of the record the vendor answered with. *)
Lemma cf_Present_success
    (c c1 : runtime.State (cloudflare.DNSProvider Wc) Wc cloudflare.Event)
    (domain token keyAuth : string) :
  cloudflare.Present FindZoneByFqdn digest domain token keyAuth c
  = (inr tt, c1) →
  ∃ zoneID w2 response,
    cloudflare.CreateDNSRecord (cloudflare.client (runtime.provider c)) zoneID
      (cloudflare.dnsRecord_of digest (runtime.provider c) domain keyAuth) w2
    = (inr response, runtime.world c1)
    ∧ runtime.provider c1
      = cloudflare.set_recordIDs
          <[token := cloudflare.internal.ID response]> (runtime.provider c).
Proof.
  destruct (FindZoneByFqdn
              (dns01.EffectiveFQDN
                 (dns01.GetChallengeInfo digest domain keyAuth))
              (runtime.world c)) as [[e|authZone] w1] eqn:HF.
  { by rewrite (cf_Present_zone_error _ _ _ _ token _ _ _ HF). }
  destruct (cloudflare.ZoneIDByName
              (cloudflare.client (runtime.provider c)) authZone w1)
    as [[e|zoneID] w2] eqn:HZ.
  { by rewrite (cf_Present_zoneID_error _ _ _ _ token _ _ _ _ _ HF HZ). }
  destruct (cloudflare.CreateDNSRecord
              (cloudflare.client (runtime.provider c)) zoneID
              (cloudflare.dnsRecord_of digest (runtime.provider c)
                 domain keyAuth) w2)
    as [[e|response] w3] eqn:HC.
  { by rewrite (cf_Present_create_error _ _ _ _ token _ _ _ _ _ _ _
                  HF HZ HC). }
  rewrite (cf_Present_ok _ _ _ _ token _ _ _ _ _ _ _ HF HZ HC).
  intros [= <-]. by exists zoneID, w2, response.
Qed.

Lemma ib_Present_success
    (i i1 : runtime.State infoblox.DNSProvider Wi infoblox.Event)
    (domain token keyAuth : string) :
  infoblox.Present lib digest domain token keyAuth i = (inr tt, i1) →
  let info := dns01.GetChallengeInfo digest domain keyAuth in
  ∃ connector w1 record w2,
    infoblox.ibclient.CreateTXTRecord lib connector
      (infoblox.DNSView (infoblox.config (runtime.provider i)))
      (dns01.UnFqdn (dns01.EffectiveFQDN info)) (dns01.Value info)
      (infoblox.uint32 (infoblox.TTL (infoblox.config (runtime.provider i))))
      true "lego" w1
    = (inr record, w2)
    ∧ runtime.provider i1
      = infoblox.set_recordRefs
          <[token := infoblox.ibclient.Ref record]> (runtime.provider i).
Proof.
  intros Hrun info.
  destruct (infoblox.ibclient.NewConnector lib
              (infoblox.ibConfig (runtime.provider i))
              (infoblox.ibAuth (runtime.provider i))
              (infoblox.transportConfig (runtime.provider i))
              (runtime.world i)) as [[e|connector] w1] eqn:HN.
  { by rewrite (ib_Present_connect_error _ _ _ _ token _ _ _ HN) in Hrun. }
  destruct (infoblox.ibclient.CreateTXTRecord lib connector
              (infoblox.DNSView (infoblox.config (runtime.provider i)))
              (dns01.UnFqdn (dns01.EffectiveFQDN info)) (dns01.Value info)
              (infoblox.uint32
                 (infoblox.TTL (infoblox.config (runtime.provider i))))
              true "lego" w1) as [[e|record] w2] eqn:HC.
  { by rewrite (ib_Present_create_error _ _ _ _ token _ _ _ _ _ HN HC)
      in Hrun. }
  rewrite (ib_Present_ok _ _ _ _ token _ _ _ _ _ HN HC) in Hrun.
  injection Hrun as <-. by exists connector, w1, record, w2.
Qed.
End success.

(** C3. If [Present] succeeds, the store holds under the token the
    reference the vendor returned from the create call; if [CleanUp] with
    the same arguments then succeeds, whatever happened to the outside
    world in between, the store has no entry for the token.  For both
    providers. *)
Theorem present_then_cleanup_clears_entry {Wc Wi : Type}
    (FindZoneByFqdn : string → Wc → (ext_error + string) * Wc)
    (lib : infoblox.ibclient.Library Wi)
    (digest : string → string)
    (c c1 c2 : runtime.State (cloudflare.DNSProvider Wc) Wc cloudflare.Event)
    (w : Wc)
    (i i1 i2 : runtime.State infoblox.DNSProvider Wi infoblox.Event)
    (v : Wi)
    (domain token keyAuth : string) :
  cloudflare.Present FindZoneByFqdn digest domain token keyAuth c
  = (inr tt, c1) →
  cloudflare.CleanUp FindZoneByFqdn digest domain token keyAuth
    (runtime.with_world w c1) = (inr tt, c2) →
  infoblox.Present lib digest domain token keyAuth i = (inr tt, i1) →
  infoblox.CleanUp lib digest domain token keyAuth
    (runtime.with_world v i1) = (inr tt, i2) →
  let info := dns01.GetChallengeInfo digest domain keyAuth in
  ((∃ zoneID w2 response,
      cloudflare.CreateDNSRecord (cloudflare.client (runtime.provider c))
        zoneID
        (cloudflare.dnsRecord_of digest (runtime.provider c) domain keyAuth)
        w2
      = (inr response, runtime.world c1)
      ∧ cloudflare.recordIDs (runtime.provider c1) !! token
        = Some (cloudflare.internal.ID response))
   ∧ cloudflare.recordIDs (runtime.provider c2) !! token = None)
  ∧ ((∃ connector w1 record w2,
        infoblox.ibclient.CreateTXTRecord lib connector
          (infoblox.DNSView (infoblox.config (runtime.provider i)))
          (dns01.UnFqdn (dns01.EffectiveFQDN info)) (dns01.Value info)
          (infoblox.uint32
             (infoblox.TTL (infoblox.config (runtime.provider i))))
          true "lego" w1
        = (inr record, w2)
        ∧ infoblox.recordRefs (runtime.provider i1) !! token
          = Some (infoblox.ibclient.Ref record))
     ∧ infoblox.recordRefs (runtime.provider i2) !! token = None).
Proof.
  intros HcP HcC HiP HiC info. split.
  - destruct (cf_Present_success _ _ _ _ _ _ _ HcP)
      as (zoneID & w2 & response & HC & Hp1).
    destruct (cf_CleanUp_run FindZoneByFqdn digest (runtime.with_world w c1)
                domain token keyAuth) as (_ & _ & _ & Hp2).
    rewrite HcC in Hp2. cbn in Hp2. destruct Hp2 as [_ ->].
    split; [|apply lookup_delete_eq].
    exists zoneID, w2, response. split; [done|].
    rewrite Hp1. apply lookup_insert_eq.
  - destruct (ib_Present_success _ _ _ _ _ _ _ HiP)
      as (connector & w1 & record & w2 & HC & Hp1).
    destruct (ib_CleanUp_run lib digest (runtime.with_world v i1)
                domain token keyAuth) as (_ & _ & _ & Hp2).
    rewrite HiC in Hp2. cbn in Hp2. destruct Hp2 as [_ ->].
    split; [|apply lookup_delete_eq].
    exists connector, w1, record, w2. split; [done|].
    rewrite Hp1. apply lookup_insert_eq.
Qed.

Lemma present_then_cleanup_clears_entry_witness :
  let c := fixture.cf_state fixture.client_ok ∅ [] in
  let c1 :=
    (cloudflare.Present fixture.FindZoneByFqdn fixture.digest
       "example.com" "tok" "tok.thumb" c).2 in
  let c2 :=
    (cloudflare.CleanUp fixture.FindZoneByFqdn fixture.digest
       "example.com" "tok" "tok.thumb" c1).2 in
  let i := fixture.ib_state ∅ [] in
  let i1 :=
    (infoblox.Present fixture.lib_ok fixture.digest
       "example.com" "tok" "tok.thumb" i).2 in
  let i2 :=
    (infoblox.CleanUp fixture.lib_ok fixture.digest
       "example.com" "tok" "tok.thumb" i1).2 in
  (cloudflare.recordIDs (runtime.provider c1) !! "tok" = Some "rec-1"
   ∧ cloudflare.recordIDs (runtime.provider c2) !! "tok" = None)
  ∧ (infoblox.recordRefs (runtime.provider i1) !! "tok"
     = Some "record:txt/1"
     ∧ infoblox.recordRefs (runtime.provider i2) !! "tok" = None).
Proof.
  intros c c1 c2 i i1 i2.
  pose proof (present_then_cleanup_clears_entry
                fixture.FindZoneByFqdn fixture.lib_ok fixture.digest
                c c1 c2 ["rec-1"] i i1 i2 ["record:txt/1"]
                "example.com" "tok" "tok.thumb"
                eq_refl eq_refl eq_refl eq_refl)
    as [[_ Hc2] [_ Hi2]].
  split; (split; [reflexivity|assumption]).
Defined.

(** ** Present when the record cannot be created *)

(** C4. When the create call of the vendor fails, [Present] returns the
    creation error wrapping the vendor's error, and the provider, store
    included, is as it was.  For both providers. *)
Theorem present_create_failure_keeps_store {Wc Wi : Type}
    (FindZoneByFqdn : string → Wc → (ext_error + string) * Wc)
    (lib : infoblox.ibclient.Library Wi)
    (digest : string → string)
    (c : runtime.State (cloudflare.DNSProvider Wc) Wc cloudflare.Event)
    (i : runtime.State infoblox.DNSProvider Wi infoblox.Event)
    (domain token keyAuth : string)
    (authZone zoneID : string) (w1 w2 w3 : Wc)
    (connector : infoblox.ibclient.Connector) (v1 v2 : Wi)
    (cerr ierr : ext_error) :
  let info := dns01.GetChallengeInfo digest domain keyAuth in
  FindZoneByFqdn (dns01.EffectiveFQDN info) (runtime.world c)
  = (inr authZone, w1) →
  cloudflare.ZoneIDByName (cloudflare.client (runtime.provider c))
    authZone w1 = (inr zoneID, w2) →
  cloudflare.CreateDNSRecord (cloudflare.client (runtime.provider c)) zoneID
    (cloudflare.dnsRecord_of digest (runtime.provider c) domain keyAuth) w2
  = (inl cerr, w3) →
  infoblox.ibclient.NewConnector lib
    (infoblox.ibConfig (runtime.provider i))
    (infoblox.ibAuth (runtime.provider i))
    (infoblox.transportConfig (runtime.provider i)) (runtime.world i)
  = (inr connector, v1) →
  infoblox.ibclient.CreateTXTRecord lib connector
    (infoblox.DNSView (infoblox.config (runtime.provider i)))
    (dns01.UnFqdn (dns01.EffectiveFQDN info)) (dns01.Value info)
    (infoblox.uint32 (infoblox.TTL (infoblox.config (runtime.provider i))))
    true "lego" v1
  = (inl ierr, v2) →
  let cout :=
    cloudflare.Present FindZoneByFqdn digest domain token keyAuth c in
  let iout := infoblox.Present lib digest domain token keyAuth i in
  (cout.1 = inl (cloudflare.ErrCreate cerr)
   ∧ runtime.provider cout.2 = runtime.provider c
   ∧ cloudflare.recordIDs (runtime.provider cout.2)
     = cloudflare.recordIDs (runtime.provider c))
  ∧ (iout.1 = inl (infoblox.ErrCreate domain ierr)
     ∧ runtime.provider iout.2 = runtime.provider i
     ∧ infoblox.recordRefs (runtime.provider iout.2)
       = infoblox.recordRefs (runtime.provider i)).
Proof.
  intros info HF HZ HC HN HC' cout iout. subst cout iout info.
  rewrite (cf_Present_create_error _ _ _ _ token _ _ _ _ _ _ _ HF HZ HC).
  rewrite (ib_Present_create_error _ _ _ _ token _ _ _ _ _ HN HC').
  done.
Qed.

Lemma present_create_failure_keeps_store_witness :
  let c :=
    fixture.cf_state fixture.client_readonly {[ "tok" := "rec-0" ]} [] in
  let i := fixture.ib_state {[ "tok" := "record:txt/0" ]} [] in
  let cout :=
    cloudflare.Present fixture.FindZoneByFqdn fixture.digest
      "example.com" "tok" "tok.thumb" c in
  let iout :=
    infoblox.Present fixture.lib_readonly fixture.digest
      "example.com" "tok" "tok.thumb" i in
  (cout.1 = inl (cloudflare.ErrCreate (RecordCreateError "forbidden"))
   ∧ runtime.provider cout.2 = runtime.provider c
   ∧ cloudflare.recordIDs (runtime.provider cout.2)
     = cloudflare.recordIDs (runtime.provider c))
  ∧ (iout.1
     = inl (infoblox.ErrCreate "example.com" (RecordCreateError "forbidden"))
     ∧ runtime.provider iout.2 = runtime.provider i
     ∧ infoblox.recordRefs (runtime.provider iout.2)
       = infoblox.recordRefs (runtime.provider i)).
Proof.
  intros c i.
  apply (present_create_failure_keeps_store
           fixture.FindZoneByFqdn fixture.lib_readonly fixture.digest
           c i "example.com" "tok" "tok.thumb"
           "example.com." "zone-1" [] [] []
           (infoblox.ibclient.mkConnector
              (infoblox.ibConfig (fixture.ib_provider ∅))
              (infoblox.ibAuth (fixture.ib_provider ∅))
              (infoblox.transportConfig (fixture.ib_provider ∅)))
           [] []
           (RecordCreateError "forbidden") (RecordCreateError "forbidden"));
    reflexivity.
Defined.

(** ** The challenge descriptor, as the providers use it *)

Section descriptor.
Context {Wc Wi : Type}.
Variable FindZoneByFqdn : string → Wc → (ext_error + string) * Wc.
Variable lib : infoblox.ibclient.Library Wi.
Variable digest : string → string.

Implicit Types (c : runtime.State (cloudflare.DNSProvider Wc) Wc
                      cloudflare.Event).
Implicit Types (i : runtime.State infoblox.DNSProvider Wi infoblox.Event).
Implicit Types (domain token keyAuth : string).

(** Where a Cloudflare call shows the descriptor to the outside (zone
    lookup, created record, error message), it shows the one derived from
    the domain and the key authorization. *)
Lemma cf_run_call_descriptor (call : runtime.Call) c domain token keyAuth :
  runtime.call_args call = (domain, token, keyAuth) →
  let info := dns01.GetChallengeInfo digest domain keyAuth in
  let out := cloudflare.run_call FindZoneByFqdn digest call c in
  Forall (λ ev,
      (∀ fqdn, cloudflare.looked_up ev = Some fqdn →
               fqdn = dns01.EffectiveFQDN info)
      ∧ (∀ r, cloudflare.created ev = Some r →
              cloudflare.internal.Name r
              = dns01.UnFqdn (dns01.EffectiveFQDN info)
              ∧ cloudflare.internal.Content r
                = cloudflare.quote +:+ dns01.Value info
                  +:+ cloudflare.quote))
    (runtime.new_events c out.2)
  ∧ (∀ err fqdn, out.1 = inl err → cloudflare.quoted err = Some fqdn →
                 fqdn = dns01.EffectiveFQDN info).
Proof.
  intros Hargs info out. subst out.
  destruct call as [d t k|d t k]; injection Hargs as -> -> ->;
    cbv beta iota delta [cloudflare.run_call].
  - destruct (cf_Present_run FindZoneByFqdn digest c domain token keyAuth)
      as (evs & Htr & Hevs & _).
    rewrite (new_events_app _ _ _ Htr). split.
    + eapply Forall_impl; [exact Hevs|]. intros ev (_ & Hcr & Hlk).
      split; [exact Hlk|]. by intros r ->%Hcr.
    + clear Htr Hevs evs. intros err fqdn.
      destruct (FindZoneByFqdn (dns01.EffectiveFQDN info) (runtime.world c))
        as [[e|authZone] w1] eqn:HF.
      { rewrite (cf_Present_zone_error _ _ _ _ token _ _ _ HF).
        by intros [= <-]. }
      destruct (cloudflare.ZoneIDByName
                  (cloudflare.client (runtime.provider c)) authZone w1)
        as [[e|zoneID] w2] eqn:HZ.
      { rewrite (cf_Present_zoneID_error _ _ _ _ token _ _ _ _ _ HF HZ).
        by intros [= <-]. }
      destruct (cloudflare.CreateDNSRecord
                  (cloudflare.client (runtime.provider c)) zoneID
                  (cloudflare.dnsRecord_of digest (runtime.provider c)
                     domain keyAuth) w2)
        as [[e|response] w3] eqn:HC.
      * rewrite (cf_Present_create_error _ _ _ _ token _ _ _ _ _ _ _
                   HF HZ HC).
        by intros [= <-].
      * by rewrite (cf_Present_ok _ _ _ _ token _ _ _ _ _ _ _ HF HZ HC).
  - destruct (cf_CleanUp_run FindZoneByFqdn digest c domain token keyAuth)
      as (evs & Htr & Hevs & Hp).
    rewrite (new_events_app _ _ _ Htr). split.
    + eapply Forall_impl; [exact Hevs|]. intros ev (Hcr & Hlk & _).
      split; [exact Hlk|]. intros r. by rewrite Hcr.
    + clear Htr Hevs evs. intros err fqdn.
      destruct (FindZoneByFqdn (dns01.EffectiveFQDN info) (runtime.world c))
        as [[e|authZone] w1] eqn:HF.
      { rewrite (cf_CleanUp_zone_error _ _ _ _ token _ _ _ HF).
        by intros [= <-]. }
      destruct (cloudflare.ZoneIDByName
                  (cloudflare.client (runtime.provider c)) authZone w1)
        as [[e|zoneID] w2] eqn:HZ.
      { rewrite (cf_CleanUp_zoneID_error _ _ _ _ token _ _ _ _ _ HF HZ).
        by intros [= <-]. }
      destruct (cloudflare.recordIDs (runtime.provider c) !! token)
        as [recordID|] eqn:HS.
      * destruct (cloudflare.DeleteDNSRecord
                    (cloudflare.client (runtime.provider c)) zoneID
                    recordID w2) as [[e'|] w3] eqn:HD.
        -- by rewrite (cf_CleanUp_delete_error _ _ _ _ _ _ _ _ _ _ _ _ _
                         HF HZ HS HD).
        -- by rewrite (cf_CleanUp_delete_ok _ _ _ _ _ _ _ _ _ _ _ _
                         HF HZ HS HD).
      * rewrite (cf_CleanUp_unknown _ _ _ _ _ _ _ _ _ _ HF HZ HS).
        by intros [= <-] [= <-].
Qed.
End descriptor.

Section descriptor_infoblox.
Context {W : Type}.
Variable lib : infoblox.ibclient.Library W.
Variable digest : string → string.

(** The same for Infoblox: the created record and the error message. *)
Lemma ib_run_call_descriptor (call : runtime.Call)
    (i : runtime.State infoblox.DNSProvider W infoblox.Event)
    (domain token keyAuth : string) :
  runtime.call_args call = (domain, token, keyAuth) →
  let info := dns01.GetChallengeInfo digest domain keyAuth in
  let out := infoblox.run_call lib digest call i in
  Forall (λ ev,
      ∀ nv, infoblox.created ev = Some nv →
            nv = (dns01.UnFqdn (dns01.EffectiveFQDN info), dns01.Value info))
    (runtime.new_events i out.2)
  ∧ (∀ err fqdn, out.1 = inl err → infoblox.quoted err = Some fqdn →
                 fqdn = dns01.EffectiveFQDN info).
Proof.
  intros Hargs info out. subst out.
  destruct call as [d t k|d t k]; injection Hargs as -> -> ->;
    cbv beta iota delta [infoblox.run_call].
  - destruct (ib_Present_run lib digest i domain token keyAuth)
      as (evs & Htr & Hevs & _).
    rewrite (new_events_app _ _ _ Htr). split.
    + eapply Forall_impl; [exact Hevs|]. by intros ev (_ & Hcr).
    + clear Htr Hevs evs. intros err fqdn.
      destruct (infoblox.ibclient.NewConnector lib
                  (infoblox.ibConfig (runtime.provider i))
                  (infoblox.ibAuth (runtime.provider i))
                  (infoblox.transportConfig (runtime.provider i))
                  (runtime.world i)) as [[e|connector] w1] eqn:HN.
      { rewrite (ib_Present_connect_error _ _ _ _ token _ _ _ HN).
        by intros [= <-]. }
      destruct (infoblox.ibclient.CreateTXTRecord lib connector
                  (infoblox.DNSView (infoblox.config (runtime.provider i)))
                  (dns01.UnFqdn (dns01.EffectiveFQDN info))
                  (dns01.Value info)
                  (infoblox.uint32
                     (infoblox.TTL (infoblox.config (runtime.provider i))))
                  true "lego" w1) as [[e|record] w2] eqn:HC.
      * rewrite (ib_Present_create_error _ _ _ _ token _ _ _ _ _ HN HC).
        by intros [= <-].
      * by rewrite (ib_Present_ok _ _ _ _ token _ _ _ _ _ HN HC).
  - destruct (ib_CleanUp_run lib digest i domain token keyAuth)
      as (evs & Htr & Hevs & _).
    rewrite (new_events_app _ _ _ Htr). split.
    + eapply Forall_impl; [exact Hevs|]. intros ev (Hcr & _) nv.
      by rewrite Hcr.
    + clear Htr Hevs evs. intros err fqdn.
      destruct (infoblox.ibclient.NewConnector lib
                  (infoblox.ibConfig (runtime.provider i))
                  (infoblox.ibAuth (runtime.provider i))
                  (infoblox.transportConfig (runtime.provider i))
                  (runtime.world i)) as [[e|connector] w1] eqn:HN.
      { rewrite (ib_CleanUp_connect_error _ _ _ _ token _ _ _ HN).
        by intros [= <-]. }
      destruct (infoblox.recordRefs (runtime.provider i) !! token)
        as [recordRef|] eqn:HS.
      * destruct (infoblox.ibclient.DeleteTXTRecord lib connector
                    recordRef w1) as [[e|ref] w2] eqn:HD.
        -- rewrite (ib_CleanUp_delete_error _ _ _ _ _ _ _ _ _ _ _
                      HN HS HD).
           by intros [= <-].
        -- by rewrite (ib_CleanUp_delete_ok _ _ _ _ _ _ _ _ _ _ _
                         HN HS HD).
      * rewrite (ib_CleanUp_unknown _ _ _ _ _ _ _ _ HN HS).
        by intros [= <-] [= <-].
Qed.
End descriptor_infoblox.

(** C8. The record name that [Present] hands to the create call of the
    vendor is [dns01.UnFqdn] of the effective FQDN: the effective FQDN
    without its trailing dot, and so never the effective FQDN itself; for
    a domain not written with a trailing dot it ends in no dot at all.
    For both providers. *)
Theorem present_hands_over_relative_name {Wc Wi : Type}
    (FindZoneByFqdn : string → Wc → (ext_error + string) * Wc)
    (lib : infoblox.ibclient.Library Wi)
    (digest : string → string)
    (c : runtime.State (cloudflare.DNSProvider Wc) Wc cloudflare.Event)
    (i : runtime.State infoblox.DNSProvider Wi infoblox.Event)
    (domain token keyAuth : string) :
  let fqdn :=
    dns01.EffectiveFQDN (dns01.GetChallengeInfo digest domain keyAuth) in
  let relative (name : string) :=
    name = dns01.UnFqdn fqdn
    ∧ name +:+ String dns01.dot EmptyString = fqdn
    ∧ name ≠ fqdn
    ∧ (dns01.ends_with_dot domain = false →
       dns01.ends_with_dot name = false) in
  let cout :=
    cloudflare.Present FindZoneByFqdn digest domain token keyAuth c in
  let iout := infoblox.Present lib digest domain token keyAuth i in
  Forall (λ ev, ∀ r, cloudflare.created ev = Some r →
                     relative (cloudflare.internal.Name r))
    (runtime.new_events c cout.2)
  ∧ Forall (λ ev, ∀ nv, infoblox.created ev = Some nv → relative nv.1)
      (runtime.new_events i iout.2).
Proof.
  intros fqdn relative cout iout.
  assert (Hrel : relative (dns01.UnFqdn fqdn)).
  { subst relative fqdn. cbn. split_and!; [done| | |].
    - apply UnFqdn_ToFqdn_dot.
    - apply UnFqdn_ToFqdn_ne.
    - apply (UnFqdn_effective_relative digest domain keyAuth). }
  split.
  - destruct (cf_run_call_descriptor FindZoneByFqdn digest
                (runtime.CallPresent domain token keyAuth) c
                domain token keyAuth eq_refl) as [Hevs _].
    eapply Forall_impl; [exact Hevs|].
    intros ev [_ Hcr] r Hr. destruct (Hcr r Hr) as [-> _]. exact Hrel.
  - destruct (ib_run_call_descriptor lib digest
                (runtime.CallPresent domain token keyAuth) i
                domain token keyAuth eq_refl) as [Hevs _].
    eapply Forall_impl; [exact Hevs|].
    intros ev Hcr nv Hnv. rewrite (Hcr nv Hnv). exact Hrel.
Qed.

Lemma present_hands_over_relative_name_witness :
  let c := fixture.cf_state fixture.client_ok ∅ [] in
  let i := fixture.ib_state ∅ [] in
  let cout :=
    cloudflare.Present fixture.FindZoneByFqdn fixture.digest
      "example.com" "tok" "tok.thumb" c in
  let iout :=
    infoblox.Present fixture.lib_ok fixture.digest
      "example.com" "tok" "tok.thumb" i in
  (cloudflare.created <$> runtime.new_events c cout.2 !! 2%nat)
  = Some (Some (cloudflare.internal.mkRecord "TXT"
                  "_acme-challenge.example.com"
                  (cloudflare.quote +:+ "digest-of-tok.thumb"
                   +:+ cloudflare.quote)
                  120 EmptyString))
  ∧ (infoblox.created <$> runtime.new_events i iout.2 !! 1%nat)
    = Some (Some ("_acme-challenge.example.com", "digest-of-tok.thumb"))
  ∧ "_acme-challenge.example.com" ≠ "_acme-challenge.example.com.".
Proof.
  intros c i cout iout.
  pose proof (present_hands_over_relative_name
                fixture.FindZoneByFqdn fixture.lib_ok fixture.digest
                c i "example.com" "tok" "tok.thumb") as [Hc _].
  split_and!; [reflexivity|reflexivity|].
  apply (proj1 (proj2 (proj2 (proj1 (Forall_lookup _ _) Hc 2%nat _ eq_refl _
                                eq_refl)))).
Defined.

(** * Further properties of the providers *)

(** Case analysis on the path a method takes: the outcome of each
    collaborator call in turn, with the equation of that path put in
    place of the call. *)
Ltac cf_Present_paths FZ digest s domain token keyAuth :=
  destruct (FZ (dns01.EffectiveFQDN
                  (dns01.GetChallengeInfo digest domain keyAuth))
              (runtime.world s)) as [[?err|?authZone] ?w1] eqn:?HF;
  [ erewrite (cf_Present_zone_error FZ digest s domain token keyAuth)
      by eassumption
  | match goal with
    | HF : FZ _ _ = (inr ?z, ?w) |- _ =>
        destruct (cloudflare.ZoneIDByName
                    (cloudflare.client (runtime.provider s)) z w)
          as [[?err|?zoneID] ?w2] eqn:?HZ;
        [ erewrite (cf_Present_zoneID_error FZ digest s domain token keyAuth)
            by eassumption
        | match goal with
          | HZ : cloudflare.ZoneIDByName _ _ _ = (inr ?zid, ?w') |- _ =>
              destruct (cloudflare.CreateDNSRecord
                          (cloudflare.client (runtime.provider s)) zid
                          (cloudflare.dnsRecord_of digest
                             (runtime.provider s) domain keyAuth) w')
                as [[?err|?response] ?w3] eqn:?HC;
              [ erewrite (cf_Present_create_error FZ digest s domain token
                            keyAuth) by eassumption
              | erewrite (cf_Present_ok FZ digest s domain token keyAuth)
                  by eassumption ]
          end ]
    end ].

Ltac cf_CleanUp_paths FZ digest s domain token keyAuth :=
  destruct (FZ (dns01.EffectiveFQDN
                  (dns01.GetChallengeInfo digest domain keyAuth))
              (runtime.world s)) as [[?err|?authZone] ?w1] eqn:?HF;
  [ erewrite (cf_CleanUp_zone_error FZ digest s domain token keyAuth)
      by eassumption
  | match goal with
    | HF : FZ _ _ = (inr ?z, ?w) |- _ =>
        destruct (cloudflare.ZoneIDByName
                    (cloudflare.client (runtime.provider s)) z w)
          as [[?err|?zoneID] ?w2] eqn:?HZ;
        [ erewrite (cf_CleanUp_zoneID_error FZ digest s domain token keyAuth)
            by eassumption
        | destruct (cloudflare.recordIDs (runtime.provider s) !! token)
            as [?recordID|] eqn:?HS;
          [ match goal with
            | HZ : cloudflare.ZoneIDByName _ _ _ = (inr ?zid, ?w'),
              HS : _ !! token = Some ?rid |- _ =>
                destruct (cloudflare.DeleteDNSRecord
                            (cloudflare.client (runtime.provider s))
                            zid rid w') as [[?err|] ?w3] eqn:?HD;
                [ erewrite (cf_CleanUp_delete_error FZ digest s domain token
                              keyAuth) by eassumption
                | erewrite (cf_CleanUp_delete_ok FZ digest s domain token
                              keyAuth) by eassumption ]
            end
          | erewrite (cf_CleanUp_unknown FZ digest s domain token keyAuth)
              by eassumption ] ]
    end ].

Ltac ib_Present_paths lib digest s domain token keyAuth :=
  destruct (infoblox.ibclient.NewConnector lib
              (infoblox.ibConfig (runtime.provider s))
              (infoblox.ibAuth (runtime.provider s))
              (infoblox.transportConfig (runtime.provider s))
              (runtime.world s)) as [[?err|?connector] ?w1] eqn:?HN;
  [ erewrite (ib_Present_connect_error lib digest s domain token keyAuth)
      by eassumption
  | match goal with
    | HN : infoblox.ibclient.NewConnector _ _ _ _ _ = (inr ?c, ?w) |- _ =>
        destruct (infoblox.ibclient.CreateTXTRecord lib c
                    (infoblox.DNSView (infoblox.config (runtime.provider s)))
                    (dns01.UnFqdn
                       (dns01.EffectiveFQDN
                          (dns01.GetChallengeInfo digest domain keyAuth)))
                    (dns01.Value
                       (dns01.GetChallengeInfo digest domain keyAuth))
                    (infoblox.uint32
                       (infoblox.TTL (infoblox.config (runtime.provider s))))
                    true "lego" w) as [[?err|?record] ?w2] eqn:?HC;
        [ erewrite (ib_Present_create_error lib digest s domain token keyAuth)
            by eassumption
        | erewrite (ib_Present_ok lib digest s domain token keyAuth)
            by eassumption ]
    end ].

Ltac ib_CleanUp_paths lib digest s domain token keyAuth :=
  destruct (infoblox.ibclient.NewConnector lib
              (infoblox.ibConfig (runtime.provider s))
              (infoblox.ibAuth (runtime.provider s))
              (infoblox.transportConfig (runtime.provider s))
              (runtime.world s)) as [[?err|?connector] ?w1] eqn:?HN;
  [ erewrite (ib_CleanUp_connect_error lib digest s domain token keyAuth)
      by eassumption
  | destruct (infoblox.recordRefs (runtime.provider s) !! token)
      as [?recordRef|] eqn:?HS;
    [ match goal with
      | HN : infoblox.ibclient.NewConnector _ _ _ _ _ = (inr ?c, ?w),
        HS : _ !! token = Some ?ref |- _ =>
          destruct (infoblox.ibclient.DeleteTXTRecord lib c ref w)
            as [[?err|?deleted] ?w2] eqn:?HD;
          [ erewrite (ib_CleanUp_delete_error lib digest s domain token
                        keyAuth) by eassumption
          | erewrite (ib_CleanUp_delete_ok lib digest s domain token keyAuth)
              by eassumption ]
      end
    | erewrite (ib_CleanUp_unknown lib digest s domain token keyAuth)
        by eassumption ] ].

Ltac new_events_compute :=
  unfold runtime.new_events; cbn [runtime.trace fst snd];
  rewrite ?drop_app_length.

(** ** What a call does to the vendor *)


(** ** The store across calls *)

(** X2. A call for one token leaves the entries of all other tokens as
    they were, whether it succeeds or fails.  For [Present] and [CleanUp]
    of both providers. *)
Theorem other_tokens_are_untouched {Wc Wi : Type}
    (FindZoneByFqdn : string → Wc → (ext_error + string) * Wc)
    (lib : infoblox.ibclient.Library Wi)
    (digest : string → string)
    (call : runtime.Call)
    (c : runtime.State (cloudflare.DNSProvider Wc) Wc cloudflare.Event)
    (i : runtime.State infoblox.DNSProvider Wi infoblox.Event)
    (domain token keyAuth other : string) :
  runtime.call_args call = (domain, token, keyAuth) →
  other ≠ token →
  cloudflare.recordIDs
    (runtime.provider (cloudflare.run_call FindZoneByFqdn digest call c).2)
    !! other
  = cloudflare.recordIDs (runtime.provider c) !! other
  ∧ infoblox.recordRefs
      (runtime.provider (infoblox.run_call lib digest call i).2) !! other
    = infoblox.recordRefs (runtime.provider i) !! other.
Proof.
  intros Hargs Hne.
  destruct call as [d t k|d t k]; injection Hargs as -> -> ->;
    cbv beta iota delta [cloudflare.run_call infoblox.run_call]; split.
  - destruct (cf_Present_run FindZoneByFqdn digest c domain token keyAuth)
      as (_ & _ & _ & Hp).
    destruct (cloudflare.Present _ _ _ _ _ c) as [[e|[]] c']; cbn in *.
    + by rewrite Hp.
    + destruct Hp as [rid ->]. cbn. by rewrite lookup_insert_ne.
  - destruct (ib_Present_run lib digest i domain token keyAuth)
      as (_ & _ & _ & Hp).
    destruct (infoblox.Present _ _ _ _ _ i) as [[e|[]] i']; cbn in *.
    + by rewrite Hp.
    + destruct Hp as [rid ->]. cbn. by rewrite lookup_insert_ne.
  - destruct (cf_CleanUp_run FindZoneByFqdn digest c domain token keyAuth)
      as (_ & _ & _ & Hp).
    destruct (cloudflare.CleanUp _ _ _ _ _ c) as [[e|[]] c']; cbn in *.
    + by rewrite Hp.
    + destruct Hp as [_ ->]. cbn. by rewrite lookup_delete_ne.
  - destruct (ib_CleanUp_run lib digest i domain token keyAuth)
      as (_ & _ & _ & Hp).
    destruct (infoblox.CleanUp _ _ _ _ _ i) as [[e|[]] i']; cbn in *.
    + by rewrite Hp.
    + destruct Hp as [_ ->]. cbn. by rewrite lookup_delete_ne.
Qed.

Lemma other_tokens_are_untouched_witness :
  cloudflare.recordIDs
    (runtime.provider
       (cloudflare.run_call fixture.FindZoneByFqdn fixture.digest
          (runtime.CallCleanUp "example.com" "tok" "tok.thumb")
          (fixture.cf_state fixture.client_ok
             {[ "tok" := "rec-1"; "other" := "rec-2" ]}
             ["rec-1"; "rec-2"])).2) !! "other"
  = Some "rec-2"
  ∧ infoblox.recordRefs
      (runtime.provider
         (infoblox.run_call fixture.lib_ok fixture.digest
            (runtime.CallCleanUp "example.com" "tok" "tok.thumb")
            (fixture.ib_state
               {[ "tok" := "record:txt/1"; "other" := "record:txt/2" ]}
               ["record:txt/1"; "record:txt/2"])).2) !! "other"
    = Some "record:txt/2".
Proof.
  pose proof (other_tokens_are_untouched
                fixture.FindZoneByFqdn fixture.lib_ok fixture.digest
                (runtime.CallCleanUp "example.com" "tok" "tok.thumb")
                (fixture.cf_state fixture.client_ok
                   {[ "tok" := "rec-1"; "other" := "rec-2" ]}
                   ["rec-1"; "rec-2"])
                (fixture.ib_state
                   {[ "tok" := "record:txt/1"; "other" := "record:txt/2" ]}
                   ["record:txt/1"; "record:txt/2"])
                "example.com" "tok" "tok.thumb" "other"
                eq_refl ltac:(discriminate)) as [Hc Hi].
  split; [by rewrite Hc|by rewrite Hi].
Defined.

Section outstanding.
Context {Wc Wi : Type}.
Variable FindZoneByFqdn : string → Wc → (ext_error + string) * Wc.
Variable lib : infoblox.ibclient.Library Wi.
Variable digest : string → string.

Lemma outstanding_snoc {E : Type} (start : gset string)
    (h : list (runtime.Call * (E + unit))) (entry : runtime.Call * (E + unit)) :
  runtime.outstanding start (h ++ [entry])
  = runtime.outstanding_step (runtime.outstanding start h) entry.
Proof. unfold runtime.outstanding. by rewrite foldl_app. Qed.

Lemma cf_run_call_dom (call : runtime.Call)
    (c : runtime.State (cloudflare.DNSProvider Wc) Wc cloudflare.Event) :
  let out := cloudflare.run_call FindZoneByFqdn digest call c in
  dom (cloudflare.recordIDs (runtime.provider out.2))
  = runtime.outstanding_step
      (dom (cloudflare.recordIDs (runtime.provider c))) (call, out.1).
Proof.
  destruct call as [domain token keyAuth|domain token keyAuth];
    cbv beta iota zeta delta [cloudflare.run_call].
  - destruct (cf_Present_run FindZoneByFqdn digest c domain token keyAuth)
      as (_ & _ & _ & Hp).
    destruct (cloudflare.Present _ _ _ _ _ c) as [[e|[]] c']; cbn in *.
    + by rewrite Hp.
    + destruct Hp as [rid ->]. cbn. by rewrite dom_insert_L.
  - destruct (cf_CleanUp_run FindZoneByFqdn digest c domain token keyAuth)
      as (_ & _ & _ & Hp).
    destruct (cloudflare.CleanUp _ _ _ _ _ c) as [[e|[]] c']; cbn in *.
    + by rewrite Hp.
    + destruct Hp as [_ ->]. cbn. by rewrite dom_delete_L.
Qed.

Lemma ib_run_call_dom (call : runtime.Call)
    (i : runtime.State infoblox.DNSProvider Wi infoblox.Event) :
  let out := infoblox.run_call lib digest call i in
  dom (infoblox.recordRefs (runtime.provider out.2))
  = runtime.outstanding_step
      (dom (infoblox.recordRefs (runtime.provider i))) (call, out.1).
Proof.
  destruct call as [domain token keyAuth|domain token keyAuth];
    cbv beta iota zeta delta [infoblox.run_call].
  - destruct (ib_Present_run lib digest i domain token keyAuth)
      as (_ & _ & _ & Hp).
    destruct (infoblox.Present _ _ _ _ _ i) as [[e|[]] i']; cbn in *.
    + by rewrite Hp.
    + destruct Hp as [rid ->]. cbn. by rewrite dom_insert_L.
  - destruct (ib_CleanUp_run lib digest i domain token keyAuth)
      as (_ & _ & _ & Hp).
    destruct (infoblox.CleanUp _ _ _ _ _ i) as [[e|[]] i']; cbn in *.
    + by rewrite Hp.
    + destruct Hp as [_ ->]. cbn. by rewrite dom_delete_L.
Qed.
End outstanding.

(** X3. The store holds an entry for exactly the outstanding tokens.
    After any sequence of calls on a provider, with the outside world
    changing freely in between, the tokens with an entry are those the
    results of the calls leave outstanding: a successful [Present] adds
    its token, a successful [CleanUp] removes it, a failed call changes
    nothing.  For both providers. *)
Theorem store_holds_the_outstanding_tokens {Wc Wi : Type}
    (FindZoneByFqdn : string → Wc → (ext_error + string) * Wc)
    (lib : infoblox.ibclient.Library Wi)
    (digest : string → string)
    (c0 c : runtime.State (cloudflare.DNSProvider Wc) Wc cloudflare.Event)
    (ch : list (runtime.Call * (cloudflare.error + unit)))
    (i0 i : runtime.State infoblox.DNSProvider Wi infoblox.Event)
    (ih : list (runtime.Call * (infoblox.error + unit))) :
  runtime.history (cloudflare.run_call FindZoneByFqdn digest) c0 ch c →
  runtime.history (infoblox.run_call lib digest) i0 ih i →
  dom (cloudflare.recordIDs (runtime.provider c))
  = runtime.outstanding
      (dom (cloudflare.recordIDs (runtime.provider c0))) ch
  ∧ dom (infoblox.recordRefs (runtime.provider i))
    = runtime.outstanding
        (dom (infoblox.recordRefs (runtime.provider i0))) ih.
Proof.
  intros Hch Hih. split.
  - induction Hch as [|c0 h c1 w call r c2 _ IH Hrun]; [done|].
    rewrite outstanding_snoc, <- IH.
    pose proof (cf_run_call_dom FindZoneByFqdn digest call
                  (runtime.with_world w c1)) as Hdom.
    by rewrite Hrun in Hdom.
  - induction Hih as [|i0 h i1 w call r i2 _ IH Hrun]; [done|].
    rewrite outstanding_snoc, <- IH.
    pose proof (ib_run_call_dom lib digest call
                  (runtime.with_world w i1)) as Hdom.
    by rewrite Hrun in Hdom.
Qed.

Lemma store_holds_the_outstanding_tokens_witness :
  dom (cloudflare.recordIDs (runtime.provider fixture.cf_after_other))
  = {[ "other" ]}
  ∧ dom (infoblox.recordRefs (runtime.provider fixture.ib_after_other))
    = {[ "other" ]}.
Proof.
  pose proof (store_holds_the_outstanding_tokens
                fixture.FindZoneByFqdn fixture.lib_ok fixture.digest
                (fixture.cf_state fixture.client_ok ∅ [])
                fixture.cf_after_other [(fixture.present_other, inr tt)]
                (fixture.ib_state ∅ []) fixture.ib_after_other
                [(fixture.present_other, inr tt)]
                cf_history_example ib_history_example) as [Hc Hi].
  split.
  - rewrite Hc. cbn. set_solver.
  - rewrite Hi. cbn. set_solver.
Defined.

(** ** Calls one after the other *)

(** X4. [CleanUp] succeeds at most once per stored reference.  After a
    [CleanUp] that returned no error, a second [CleanUp] of the same token
    fails, whatever the state of the outside world, makes no delete call
    and leaves the store as it is.  For both providers. *)
Theorem second_cleanup_deletes_nothing {Wc Wi : Type}
    (FindZoneByFqdn : string → Wc → (ext_error + string) * Wc)
    (lib : infoblox.ibclient.Library Wi)
    (digest : string → string)
    (c c1 : runtime.State (cloudflare.DNSProvider Wc) Wc cloudflare.Event)
    (w : Wc)
    (i i1 : runtime.State infoblox.DNSProvider Wi infoblox.Event)
    (v : Wi)
    (domain token keyAuth domain' keyAuth' : string) :
  cloudflare.CleanUp FindZoneByFqdn digest domain token keyAuth c
  = (inr tt, c1) →
  infoblox.CleanUp lib digest domain token keyAuth i = (inr tt, i1) →
  let cout :=
    cloudflare.CleanUp FindZoneByFqdn digest domain' token keyAuth'
      (runtime.with_world w c1) in
  let iout :=
    infoblox.CleanUp lib digest domain' token keyAuth'
      (runtime.with_world v i1) in
  ((∃ err, cout.1 = inl err)
   ∧ List.filter cloudflare.is_delete
       (runtime.new_events (runtime.with_world w c1) cout.2) = []
   ∧ runtime.provider cout.2 = runtime.provider c1)
  ∧ ((∃ err, iout.1 = inl err)
     ∧ List.filter infoblox.is_delete
         (runtime.new_events (runtime.with_world v i1) iout.2) = []
     ∧ runtime.provider iout.2 = runtime.provider i1).
Proof.
  intros HcC HiC cout iout. split.
  - destruct (cf_CleanUp_run FindZoneByFqdn digest c domain token keyAuth)
      as (_ & _ & _ & Hp).
    rewrite HcC in Hp. cbn in Hp. destruct Hp as [_ Hp].
    assert (Hnone : cloudflare.recordIDs
                      (runtime.provider (runtime.with_world w c1)) !! token
                    = None).
    { cbn. rewrite Hp. apply lookup_delete_eq. }
    destruct (cf_CleanUp_no_entry FindZoneByFqdn digest
                (runtime.with_world w c1) domain' token keyAuth' Hnone)
      as (Herr & Hprov & Hdel & _).
    split_and!; [exact Herr| |exact Hprov].
    fold cout in Hdel. clear -Hdel.
    induction Hdel as [|ev evs Hev _ IH]; [done|]. cbn. by rewrite Hev.
  - destruct (ib_CleanUp_run lib digest i domain token keyAuth)
      as (_ & _ & _ & Hp).
    rewrite HiC in Hp. cbn in Hp. destruct Hp as [_ Hp].
    assert (Hnone : infoblox.recordRefs
                      (runtime.provider (runtime.with_world v i1)) !! token
                    = None).
    { cbn. rewrite Hp. apply lookup_delete_eq. }
    destruct (ib_CleanUp_no_entry lib digest
                (runtime.with_world v i1) domain' token keyAuth' Hnone)
      as (Herr & Hprov & Hdel & _).
    split_and!; [exact Herr| |exact Hprov].
    fold iout in Hdel. clear -Hdel.
    induction Hdel as [|ev evs Hev _ IH]; [done|]. cbn. by rewrite Hev.
Qed.

Lemma second_cleanup_deletes_nothing_witness :
  let c :=
    fixture.cf_state fixture.client_ok {[ "tok" := "rec-1" ]} ["rec-1"] in
  let c1 :=
    (cloudflare.CleanUp fixture.FindZoneByFqdn fixture.digest
       "example.com" "tok" "tok.thumb" c).2 in
  let i :=
    fixture.ib_state {[ "tok" := "record:txt/1" ]} ["record:txt/1"] in
  let i1 :=
    (infoblox.CleanUp fixture.lib_ok fixture.digest
       "example.com" "tok" "tok.thumb" i).2 in
  (∃ err,
     (cloudflare.CleanUp fixture.FindZoneByFqdn fixture.digest
        "example.com" "tok" "tok.thumb" c1).1 = inl err)
  ∧ (∃ err,
       (infoblox.CleanUp fixture.lib_ok fixture.digest
          "example.com" "tok" "tok.thumb" i1).1 = inl err).
Proof.
  intros c c1 i i1.
  pose proof (second_cleanup_deletes_nothing
                fixture.FindZoneByFqdn fixture.lib_ok fixture.digest
                c c1 [] i i1 []
                "example.com" "tok" "tok.thumb" "example.com" "tok.thumb"
                eq_refl eq_refl) as [(Hc & _) (Hi & _)].
  split; [exact Hc|exact Hi].
Defined.



(** ** Sessions of the Infoblox provider *)

(** X6. Every call of the Infoblox provider starts by opening a
    connector.  If that fails, nothing else is called and the error is the
    connector's, wrapped.  If it succeeds, the call ends with exactly one
    [Logout], after at most one call in between, on the successful and on
    every failing path. *)
Theorem infoblox_session_is_always_closed {W : Type}
    (lib : infoblox.ibclient.Library W)
    (digest : string → string)
    (call : runtime.Call)
    (i : runtime.State infoblox.DNSProvider W infoblox.Event) :
  let out := infoblox.run_call lib digest call i in
  let connect :=
    infoblox.EvNewConnector (infoblox.ibConfig (runtime.provider i))
      (infoblox.ibAuth (runtime.provider i))
      (infoblox.transportConfig (runtime.provider i)) in
  match
    infoblox.ibclient.NewConnector lib (infoblox.ibConfig (runtime.provider i))
      (infoblox.ibAuth (runtime.provider i))
      (infoblox.transportConfig (runtime.provider i)) (runtime.world i)
  with
  | (inl err, w1) =>
      out = (inl (infoblox.ErrConnector err),
             runtime.mkState (runtime.provider i) w1
               (runtime.trace i ++ [connect]))
  | (inr connector, _) =>
      ∃ between w2,
        runtime.new_events i out.2 = connect :: between ++ [infoblox.EvLogout]
        ∧ length between ≤ 1
        ∧ Forall (λ ev, ev ≠ infoblox.EvLogout
                        ∧ ∀ h a t, ev ≠ infoblox.EvNewConnector h a t)
            between
        ∧ runtime.world out.2 = (infoblox.ibclient.Logout lib connector w2).2
  end.
Proof.
  destruct call as [domain token keyAuth|domain token keyAuth];
    cbv beta iota zeta delta [infoblox.run_call].
  - ib_Present_paths lib digest i domain token keyAuth; [done| |];
      new_events_compute;
      eexists [_], _; (split_and!; [done|cbn; lia| |done]);
      repeat constructor; done.
  - ib_CleanUp_paths lib digest i domain token keyAuth; [done| | |];
      new_events_compute.
    1,2: eexists [_], _; (split_and!; [done|cbn; lia| |done]);
      repeat constructor; done.
    eexists [], _. split_and!; [done|cbn; lia|constructor|done].
Qed.

(** X7. The outcome of [Logout] is ignored.  Replace the [Logout] of the
    library by any other behaviour (another error, another effect on the
    world): every call returns the same result, leaves the same provider
    and makes the same calls. *)
Theorem infoblox_logout_outcome_is_ignored {W : Type}
    (lib : infoblox.ibclient.Library W)
    (Logout' : infoblox.ibclient.Connector → W → option ext_error * W)
    (digest : string → string)
    (call : runtime.Call)
    (i : runtime.State infoblox.DNSProvider W infoblox.Event) :
  let lib' :=
    {| infoblox.ibclient.NewConnector := infoblox.ibclient.NewConnector lib;
       infoblox.ibclient.Logout := Logout';
       infoblox.ibclient.CreateTXTRecord :=
         infoblox.ibclient.CreateTXTRecord lib;
       infoblox.ibclient.DeleteTXTRecord :=
         infoblox.ibclient.DeleteTXTRecord lib |} in
  let out := infoblox.run_call lib digest call i in
  let out' := infoblox.run_call lib' digest call i in
  out'.1 = out.1
  ∧ runtime.provider out'.2 = runtime.provider out.2
  ∧ runtime.trace out'.2 = runtime.trace out.2.
Proof.
  intros lib'.
  destruct call as [domain token keyAuth|domain token keyAuth];
    cbv beta iota zeta delta [infoblox.run_call].
  - ib_Present_paths lib digest i domain token keyAuth.
    + by erewrite (ib_Present_connect_error lib' digest i domain token
                     keyAuth) by (cbn; eassumption).
    + by erewrite (ib_Present_create_error lib' digest i domain token
                     keyAuth) by (cbn; eassumption).
    + by erewrite (ib_Present_ok lib' digest i domain token keyAuth)
        by (cbn; eassumption).
  - ib_CleanUp_paths lib digest i domain token keyAuth.
    + by erewrite (ib_CleanUp_connect_error lib' digest i domain token
                     keyAuth) by (cbn; eassumption).
    + by erewrite (ib_CleanUp_delete_error lib' digest i domain token
                     keyAuth) by (cbn; eassumption).
    + by erewrite (ib_CleanUp_delete_ok lib' digest i domain token keyAuth)
        by (cbn; eassumption).
    + by erewrite (ib_CleanUp_unknown lib' digest i domain token keyAuth)
        by (cbn; eassumption).
Qed.

Example infoblox_logout_failure_example :
  let out :=
    infoblox.Present fixture.lib_sticky fixture.digest
      "example.com" "tok" "tok.thumb" (fixture.ib_state ∅ []) in
  out.1 = inr tt
  ∧ infoblox.recordRefs (runtime.provider out.2)
    = {[ "tok" := "record:txt/1" ]}
  ∧ runtime.world out.2 = ["session"; "record:txt/1"].
Proof. cbv zeta. split_and!; reflexivity. Qed.

(** ** When a call reports success *)

(** X8. [Present] returns no error exactly when every call up to and
    including the create call returned no error: for Cloudflare the zone
    lookup, the zone identifier lookup and the create call, for Infoblox
    the opening of the connector and the create call.  So [Present] never
    reports success without a create call that reported success, and no
    step after the create call (the store update, the log line, the
    deferred [Logout]) can turn its success into a failure.  This relates
    what the calls return, not what a failing create call may have left
    at the vendor. *)
Theorem present_succeeds_iff_record_created {Wc Wi : Type}
    (FindZoneByFqdn : string → Wc → (ext_error + string) * Wc)
    (lib : infoblox.ibclient.Library Wi)
    (digest : string → string)
    (c : runtime.State (cloudflare.DNSProvider Wc) Wc cloudflare.Event)
    (i : runtime.State infoblox.DNSProvider Wi infoblox.Event)
    (domain token keyAuth : string) :
  let info := dns01.GetChallengeInfo digest domain keyAuth in
  ((cloudflare.Present FindZoneByFqdn digest domain token keyAuth c).1
   = inr tt
   ↔ ∃ authZone w1 zoneID w2 response w3,
       FindZoneByFqdn (dns01.EffectiveFQDN info) (runtime.world c)
       = (inr authZone, w1)
       ∧ cloudflare.ZoneIDByName (cloudflare.client (runtime.provider c))
           authZone w1 = (inr zoneID, w2)
       ∧ cloudflare.CreateDNSRecord (cloudflare.client (runtime.provider c))
           zoneID
           (cloudflare.dnsRecord_of digest (runtime.provider c) domain
              keyAuth) w2
         = (inr response, w3))
  ∧ ((infoblox.Present lib digest domain token keyAuth i).1 = inr tt
     ↔ ∃ connector w1 record w2,
         infoblox.ibclient.NewConnector lib
           (infoblox.ibConfig (runtime.provider i))
           (infoblox.ibAuth (runtime.provider i))
           (infoblox.transportConfig (runtime.provider i)) (runtime.world i)
         = (inr connector, w1)
         ∧ infoblox.ibclient.CreateTXTRecord lib connector
             (infoblox.DNSView (infoblox.config (runtime.provider i)))
             (dns01.UnFqdn (dns01.EffectiveFQDN info)) (dns01.Value info)
             (infoblox.uint32
                (infoblox.TTL (infoblox.config (runtime.provider i))))
             true "lego" w1
           = (inr record, w2)).
Proof.
  cbv zeta. split.
  - cf_Present_paths FindZoneByFqdn digest c domain token keyAuth; cbn [fst snd].
    + split; [done|]. intros (? & ? & ? & ? & ? & ? & ? & _). congruence.
    + split; [done|]. intros (? & ? & ? & ? & ? & ? & ? & ? & _). congruence.
    + split; [done|]. intros (? & ? & ? & ? & ? & ? & ? & ? & ?). congruence.
    + split; [|done]. intros _. by eexists _, _, _, _, _, _.
  - ib_Present_paths lib digest i domain token keyAuth; cbn [fst snd].
    + split; [done|]. intros (? & ? & ? & ? & ? & _). congruence.
    + split; [done|]. intros (? & ? & ? & ? & ? & ?). congruence.
    + split; [|done]. intros _. by eexists _, _, _, _.
Qed.

(** X9. [CleanUp] of the Cloudflare provider returns no error exactly
    when the zone steps succeeded and the token has an entry: the outcome
    of the delete call plays no part.  [CleanUp] of the Infoblox provider
    returns no error exactly when the connector was opened, the token has
    an entry and the delete call succeeded. *)
Theorem cleanup_succeeds_iff {Wc Wi : Type}
    (FindZoneByFqdn : string → Wc → (ext_error + string) * Wc)
    (lib : infoblox.ibclient.Library Wi)
    (digest : string → string)
    (c : runtime.State (cloudflare.DNSProvider Wc) Wc cloudflare.Event)
    (i : runtime.State infoblox.DNSProvider Wi infoblox.Event)
    (domain token keyAuth : string) :
  let info := dns01.GetChallengeInfo digest domain keyAuth in
  ((cloudflare.CleanUp FindZoneByFqdn digest domain token keyAuth c).1
   = inr tt
   ↔ ∃ authZone w1 zoneID w2,
       FindZoneByFqdn (dns01.EffectiveFQDN info) (runtime.world c)
       = (inr authZone, w1)
       ∧ cloudflare.ZoneIDByName (cloudflare.client (runtime.provider c))
           authZone w1 = (inr zoneID, w2)
       ∧ is_Some (cloudflare.recordIDs (runtime.provider c) !! token))
  ∧ ((infoblox.CleanUp lib digest domain token keyAuth i).1 = inr tt
     ↔ ∃ connector w1 recordRef deleted w2,
         infoblox.ibclient.NewConnector lib
           (infoblox.ibConfig (runtime.provider i))
           (infoblox.ibAuth (runtime.provider i))
           (infoblox.transportConfig (runtime.provider i)) (runtime.world i)
         = (inr connector, w1)
         ∧ infoblox.recordRefs (runtime.provider i) !! token
           = Some recordRef
         ∧ infoblox.ibclient.DeleteTXTRecord lib connector recordRef w1
           = (inr deleted, w2)).
Proof.
  cbv zeta. split.
  - cf_CleanUp_paths FindZoneByFqdn digest c domain token keyAuth; cbn [fst snd].
    + split; [done|]. intros (? & ? & ? & ? & ? & _). congruence.
    + split; [done|]. intros (? & ? & ? & ? & ? & ? & _). congruence.
    + split; [|done]. intros _. by eexists _, _, _, _.
    + split; [|done]. intros _. by eexists _, _, _, _.
    + split; [done|]. intros (? & ? & ? & ? & _ & _ & [? ?]). congruence.
  - ib_CleanUp_paths lib digest i domain token keyAuth; cbn [fst snd].
    + split; [done|]. intros (? & ? & ? & ? & ? & ? & _). congruence.
    + split; [done|]. intros (? & ? & ? & ? & ? & ? & ? & ?). congruence.
    + split; [|done]. intros _. by eexists _, _, _, _, _.
    + split; [done|]. intros (? & ? & ? & ? & ? & _ & ? & _). congruence.
Qed.

(** ** What is handed to the create call *)

(** X10. A Cloudflare provider built by [NewDNSProviderConfig] never asks
    for a record with a TTL below 120.  After any sequence of calls, every
    record a [Present] hands to the create call is of type TXT, carries
    the configured TTL, which is at least [minTTL], has the digest of the
    key authorization between double quotes as its content and has no
    identifier yet. *)
Theorem cloudflare_records_respect_the_ttl_floor {W : Type}
    (newClient : cloudflare.Config → ext_error + cloudflare.metaClient W)
    (FindZoneByFqdn : string → W → (ext_error + string) * W)
    (digest : string → string)
    (cfg : cloudflare.Config)
    (c0 c : runtime.State (cloudflare.DNSProvider W) W cloudflare.Event)
    (h : list (runtime.Call * (cloudflare.error + unit)))
    (domain token keyAuth : string) :
  cloudflare.NewDNSProviderConfig newClient (Some cfg)
  = inr (runtime.provider c0) →
  runtime.history (cloudflare.run_call FindZoneByFqdn digest) c0 h c →
  Forall (λ ev, ∀ r,
      cloudflare.created ev = Some r →
      cloudflare.internal.Type_ r = "TXT"
      ∧ cloudflare.internal.TTL r = cloudflare.TTL cfg
      ∧ (cloudflare.minTTL ≤ cloudflare.internal.TTL r)%Z
      ∧ cloudflare.internal.Content r
        = cloudflare.quote +:+ digest keyAuth +:+ cloudflare.quote
      ∧ cloudflare.internal.ID r = EmptyString)
    (runtime.new_events c
       (cloudflare.Present FindZoneByFqdn digest domain token keyAuth c).2).
Proof.
  intros Hnew Hh.
  apply cf_NewDNSProviderConfig_ok in Hnew as (Hcfg & _ & _ & Hfloor).
  apply cf_history_config in Hh as [Hh _].
  destruct (cf_Present_run FindZoneByFqdn digest c domain token keyAuth)
    as (evs & Htr & Hevs & _).
  rewrite (new_events_app _ _ _ Htr).
  eapply Forall_impl; [exact Hevs|].
  intros ev (_ & Hcr & _) r Hr. rewrite (Hcr r Hr).
  unfold cloudflare.dnsRecord_of. cbn. rewrite Hh, Hcfg. done.
Qed.

Lemma cloudflare_records_respect_the_ttl_floor_witness :
  (cloudflare.created
     <$> runtime.new_events fixture.cf_after_other
           (cloudflare.Present fixture.FindZoneByFqdn fixture.digest
              "example.com" "tok" "tok.thumb" fixture.cf_after_other).2
         !! 2%nat)
  = Some (Some (cloudflare.internal.mkRecord "TXT"
                  "_acme-challenge.example.com"
                  (cloudflare.quote +:+ "digest-of-tok.thumb"
                   +:+ cloudflare.quote)
                  120 EmptyString)).
Proof.
  pose proof (cloudflare_records_respect_the_ttl_floor
                fixture.newClient fixture.FindZoneByFqdn fixture.digest
                (fixture.cf_config 120)
                (fixture.cf_state fixture.client_ok ∅ [])
                fixture.cf_after_other [(fixture.present_other, inr tt)]
                "example.com" "tok" "tok.thumb"
                eq_refl cf_history_example) as _.
  reflexivity.
Defined.

(** X11. The Infoblox provider has no floor for the TTL; it converts the
    configured TTL to [uint32].  After any sequence of calls on a provider
    built by [NewDNSProviderConfig], the create call of a [Present] gets
    the configured DNS view, the TTL modulo 2^32, the flag to use the TTL
    and the comment "lego".  The TTL handed over is the configured one
    exactly when that lies in [0, 2^32); a negative TTL wraps around to a
    large one. *)
Theorem infoblox_ttl_is_converted_to_uint32 {W : Type}
    (NewTransportConfig : string → Z → Z → infoblox.ibclient.TransportConfig)
    (lib : infoblox.ibclient.Library W)
    (digest : string → string)
    (cfg : infoblox.Config)
    (i0 i : runtime.State infoblox.DNSProvider W infoblox.Event)
    (h : list (runtime.Call * (infoblox.error + unit)))
    (domain token keyAuth : string) :
  infoblox.NewDNSProviderConfig NewTransportConfig (Some cfg)
  = inr (runtime.provider i0) →
  runtime.history (infoblox.run_call lib digest) i0 h i →
  Forall (λ ev, ∀ dnsview recordname text ttl useTtl comment,
      ev = infoblox.EvCreateTXTRecord dnsview recordname text ttl useTtl
             comment →
      dnsview = infoblox.DNSView cfg
      ∧ ttl = (infoblox.TTL cfg mod 2 ^ 32)%Z
      ∧ (0 ≤ ttl < 2 ^ 32)%Z
      ∧ (ttl = infoblox.TTL cfg ↔ (0 ≤ infoblox.TTL cfg < 2 ^ 32)%Z)
      ∧ useTtl = true
      ∧ comment = "lego")
    (runtime.new_events i
       (infoblox.Present lib digest domain token keyAuth i).2).
Proof.
  intros Hnew Hh.
  apply ib_NewDNSProviderConfig_ok in Hnew as (Hcfg & _).
  apply ib_history_config in Hh. rewrite Hcfg in Hh.
  assert (Hev : ∀ dnsview recordname text ttl useTtl comment,
            infoblox.EvCreateTXTRecord
              (infoblox.DNSView (infoblox.config (runtime.provider i)))
              (dns01.UnFqdn
                 (dns01.EffectiveFQDN
                    (dns01.GetChallengeInfo digest domain keyAuth)))
              (dns01.Value (dns01.GetChallengeInfo digest domain keyAuth))
              (infoblox.uint32
                 (infoblox.TTL (infoblox.config (runtime.provider i))))
              true "lego"
            = infoblox.EvCreateTXTRecord dnsview recordname text ttl useTtl
                comment →
            dnsview = infoblox.DNSView cfg
            ∧ ttl = (infoblox.TTL cfg mod 2 ^ 32)%Z
            ∧ (0 ≤ ttl < 2 ^ 32)%Z
            ∧ (ttl = infoblox.TTL cfg ↔ (0 ≤ infoblox.TTL cfg < 2 ^ 32)%Z)
            ∧ useTtl = true
            ∧ comment = "lego").
  { intros dnsview recordname text ttl useTtl comment.
    rewrite Hh. unfold infoblox.uint32. intros [= <- _ _ <- <- <-].
    pose proof (Z.mod_pos_bound (infoblox.TTL cfg) (2 ^ 32) ltac:(lia)).
    split_and!; [done|done|lia|lia| |done|done].
    split; [lia|]. intros Hrange. by apply Z.mod_small. }
  ib_Present_paths lib digest i domain token keyAuth; new_events_compute;
    repeat (apply List.Forall_cons;
            [first [exact Hev | intros; discriminate]|]);
    apply List.Forall_nil.
Qed.

Lemma infoblox_ttl_is_converted_to_uint32_witness :
  let cfg :=
    {| infoblox.Host := "grid.example.com";
       infoblox.Port := "443";
       infoblox.Username := "lego";
       infoblox.Password := "secret";
       infoblox.DNSView := "External";
       infoblox.WapiVersion := "2.11";
       infoblox.SSLVerify := true;
       infoblox.CACertificate := EmptyString;
       infoblox.PropagationTimeout := 0;
       infoblox.PollingInterval := 0;
       infoblox.TTL := -1;
       infoblox.HTTPTimeout := 30 |} in
  ∃ d,
    infoblox.NewDNSProviderConfig fixture.NewTransportConfig (Some cfg)
    = inr d
    ∧ runtime.new_events (runtime.mkState d [] [])
        (infoblox.Present fixture.lib_ok fixture.digest
           "example.com" "tok" "tok.thumb" (runtime.mkState d [] [])).2
        !! 1%nat
      = Some (infoblox.EvCreateTXTRecord "External"
                "_acme-challenge.example.com" "digest-of-tok.thumb"
                4294967295 true "lego").
Proof.
  intros cfg. eexists. split; [reflexivity|].
  pose proof (infoblox_ttl_is_converted_to_uint32
                fixture.NewTransportConfig fixture.lib_ok fixture.digest cfg
                (runtime.mkState _ [] []) (runtime.mkState _ [] []) []
                "example.com" "tok" "tok.thumb"
                eq_refl (runtime.history_nil _ _)) as _.
  reflexivity.
Defined.

(** ** Constructors *)

(** X12. [NewDNSProviderConfig] of the Infoblox provider checks the host
    first and the credentials second, and nothing else.  A nil
    configuration gives the nil error; otherwise the missing-host error
    is returned exactly when the host is empty, the missing-credentials
    error exactly when the host is set and the user name or the password
    is empty, and a provider is built exactly when all three are set:
    no TTL, port or timeout is ever refused. *)
Theorem infoblox_construction_checks_host_then_credentials
    (NewTransportConfig : string → Z → Z → infoblox.ibclient.TransportConfig)
    (cfg : infoblox.Config) :
  infoblox.NewDNSProviderConfig NewTransportConfig None
  = inl infoblox.ErrNilConfig
  ∧ (infoblox.NewDNSProviderConfig NewTransportConfig (Some cfg)
     = inl infoblox.ErrMissingHost
     ↔ infoblox.Host cfg = EmptyString)
  ∧ (infoblox.NewDNSProviderConfig NewTransportConfig (Some cfg)
     = inl infoblox.ErrMissingCredentials
     ↔ infoblox.Host cfg ≠ EmptyString
       ∧ (infoblox.Username cfg = EmptyString
          ∨ infoblox.Password cfg = EmptyString))
  ∧ ((∃ d, infoblox.NewDNSProviderConfig NewTransportConfig (Some cfg)
           = inr d)
     ↔ infoblox.Host cfg ≠ EmptyString
       ∧ infoblox.Username cfg ≠ EmptyString
       ∧ infoblox.Password cfg ≠ EmptyString).
Proof.
  unfold infoblox.NewDNSProviderConfig.
  split; [done|].
  destruct (String.eqb_spec (infoblox.Host cfg) EmptyString) as [Hh|Hh].
  { split_and!.
    - done.
    - split; [done|]. by intros [? _].
    - split; [by intros [d ?]|]. by intros [? _]. }
  destruct (String.eqb_spec (infoblox.Username cfg) EmptyString) as [Hu|Hu];
    destruct (String.eqb_spec (infoblox.Password cfg) EmptyString)
      as [Hp|Hp];
    cbn [orb]; (split_and!; [done| |]).
  1,3,5: split; [intros _|done]; split; [done|]; by (left + right).
  1,2,3: split; [by intros [d ?]|]; by intros (_ & ? & ?).
  - split; [done|]. by intros [_ [?|?]].
  - split; [intros _; done|]. intros _. by eexists.
Qed.



(** X14. [NewDNSProviderConfig] of the Cloudflare provider builds a
    provider exactly when the configuration is not nil, its TTL is at
    least 120 and [newClient] succeeds on it; the provider then holds that
    client, that configuration and an empty store.  A nil configuration
    gives the nil error, and with a valid TTL an error of [newClient] is
    returned wrapped. *)
Theorem cloudflare_construction_succeeds_iff {W : Type}
    (newClient : cloudflare.Config → ext_error + cloudflare.metaClient W)
    (cfg : cloudflare.Config) (d : cloudflare.DNSProvider W) :
  cloudflare.NewDNSProviderConfig newClient None
  = inl cloudflare.ErrNilConfig
  ∧ (cloudflare.NewDNSProviderConfig newClient (Some cfg) = inr d
     ↔ (120 ≤ cloudflare.TTL cfg)%Z
       ∧ ∃ client,
           newClient cfg = inr client
           ∧ d = cloudflare.mkDNSProvider client cfg ∅)
  ∧ (∀ err,
       cloudflare.NewDNSProviderConfig newClient (Some cfg)
       = inl (cloudflare.ErrNewClient err)
       ↔ (120 ≤ cloudflare.TTL cfg)%Z ∧ newClient cfg = inl err).
Proof.
  unfold cloudflare.NewDNSProviderConfig, cloudflare.minTTL.
  split_and!; [done| |intros err].
  - destruct (Z.ltb_spec (cloudflare.TTL cfg) 120) as [Hlt|Hge].
    + split; [done|lia].
    + destruct (newClient cfg) as [err|client].
      * split; [done|]. by intros (_ & client & ? & _).
      * split.
        -- intros [= <-]. split; [done|]. by exists client.
        -- by intros (_ & client' & [= <-] & ->).
  - destruct (Z.ltb_spec (cloudflare.TTL cfg) 120) as [Hlt|Hge].
    + split; [done|lia].
    + destruct (newClient cfg) as [err'|client].
      * split; [by intros [= ->]|by intros [_ [= ->]]].
      * split; [done|by intros [_ ?]].
Qed.

(** ** Names of environment variables *)

Section replace_all.
Import gostrings.

Lemma prefix_app (old s : string) : String.prefix old (old +:+ s) = true.
Proof.
  induction old as [|c old IH]; simpl.
  - by destruct s.
  - destruct (Ascii.ascii_dec c c); [exact IH|done].
Qed.

Lemma replace_from_skip (old new skipped s : string) :
  replace_from old new (String.length skipped) (skipped +:+ s)
  = replace_from old new 0 s.
Proof. induction skipped as [|c skipped IH]; [done|exact IH]. Qed.

Lemma ReplaceAll_prefix (c : Ascii.ascii) (old new s : string) :
  ReplaceAll (String c old +:+ s) (String c old) new
  = new +:+ ReplaceAll s (String c old) new.
Proof.
  unfold ReplaceAll. pose proof (prefix_app (String c old) s) as Hp.
  change (String c old +:+ s) with (String c (old +:+ s)) in *.
  cbn [replace_from]. rewrite Hp.
  replace (String.length (String c old) - 1) with (String.length old)
    by (cbn [String.length]; lia).
  by rewrite replace_from_skip.
Qed.

Lemma ReplaceAll_absent (c : Ascii.ascii) (old new s : string) :
  contains_byte c s = false → ReplaceAll s (String c old) new = s.
Proof.
  unfold ReplaceAll. induction s as [|c' s IH]; [done|].
  cbn [contains_byte replace_from String.prefix].
  intros [Hc Hs]%orb_false_iff.
  destruct (Ascii.ascii_dec c c') as [->|_].
  - by rewrite Ascii.eqb_refl in Hc.
  - by rewrite IH.
Qed.
End replace_all.

(** X15. [altEnvName] turns the namespace [CLOUDFLARE_] at the head of a
    name into [CF_] and goes on with the rest; a name without the byte
    [C] is left as it is.  So the alternative name of a variable
    [CLOUDFLARE_x], for [x] without a [C], is [CF_x]: this covers all the
    variable names of the package. *)
Theorem altEnvName_rewrites_the_namespace (suffix : string) :
  cloudflare.altEnvName (cloudflare.envNamespace +:+ suffix)
  = cloudflare.altEnvNamespace +:+ cloudflare.altEnvName suffix
  ∧ (gostrings.contains_byte (Ascii.ascii_of_nat 67) suffix = false →
     cloudflare.altEnvName suffix = suffix
     ∧ cloudflare.altEnvName (cloudflare.envNamespace +:+ suffix)
       = cloudflare.altEnvNamespace +:+ suffix).
Proof.
  assert (Hhead :
            cloudflare.altEnvName (cloudflare.envNamespace +:+ suffix)
            = cloudflare.altEnvNamespace +:+ cloudflare.altEnvName suffix).
  { unfold cloudflare.altEnvName, cloudflare.envNamespace.
    apply (ReplaceAll_prefix (Ascii.ascii_of_nat 67) "LOUDFLARE_"). }
  split; [exact Hhead|]. intros Hfree.
  assert (Hrest : cloudflare.altEnvName suffix = suffix).
  { unfold cloudflare.altEnvName, cloudflare.envNamespace.
    by apply (ReplaceAll_absent (Ascii.ascii_of_nat 67) "LOUDFLARE_"). }
  split; [exact Hrest|]. by rewrite Hhead, Hrest.
Qed.

Lemma altEnvName_rewrites_the_namespace_witness :
  cloudflare.altEnvName cloudflare.EnvPropagationTimeout
  = "CF_PROPAGATION_TIMEOUT"
  ∧ cloudflare.altEnvName "HTTP_TIMEOUT" = "HTTP_TIMEOUT".
Proof.
  destruct (proj2 (altEnvName_rewrites_the_namespace "PROPAGATION_TIMEOUT")
              eq_refl) as [_ Hname].
  destruct (proj2 (altEnvName_rewrites_the_namespace "HTTP_TIMEOUT")
              eq_refl) as [Hrest _].
  split; [exact Hname|exact Hrest].
Defined.

Example cloudflare_lookup_names :
  cloudflare.keyGroups
  = [["CLOUDFLARE_EMAIL"; "CF_API_EMAIL"];
     ["CLOUDFLARE_API_KEY"; "CF_API_KEY"]]
  ∧ cloudflare.tokenGroups
    = [["CLOUDFLARE_DNS_API_TOKEN"; "CF_DNS_API_TOKEN"];
       ["CLOUDFLARE_ZONE_API_TOKEN"; "CF_ZONE_API_TOKEN";
        "CLOUDFLARE_DNS_API_TOKEN"; "CF_DNS_API_TOKEN"]].
Proof. split; reflexivity. Qed.

(** ** Construction from the environment *)

(** X16. [NewDNSProvider] of the Cloudflare provider.  It fails with the
    credentials error, naming both lookup errors, exactly when the lookup
    of e-mail and API key and the lookup of the API tokens both fail.
    When the first lookup succeeds the second plays no part.  The TTL read
    from the environment is subject to the same floor as a configured one:
    below 120 the invalid-TTL error is passed on.  A provider that is
    built has an empty store and a configuration holding the TTL and
    timeouts read from the environment, with their defaults and
    alternative names, and the credentials of the lookup that succeeded. *)
Theorem cloudflare_provider_from_environment {W : Type}
    (getenv : env.Reader) (DefaultPollingInterval : Z)
    (newClient : cloudflare.Config → ext_error + cloudflare.metaClient W) :
  let result :=
    cloudflare.NewDNSProvider getenv DefaultPollingInterval newClient in
  let ttl :=
    env.GetOneWithFallback_int getenv "CLOUDFLARE_TTL" 120 ["CF_TTL"] in
  let found values :=
    env.GetWithFallback getenv cloudflare.keyGroups = inr values
    ∨ (∃ err, env.GetWithFallback getenv cloudflare.keyGroups = inl err)
      ∧ env.GetWithFallback getenv cloudflare.tokenGroups = inr values in
  (∀ err errT,
     result = inl (cloudflare.ErrCredentials err errT)
     ↔ env.GetWithFallback getenv cloudflare.keyGroups = inl err
       ∧ env.GetWithFallback getenv cloudflare.tokenGroups = inl errT)
  ∧ (∀ values, found values → (ttl < 120)%Z →
       result
       = inl (cloudflare.ErrFromConfig (cloudflare.ErrInvalidTTL ttl 120)))
  ∧ (∀ d, result = inr d →
       cloudflare.recordIDs d = ∅
       ∧ (120 ≤ ttl)%Z
       ∧ cloudflare.TTL (cloudflare.config d) = ttl
       ∧ cloudflare.PropagationTimeout (cloudflare.config d)
         = env.GetOneWithFallback_second getenv
             "CLOUDFLARE_PROPAGATION_TIMEOUT" 120000000000
             ["CF_PROPAGATION_TIMEOUT"]
       ∧ cloudflare.PollingInterval (cloudflare.config d)
         = env.GetOneWithFallback_second getenv
             "CLOUDFLARE_POLLING_INTERVAL" DefaultPollingInterval
             ["CF_POLLING_INTERVAL"]
       ∧ cloudflare.HTTPClient (cloudflare.config d)
         = Some (cloudflare.http.mkClient
                   (env.GetOneWithFallback_second getenv
                      "CLOUDFLARE_HTTP_TIMEOUT" 30000000000
                      ["CF_HTTP_TIMEOUT"]))
       ∧ cloudflare.BaseURL (cloudflare.config d)
         = env.GetOrFile getenv "CLOUDFLARE_BASE_URL"
       ∧ newClient (cloudflare.config d) = inr (cloudflare.client d)
       ∧ ∃ values,
           found values
           ∧ cloudflare.AuthEmail (cloudflare.config d)
             = env.index values "CLOUDFLARE_EMAIL"
           ∧ cloudflare.AuthKey (cloudflare.config d)
             = env.index values "CLOUDFLARE_API_KEY"
           ∧ cloudflare.AuthToken (cloudflare.config d)
             = env.index values "CLOUDFLARE_DNS_API_TOKEN"
           ∧ cloudflare.ZoneToken (cloudflare.config d)
             = env.index values "CLOUDFLARE_ZONE_API_TOKEN").
Proof.
  intros result ttl found. subst result found.
  unfold cloudflare.NewDNSProvider.
  set (config_of := λ values : gmap string string,
         {| cloudflare.AuthEmail := env.index values cloudflare.EnvEmail;
            cloudflare.AuthKey := env.index values cloudflare.EnvAPIKey;
            cloudflare.AuthToken :=
              env.index values cloudflare.EnvDNSAPIToken;
            cloudflare.ZoneToken :=
              env.index values cloudflare.EnvZoneAPIToken;
            cloudflare.BaseURL := env.GetOrFile getenv cloudflare.EnvBaseURL;
            cloudflare.TTL :=
              cloudflare.TTL
                (cloudflare.NewDefaultConfig getenv DefaultPollingInterval);
            cloudflare.PropagationTimeout :=
              cloudflare.PropagationTimeout
                (cloudflare.NewDefaultConfig getenv DefaultPollingInterval);
            cloudflare.PollingInterval :=
              cloudflare.PollingInterval
                (cloudflare.NewDefaultConfig getenv DefaultPollingInterval);
            cloudflare.HTTPClient :=
              cloudflare.HTTPClient
                (cloudflare.NewDefaultConfig getenv DefaultPollingInterval)
         |}).
  assert (Hconfig : ∀ values,
            ((ttl < 120)%Z →
             cloudflare.NewDNSProviderConfig newClient
               (Some (config_of values))
             = inl (cloudflare.ErrInvalidTTL ttl 120))
            ∧ ∀ d,
                cloudflare.NewDNSProviderConfig newClient
                  (Some (config_of values)) = inr d →
                cloudflare.config d = config_of values
                ∧ cloudflare.recordIDs d = ∅
                ∧ newClient (cloudflare.config d) = inr (cloudflare.client d)
                ∧ (120 ≤ ttl)%Z).
  { intros values. split.
    - intros Hlow. unfold cloudflare.NewDNSProviderConfig.
      change (cloudflare.TTL (config_of values)) with ttl.
      change cloudflare.minTTL with 120%Z.
      by apply Z.ltb_lt in Hlow as ->.
    - intros d Hd.
      apply cf_NewDNSProviderConfig_ok in Hd as (Hc & Hs & Hn & Hf).
      by rewrite Hc. }
  split_and!.
  - intros err errT.
    destruct (env.GetWithFallback getenv cloudflare.keyGroups)
      as [err1|values1].
    + destruct (env.GetWithFallback getenv cloudflare.tokenGroups)
        as [err2|values2].
      * split; [by intros [= -> ->]|by intros [[= ->] [= ->]]].
      * split; [|by intros [_ ?]].
        by destruct (cloudflare.NewDNSProviderConfig _ _).
    + split; [|by intros [? _]].
      by destruct (cloudflare.NewDNSProviderConfig _ _).
  - intros values [Hkey|[[err Hkey] Htok]] Hlow; rewrite Hkey;
      [|rewrite Htok]; cbv beta iota zeta; fold (config_of values);
      by rewrite (proj1 (Hconfig values) Hlow).
  - intros d Hres.
    assert (∃ values,
              (env.GetWithFallback getenv cloudflare.keyGroups = inr values
               ∨ (∃ err,
                    env.GetWithFallback getenv cloudflare.keyGroups = inl err)
                 ∧ env.GetWithFallback getenv cloudflare.tokenGroups
                   = inr values)
              ∧ cloudflare.NewDNSProviderConfig newClient
                  (Some (config_of values)) = inr d)
      as (values & Hfound & Hd).
    { destruct (env.GetWithFallback getenv cloudflare.keyGroups)
        as [err1|values].
      - destruct (env.GetWithFallback getenv cloudflare.tokenGroups)
          as [err2|values]; [done|].
        exists values. split; [right; split; [by eexists|done]|].
        cbv beta iota zeta in Hres. fold (config_of values) in Hres.
        by destruct (cloudflare.NewDNSProviderConfig _ _) as [e|d'];
          [|injection Hres as ->].
      - exists values. split; [by left|].
        cbv beta iota zeta in Hres. fold (config_of values) in Hres.
        by destruct (cloudflare.NewDNSProviderConfig _ _) as [e|d'];
          [|injection Hres as ->]. }
    destruct (proj2 (Hconfig values) d Hd) as (Hc & Hs & Hn & Hf).
    rewrite Hc in Hn |- *.
    split_and!; [exact Hs|exact Hf|reflexivity..|exact Hn|].
    exists values. split_and!; [exact Hfound|reflexivity..].
Qed.

Lemma cloudflare_provider_from_environment_witness :
  ∃ d,
    cloudflare.NewDNSProvider fixture.getenv 2000000000 fixture.newClient
    = inr d
    ∧ cloudflare.TTL (cloudflare.config d) = 120%Z
    ∧ cloudflare.AuthToken (cloudflare.config d) = "dns-token"
    ∧ cloudflare.ZoneToken (cloudflare.config d) = "dns-token"
    ∧ cloudflare.AuthEmail (cloudflare.config d) = EmptyString
    ∧ cloudflare.recordIDs d = ∅.
Proof.
  eexists. split; [reflexivity|].
  destruct (proj2 (proj2 (cloudflare_provider_from_environment
                            fixture.getenv 2000000000 fixture.newClient))
              _ eq_refl) as (Hstore & _ & Httl & _).
  split_and!; [reflexivity|reflexivity|reflexivity|reflexivity|exact Hstore].
Defined.

(** X17. [NewDNSProvider] of the Infoblox provider.  It fails with the
    environment error exactly when the lookup of host, user name and
    password fails.  It builds a provider exactly when the lookup
    succeeds with a non-empty value for each of the three; a value that
    is missing from the lookup result counts as empty and gives the
    missing-host or missing-credentials error.  The provider takes host
    and credentials from the lookup and port, version, view and TTL from
    the environment with the defaults "443", "2.11", "External" and
    [dns01.DefaultTTL]. *)
Theorem infoblox_provider_from_environment
    (getenv : env.Reader)
    (NewTransportConfig : string → Z → Z → infoblox.ibclient.TransportConfig)
    (DefaultTTL DefaultPropagationTimeout DefaultPollingInterval : Z) :
  let result :=
    infoblox.NewDNSProvider getenv NewTransportConfig DefaultTTL
      DefaultPropagationTimeout DefaultPollingInterval in
  let lookup :=
    env.Get getenv ["INFOBLOX_HOST"; "INFOBLOX_USERNAME"; "INFOBLOX_PASSWORD"]
  in
  (∀ err, result = inl (infoblox.ErrEnv err) ↔ lookup = inl err)
  ∧ ((∃ d, result = inr d)
     ↔ ∃ values,
         lookup = inr values
         ∧ env.index values "INFOBLOX_HOST" ≠ EmptyString
         ∧ env.index values "INFOBLOX_USERNAME" ≠ EmptyString
         ∧ env.index values "INFOBLOX_PASSWORD" ≠ EmptyString)
  ∧ (∀ values, lookup = inr values →
       env.index values "INFOBLOX_HOST" = EmptyString →
       result = inl (infoblox.ErrFromConfig infoblox.ErrMissingHost))
  ∧ (∀ d, result = inr d →
       ∃ values,
         lookup = inr values
         ∧ infoblox.ibConfig d
           = infoblox.ibclient.mkHostConfig
               (env.index values "INFOBLOX_HOST")
               (env.GetOrDefaultString getenv "INFOBLOX_WAPI_VERSION" "2.11")
               (env.GetOrDefaultString getenv "INFOBLOX_PORT" "443")
         ∧ infoblox.ibAuth d
           = infoblox.ibclient.mkAuthConfig
               (env.index values "INFOBLOX_USERNAME")
               (env.index values "INFOBLOX_PASSWORD")
         ∧ infoblox.DNSView (infoblox.config d)
           = env.GetOrDefaultString getenv "INFOBLOX_DNS_VIEW" "External"
         ∧ infoblox.TTL (infoblox.config d)
           = env.GetOrDefaultInt getenv "INFOBLOX_TTL" DefaultTTL
         ∧ infoblox.recordRefs d = ∅).
Proof.
  intros result lookup. subst result lookup.
  unfold infoblox.NewDNSProvider.
  change [infoblox.EnvHost; infoblox.EnvUsername; infoblox.EnvPassword]
    with ["INFOBLOX_HOST"; "INFOBLOX_USERNAME"; "INFOBLOX_PASSWORD"].
  destruct (env.Get getenv _) as [err|values] eqn:Hget.
  { split_and!.
    - intros err'. split; [by intros [= ->]|by intros [= ->]].
    - split; [by intros [d ?]|by intros (? & ? & _)].
    - done.
    - done. }
  cbv beta iota zeta. unfold infoblox.NewDNSProviderConfig.
  cbn [infoblox.Host infoblox.Username infoblox.Password
       infoblox.CACertificate infoblox.SSLVerify infoblox.HTTPTimeout
       infoblox.WapiVersion infoblox.Port].
  change infoblox.EnvHost with "INFOBLOX_HOST".
  change infoblox.EnvUsername with "INFOBLOX_USERNAME".
  change infoblox.EnvPassword with "INFOBLOX_PASSWORD".
  destruct (String.eqb_spec (env.index values "INFOBLOX_HOST") EmptyString)
    as [Hh|Hh].
  { split_and!.
    - intros err'. split; [done|by intros [= ]].
    - split; [by intros [d ?]|]. by intros (values' & [= <-] & ? & _).
    - done.
    - done. }
  destruct (String.eqb_spec (env.index values "INFOBLOX_USERNAME")
              EmptyString) as [Hu|Hu];
    destruct (String.eqb_spec (env.index values "INFOBLOX_PASSWORD")
                EmptyString) as [Hp|Hp];
    cbn [orb].
  1,2,3: split_and!;
    [ intros err'; split; [done|by intros [= ]]
    | split; [by intros [d ?]|]; by intros (values' & [= <-] & ? & ? & ?)
    | by intros values' [= <-] ?
    | done ].
  split_and!.
  - intros err'. split; [done|by intros [= ]].
  - split; [intros _|by eexists]. by exists values.
  - by intros values' [= <-] ?.
  - intros d [= <-]. exists values. cbn. done.
Qed.

Lemma infoblox_provider_from_environment_witness :
  infoblox.NewDNSProvider fixture.getenv fixture.NewTransportConfig
    120 60000000000 2000000000
  = inr (fixture.ib_provider ∅).
Proof.
  destruct (proj1 (proj1 (proj2 (infoblox_provider_from_environment
                                   fixture.getenv fixture.NewTransportConfig
                                   120 60000000000 2000000000)))
              (ex_intro _ (fixture.ib_provider ∅) eq_refl))
    as (values & _).
  reflexivity.
Defined.

(** ** Failed calls *)

(** X18. A call that returns an error has changed nothing in the
    provider: client, configuration and store are as before, so the call
    can be repeated.  For [Present] and [CleanUp] of both providers, and
    whatever step failed. *)
Theorem failed_call_leaves_the_provider_unchanged {Wc Wi : Type}
    (FindZoneByFqdn : string → Wc → (ext_error + string) * Wc)
    (lib : infoblox.ibclient.Library Wi)
    (digest : string → string)
    (call : runtime.Call)
    (c : runtime.State (cloudflare.DNSProvider Wc) Wc cloudflare.Event)
    (i : runtime.State infoblox.DNSProvider Wi infoblox.Event)
    (cerr : cloudflare.error) (ierr : infoblox.error) :
  ((cloudflare.run_call FindZoneByFqdn digest call c).1 = inl cerr →
   runtime.provider (cloudflare.run_call FindZoneByFqdn digest call c).2
   = runtime.provider c)
  ∧ ((infoblox.run_call lib digest call i).1 = inl ierr →
     runtime.provider (infoblox.run_call lib digest call i).2
     = runtime.provider i).
Proof.
  destruct call as [domain token keyAuth|domain token keyAuth];
    cbv beta iota delta [cloudflare.run_call infoblox.run_call]; split.
  - destruct (cf_Present_run FindZoneByFqdn digest c domain token keyAuth)
      as (_ & _ & _ & Hp).
    by destruct (cloudflare.Present _ _ _ _ _ c) as [[e|[]] c'].
  - destruct (ib_Present_run lib digest i domain token keyAuth)
      as (_ & _ & _ & Hp).
    by destruct (infoblox.Present _ _ _ _ _ i) as [[e|[]] i'].
  - destruct (cf_CleanUp_run FindZoneByFqdn digest c domain token keyAuth)
      as (_ & _ & _ & Hp).
    by destruct (cloudflare.CleanUp _ _ _ _ _ c) as [[e|[]] c'].
  - destruct (ib_CleanUp_run lib digest i domain token keyAuth)
      as (_ & _ & _ & Hp).
    by destruct (infoblox.CleanUp _ _ _ _ _ i) as [[e|[]] i'].
Qed.

Lemma failed_call_leaves_the_provider_unchanged_witness :
  let call := runtime.CallPresent "example.com" "tok" "tok.thumb" in
  let c :=
    fixture.cf_state fixture.client_denied {[ "tok" := "rec-0" ]} [] in
  let i := fixture.ib_state {[ "tok" := "record:txt/0" ]} [] in
  runtime.provider
    (cloudflare.run_call fixture.FindZoneByFqdn fixture.digest call c).2
  = runtime.provider c
  ∧ runtime.provider
      (infoblox.run_call fixture.lib_down fixture.digest call i).2
    = runtime.provider i.
Proof.
  intros call c i.
  destruct (failed_call_leaves_the_provider_unchanged
              fixture.FindZoneByFqdn fixture.lib_down fixture.digest
              call c i
              (cloudflare.ErrZoneID "example.com." AuthenticationError)
              (infoblox.ErrConnector TransportError)) as [Hc Hi].
  split; [exact (Hc eq_refl)|exact (Hi eq_refl)].
Defined.
